(** * Picoflexx_Source: the Pico Flexx capture backend (backend.py)

    A shallow embedding of [Picoflexx_Source]: the connection life cycle
    ([init_device], [attempt_reconnect]), the frame acquisition tick
    ([get_frames]) with its timestamp offset and its failure tracker, the
    exposure clamp of [load_camera_state], and the point-cloud recording
    coordinator ([on_notify], [on_disconnection], [on_reconnection],
    [start_pointcloud_recording], [stop_pointcloud_recording]).

    Python floats are Rocq's primitive binary64 floats, Python ints are [Z].
    The Royale camera SDK and the host clocks are interfaces: every method of
    the object is a transition on an abstract object state.  Each call, each
    notification, each log line and each file write is also appended to a
    chronological event trace, together with the value the call returned. *)

From Stdlib Require Import ZArith List String Ascii Bool Lia Floats.
From Stdlib Require Import DecimalString DecimalZ DecimalPos.
Import ListNotations.

Open Scope string_scope.
Open Scope Z_scope.

(** ** Frames *)

(** A frame: the image payload plays no part in the backend's control logic;
    the device-clock [timestamp] and the exposure metadata are kept. *)
Record Frame : Type := mkFrame {
  timestamp : float;
  exposure_times : list Z
}.

Record FramePair : Type := mkFramePair {
  ir : Frame;
  depth : Frame
}.

(** [frame.timestamp += offset] *)
Definition shift_frame (offset : float) (f : Frame) : Frame :=
  mkFrame (PrimFloat.add (timestamp f) offset) (exposure_times f).

(** ** Notifications (Python dicts with a mandatory "subject") *)

Record Notification : Type := mkNotification {
  subject : string;
  delay : option float;
  exposure : option Z;
  rec_path : option string
}.

Definition plain_notification (subj : string) : Notification :=
  mkNotification subj None None None.

Definition set_exposure_notification (e : Z) : Notification :=
  mkNotification "picoflexx.set_exposure" (Some 0x1.3333333333333p-2%float)
                 (Some e) None.

Definition recording_started (dir : string) : Notification :=
  mkNotification "recording.started" None None (Some dir).

Definition recording_stopped : Notification :=
  plain_notification "recording.stopped".

(** ** UI widgets: only the attributes the backend writes *)

Record Slider : Type := mkSlider {
  slider_read_only : bool;
  minimum : Z;
  maximum : Z
}.

Record Widget : Type := mkWidget { read_only : bool }.

(** ** Observable events *)

Inductive Level : Type := DEBUG | INFO | WARNING | ERROR.

Inductive Event : Type :=
| CamInitialize (result : bool)
| CamIsConnected (result : bool)
| CamIsCapturing (result : bool)
| CamSetUsecase (usecase : string)
| CamGetCurrentUsecase (result : string)
| CamGetExposureMode (result : bool)
| CamSetExposureMode (wanted applied : bool)
| CamGetExposureLimits (low high : Z)
| CamSetExposure (value : Z)
| CamGetFrame (result : option FramePair)
| CamStartRecording (path : string)
| CamStopRecording
| CamClose
| NotifyAll (n : Notification)
| Log (lvl : Level) (msg : string)
| FileOpen (path mode : string)
| WriteKeyValueFile (path key : string) (value : option float) (append : bool).

(** ** Reading the trace *)

Definition pick_attempt (e : Event) : list unit :=
  match e with
  | Log DEBUG msg => if String.eqb msg "attempt_reconnect()" then [tt] else []
  | _ => []
  end.

(** How many times [attempt_reconnect] was entered. *)
Definition attempts (tr : list Event) : nat :=
  List.length (flat_map pick_attempt tr).

Definition pick_reconnected (e : Event) : list unit :=
  match e with
  | NotifyAll n =>
      if String.eqb (subject n) "picoflexx.reconnected" then [tt] else []
  | _ => []
  end.

(** How many times the connection was restored. *)
Definition reconnections (tr : list Event) : nat :=
  List.length (flat_map pick_reconnected tr).

(** The steps of the connection protocol that can be observed. *)
Inductive ConnectionEvent : Type :=
| Announced                 (* "picoflexx.disconnected" was sent *)
| Initialized (ok : bool)   (* [camera.initialize()] returned [ok] *)
| Restored.                 (* "picoflexx.reconnected" was sent *)

Definition pick_connection (e : Event) : list ConnectionEvent :=
  match e with
  | NotifyAll n =>
      if String.eqb (subject n) "picoflexx.disconnected" then [Announced]
      else if String.eqb (subject n) "picoflexx.reconnected" then [Restored]
      else []
  | CamInitialize ok => [Initialized ok]
  | _ => []
  end.

(** The connection protocol as it went, in order. *)
Definition connection_log (tr : list Event) : list ConnectionEvent :=
  flat_map pick_connection tr.

Definition pick_started (e : Event) : list string :=
  match e with CamStartRecording p => [p] | _ => [] end.

(** The segment files opened by [camera.start_recording], in order. *)
Definition started_paths (tr : list Event) : list string :=
  flat_map pick_started tr.

Definition pick_frame (e : Event) : list FramePair :=
  match e with CamGetFrame (Some fp) => [fp] | _ => [] end.

(** The frame pairs the device delivered, in order. *)
Definition frames_received (tr : list Event) : list FramePair :=
  flat_map pick_frame tr.

Definition pick_limits (e : Event) : list Z :=
  match e with CamGetExposureLimits _ high => [high] | _ => [] end.

(** The exposure maxima the device reported, in order. *)
Definition reported_maxima (tr : list Event) : list Z :=
  flat_map pick_limits tr.

Definition pick_failed_check (e : Event) : list Event :=
  match e with
  | CamIsConnected false | CamIsCapturing false => [e]
  | _ => []
  end.

(** The connection and capture checks the device answered with [false]. *)
Definition failed_checks (tr : list Event) : list Event :=
  flat_map pick_failed_check tr.

Definition is_camera_call (e : Event) : bool :=
  match e with
  | NotifyAll _ | Log _ _ | FileOpen _ _ | WriteKeyValueFile _ _ _ _ => false
  | _ => true
  end.

(** The calls made on the device. *)
Definition camera_calls (tr : list Event) : list Event :=
  filter is_camera_call tr.

Definition shift_pair (offset : float) (fp : FramePair) : FramePair :=
  mkFramePair (shift_frame offset (ir fp)) (shift_frame offset (depth fp)).

(** ** Python library functions used by the backend *)

(** [str(n)] for an int, as used by ["{}".format(n)]. *)
Definition str (n : Z) : string := NilZero.string_of_int (Z.to_int n).

Fixpoint endswith_sep (s : string) : bool :=
  match s with
  | EmptyString => false
  | String c EmptyString => Ascii.eqb c "/"
  | String _ rest => endswith_sep rest
  end.

Definition startswith_sep (s : string) : bool :=
  match s with
  | String c _ => Ascii.eqb c "/"
  | EmptyString => false
  end.

(** [os.path.join(a, b)] of posixpath, for two components. *)
Definition os_path_join (a b : string) : string :=
  if startswith_sep b then b
  else if String.eqb a "" || endswith_sep a then a ++ b
  else a ++ "/" ++ b.

(** ** The external objects *)

(** [picoflexx.royale.RoyaleCameraDevice]: each method is a transition on the
    device object's state [C], returning what the call returns. *)
Class RoyaleCameraDevice (C : Type) : Type := {
  cam_initialize : C -> bool * C;
  cam_is_connected : C -> bool * C;
  cam_is_capturing : C -> bool * C;
  cam_set_usecase : string -> C -> unit * C;
  cam_get_current_usecase : C -> string * C;
  cam_get_exposure_mode : C -> bool * C;
  cam_set_exposure_mode : bool -> C -> bool * C;
  cam_get_exposure_limits : C -> (Z * Z) * C;
  cam_set_exposure : Z -> C -> unit * C;
  cam_get_frame : C -> option FramePair * C;
  cam_start_recording : string -> C -> unit * C;
  cam_stop_recording : C -> unit * C;
  cam_close : C -> unit * C
}.

(** The two clocks: [time.time()] (Unix time, the epoch of the device's frame
    timestamps) and [g_pool.get_timestamp()] (Pupil time). *)
Class HostClock (K : Type) : Type := {
  clock_time : K -> float * K;
  clock_get_timestamp : K -> float * K
}.

(** ** Exceptions and the state-and-error monad *)

Inductive Exn : Type := AttributeError | KeyError | OSError.

Inductive Res (A : Type) : Type :=
| Ok (a : A)
| Raise (e : Exn).
Arguments Ok {A} a.
Arguments Raise {A} e.

Section Backend.

Context {C K : Type} {Cam : RoyaleCameraDevice C} {Clk : HostClock K}.

(** The attributes of a [Picoflexx_Source] that the modelled methods read or
    write.  [camera] is [None] once [cleanup] has dropped the device object;
    [menu] is the truth value of [self.menu] (false until [init_ui] has added
    a menu); the three widgets are [None] until [update_ui] has built them. *)
Record Picoflexx_Source : Type := mkSource {
  camera : option C;
  menu : bool;
  selected_usecase : option string;
  frame_count : Z;
  record_pointcloud : bool;
  royale_timestamp_offset : option float;
  _last_frame_time : float;
  _missed_frame_count : Z;
  _reconnection_attempts : Z;
  _recording_reconnection_count : Z;
  _ui_exposure : option Slider;
  _ui_usecase : option Widget;
  _switch_record_pointcloud : option Widget;
  current_exposure : Z;
  _current_exposure_mode : bool;
  _recording_directory : option string
}.

(** Attribute assignments, [self.<attribute> = v]. *)
Definition upd_camera (v : option C) (s : Picoflexx_Source)
  : Picoflexx_Source :=
  mkSource v (menu s) (selected_usecase s) (frame_count s)
    (record_pointcloud s) (royale_timestamp_offset s) (_last_frame_time s)
    (_missed_frame_count s) (_reconnection_attempts s)
    (_recording_reconnection_count s) (_ui_exposure s) (_ui_usecase s)
    (_switch_record_pointcloud s) (current_exposure s)
    (_current_exposure_mode s) (_recording_directory s).

Definition upd_selected_usecase (v : option string) (s : Picoflexx_Source)
  : Picoflexx_Source :=
  mkSource (camera s) (menu s) v (frame_count s) (record_pointcloud s)
    (royale_timestamp_offset s) (_last_frame_time s) (_missed_frame_count s)
    (_reconnection_attempts s) (_recording_reconnection_count s)
    (_ui_exposure s) (_ui_usecase s) (_switch_record_pointcloud s)
    (current_exposure s) (_current_exposure_mode s) (_recording_directory s).

Definition upd_frame_count (v : Z) (s : Picoflexx_Source)
  : Picoflexx_Source :=
  mkSource (camera s) (menu s) (selected_usecase s) v (record_pointcloud s)
    (royale_timestamp_offset s) (_last_frame_time s) (_missed_frame_count s)
    (_reconnection_attempts s) (_recording_reconnection_count s)
    (_ui_exposure s) (_ui_usecase s) (_switch_record_pointcloud s)
    (current_exposure s) (_current_exposure_mode s) (_recording_directory s).

Definition upd_royale_timestamp_offset (v : option float) (s : Picoflexx_Source)
  : Picoflexx_Source :=
  mkSource (camera s) (menu s) (selected_usecase s) (frame_count s)
    (record_pointcloud s) v (_last_frame_time s) (_missed_frame_count s)
    (_reconnection_attempts s) (_recording_reconnection_count s)
    (_ui_exposure s) (_ui_usecase s) (_switch_record_pointcloud s)
    (current_exposure s) (_current_exposure_mode s) (_recording_directory s).

Definition upd_last_frame_time (v : float) (s : Picoflexx_Source)
  : Picoflexx_Source :=
  mkSource (camera s) (menu s) (selected_usecase s) (frame_count s)
    (record_pointcloud s) (royale_timestamp_offset s) v
    (_missed_frame_count s) (_reconnection_attempts s)
    (_recording_reconnection_count s) (_ui_exposure s) (_ui_usecase s)
    (_switch_record_pointcloud s) (current_exposure s)
    (_current_exposure_mode s) (_recording_directory s).

Definition upd_missed_frame_count (v : Z) (s : Picoflexx_Source)
  : Picoflexx_Source :=
  mkSource (camera s) (menu s) (selected_usecase s) (frame_count s)
    (record_pointcloud s) (royale_timestamp_offset s) (_last_frame_time s) v
    (_reconnection_attempts s) (_recording_reconnection_count s)
    (_ui_exposure s) (_ui_usecase s) (_switch_record_pointcloud s)
    (current_exposure s) (_current_exposure_mode s) (_recording_directory s).

Definition upd_reconnection_attempts (v : Z) (s : Picoflexx_Source)
  : Picoflexx_Source :=
  mkSource (camera s) (menu s) (selected_usecase s) (frame_count s)
    (record_pointcloud s) (royale_timestamp_offset s) (_last_frame_time s)
    (_missed_frame_count s) v (_recording_reconnection_count s)
    (_ui_exposure s) (_ui_usecase s) (_switch_record_pointcloud s)
    (current_exposure s) (_current_exposure_mode s) (_recording_directory s).

Definition upd_recording_reconnection_count (v : Z) (s : Picoflexx_Source)
  : Picoflexx_Source :=
  mkSource (camera s) (menu s) (selected_usecase s) (frame_count s)
    (record_pointcloud s) (royale_timestamp_offset s) (_last_frame_time s)
    (_missed_frame_count s) (_reconnection_attempts s) v (_ui_exposure s)
    (_ui_usecase s) (_switch_record_pointcloud s) (current_exposure s)
    (_current_exposure_mode s) (_recording_directory s).

Definition upd_ui_exposure (v : option Slider) (s : Picoflexx_Source)
  : Picoflexx_Source :=
  mkSource (camera s) (menu s) (selected_usecase s) (frame_count s)
    (record_pointcloud s) (royale_timestamp_offset s) (_last_frame_time s)
    (_missed_frame_count s) (_reconnection_attempts s)
    (_recording_reconnection_count s) v (_ui_usecase s)
    (_switch_record_pointcloud s) (current_exposure s)
    (_current_exposure_mode s) (_recording_directory s).

Definition upd_ui_usecase (v : option Widget) (s : Picoflexx_Source)
  : Picoflexx_Source :=
  mkSource (camera s) (menu s) (selected_usecase s) (frame_count s)
    (record_pointcloud s) (royale_timestamp_offset s) (_last_frame_time s)
    (_missed_frame_count s) (_reconnection_attempts s)
    (_recording_reconnection_count s) (_ui_exposure s) v
    (_switch_record_pointcloud s) (current_exposure s)
    (_current_exposure_mode s) (_recording_directory s).

Definition upd_switch_record_pointcloud (v : option Widget) (s : Picoflexx_Source)
  : Picoflexx_Source :=
  mkSource (camera s) (menu s) (selected_usecase s) (frame_count s)
    (record_pointcloud s) (royale_timestamp_offset s) (_last_frame_time s)
    (_missed_frame_count s) (_reconnection_attempts s)
    (_recording_reconnection_count s) (_ui_exposure s) (_ui_usecase s) v
    (current_exposure s) (_current_exposure_mode s) (_recording_directory s).

Definition upd_current_exposure (v : Z) (s : Picoflexx_Source)
  : Picoflexx_Source :=
  mkSource (camera s) (menu s) (selected_usecase s) (frame_count s)
    (record_pointcloud s) (royale_timestamp_offset s) (_last_frame_time s)
    (_missed_frame_count s) (_reconnection_attempts s)
    (_recording_reconnection_count s) (_ui_exposure s) (_ui_usecase s)
    (_switch_record_pointcloud s) v (_current_exposure_mode s)
    (_recording_directory s).

Definition upd_current_exposure_mode (v : bool) (s : Picoflexx_Source)
  : Picoflexx_Source :=
  mkSource (camera s) (menu s) (selected_usecase s) (frame_count s)
    (record_pointcloud s) (royale_timestamp_offset s) (_last_frame_time s)
    (_missed_frame_count s) (_reconnection_attempts s)
    (_recording_reconnection_count s) (_ui_exposure s) (_ui_usecase s)
    (_switch_record_pointcloud s) (current_exposure s) v
    (_recording_directory s).

Definition upd_recording_directory (v : option string) (s : Picoflexx_Source)
  : Picoflexx_Source :=
  mkSource (camera s) (menu s) (selected_usecase s) (frame_count s)
    (record_pointcloud s) (royale_timestamp_offset s) (_last_frame_time s)
    (_missed_frame_count s) (_reconnection_attempts s)
    (_recording_reconnection_count s) (_ui_exposure s) (_ui_usecase s)
    (_switch_record_pointcloud s) (current_exposure s)
    (_current_exposure_mode s) v.

(** The program state: the source object, the clocks and the trace. *)
Record St : Type := mkSt {
  self : Picoflexx_Source;
  clock : K;
  trace : list Event
}.

Definition M (A : Type) : Type := St -> Res A * St.

Definition ret {A : Type} (a : A) : M A := fun st => (Ok a, st).

Definition bind {A B : Type} (m : M A) (k : A -> M B) : M B :=
  fun st =>
    match m st with
    | (Ok a, st') => k a st'
    | (Raise e, st') => (Raise e, st')
    end.

Notation "x <- m ;; k" := (bind m (fun x => k))
  (at level 61, m at next level, right associativity).
Notation "m ;; k" := (bind m (fun _ => k))
  (at level 61, right associativity).

Definition raise {A : Type} (e : Exn) : M A := fun st => (Raise e, st).

Definition get_self : M Picoflexx_Source := fun st => (Ok (self st), st).

Definition modify (f : Picoflexx_Source -> Picoflexx_Source) : M unit :=
  fun st => (Ok tt, mkSt (f (self st)) (clock st) (trace st)).

Definition emit (e : Event) : M unit :=
  fun st => (Ok tt, mkSt (self st) (clock st) (trace st ++ [e])).

Definition when (b : bool) (m : M unit) : M unit := if b then m else ret tt.

(** [self.camera.<method>(...)]: AttributeError when [self.camera is None]. *)
Definition call_camera {A : Type} (method : C -> A * C) (ev : A -> Event)
  : M A :=
  fun st =>
    match camera (self st) with
    | None => (Raise AttributeError, st)
    | Some c =>
        let (a, c') := method c in
        (Ok a, mkSt (upd_camera (Some c') (self st)) (clock st)
                    (trace st ++ [ev a]))
    end.

(** [time()] *)
Definition time : M float :=
  fun st => let (t, k) := clock_time (clock st) in
            (Ok t, mkSt (self st) k (trace st)).

(** [self.g_pool.get_timestamp()] *)
Definition g_pool_get_timestamp : M float :=
  fun st => let (t, k) := clock_get_timestamp (clock st) in
            (Ok t, mkSt (self st) k (trace st)).

Definition logger (lvl : Level) (msg : string) : M unit := emit (Log lvl msg).

Definition notify_all (n : Notification) : M unit := emit (NotifyAll n).

(** ** The methods of [Picoflexx_Source] *)

(** [online]: [self.camera and self.camera.is_connected() and
    self.camera.is_capturing()], evaluated left to right. *)
Definition online : M bool :=
  s <- get_self ;;
  match camera s with
  | None => ret false
  | Some _ =>
      c <- call_camera cam_is_connected CamIsConnected ;;
      if c then call_camera cam_is_capturing CamIsCapturing else ret false
  end.

Definition set_exposure (e : Z) : M unit :=
  call_camera (cam_set_exposure e) (fun _ => CamSetExposure e).

Definition get_exposure_mode : M bool :=
  call_camera cam_get_exposure_mode CamGetExposureMode.

Definition set_exposure_mode (exposure_mode : bool) : M unit :=
  applied <- call_camera (cam_set_exposure_mode exposure_mode)
                         (CamSetExposureMode exposure_mode) ;;
  modify (upd_current_exposure_mode applied) ;;
  s <- get_self ;;
  match _ui_exposure s with
  | Some w =>
      modify (upd_ui_exposure
                (Some (mkSlider exposure_mode (minimum w) (maximum w))))
  | None => ret tt
  end.

(** The second half of [load_camera_state]: read the exposure limits, clamp
    the remembered exposure, update the slider. *)
Definition refresh_exposure_limits : M unit :=
  lim <- call_camera cam_get_exposure_limits
                     (fun r => CamGetExposureLimits (fst r) (snd r)) ;;
  let (low, high) := lim : Z * Z in
  s <- get_self ;;
  when (high <? current_exposure s) (modify (upd_current_exposure high)) ;;
  s <- get_self ;;
  match _ui_exposure s with
  | Some _ =>
      modify (upd_ui_exposure
                (Some (mkSlider (_current_exposure_mode s) low high)))
  | None => ret tt
  end.

Definition load_camera_state : M unit :=
  on <- online ;;
  if negb on then logger ERROR "Can't get state, not online"
  else
    uc <- call_camera cam_get_current_usecase CamGetCurrentUsecase ;;
    modify (upd_selected_usecase (Some uc)) ;;
    mode <- get_exposure_mode ;;
    modify (upd_current_exposure_mode mode) ;;
    refresh_exposure_limits.

Definition set_usecase (usecase : string) : M unit :=
  call_camera (cam_set_usecase usecase) (fun _ => CamSetUsecase usecase) ;;
  load_camera_state.

Definition segment_filename (count : Z) : string :=
  if count =? 0 then "pointcloud.rrf"
  else "pointcloud_" ++ str count ++ ".rrf".

Definition start_pointcloud_recording (rec_loc : string) : M unit :=
  s <- get_self ;;
  if negb (record_pointcloud s) then ret tt
  else
    let filename := segment_filename (_recording_reconnection_count s) in
    let video_path := os_path_join rec_loc filename in
    call_camera (cam_start_recording video_path)
                (fun _ => CamStartRecording video_path).

Definition stop_pointcloud_recording : M unit :=
  s <- get_self ;;
  if negb (record_pointcloud s) then ret tt
  else call_camera cam_stop_recording (fun _ => CamStopRecording).

Definition on_disconnection : M unit :=
  s <- get_self ;;
  match _recording_directory s with
  | Some _ =>
      if record_pointcloud s then stop_pointcloud_recording else ret tt
  | None => ret tt
  end.

Definition on_reconnection : M unit :=
  s <- get_self ;;
  match _recording_directory s with
  | Some dir =>
      if record_pointcloud s then
        modify (upd_recording_reconnection_count
                  (_recording_reconnection_count s + 1)) ;;
        start_pointcloud_recording dir
      else ret tt
  | None => ret tt
  end.

Definition init_device : M bool :=
  ok <- call_camera cam_initialize CamInitialize ;;
  if negb ok then ret false
  else
    connected <- call_camera cam_is_connected CamIsConnected ;;
    if negb connected then
      logger DEBUG "Camera not connected" ;; ret false
    else
      s <- get_self ;;
      let wanted_exposure_mode := _current_exposure_mode s in
      match selected_usecase s with
      | Some uc => set_usecase uc
      | None => ret tt
      end ;;
      set_exposure_mode wanted_exposure_mode ;;
      s <- get_self ;;
      when (negb (_current_exposure_mode s)
            && negb (current_exposure s =? 0))
           (set_exposure (current_exposure s) ;;
            notify_all (set_exposure_notification (current_exposure s))) ;;
      load_camera_state ;;
      on_reconnection ;;
      notify_all (plain_notification "picoflexx.reconnected") ;;
      ret true.

(** [save_recording_metadata], where the metadata file can be opened; for a
    file that cannot be, see [Disk.save_recording_metadata]. *)
Definition save_recording_metadata (rec_path : string) : M unit :=
  let meta_info_path := os_path_join rec_path "info_picoflexx.csv" in
  emit (FileOpen meta_info_path "a") ;;
  s <- get_self ;;
  emit (WriteKeyValueFile meta_info_path "Royale Timestamp Offset"
                          (royale_timestamp_offset s) true).

Definition set_read_only (b : bool) : M unit :=
  s <- get_self ;;
  when (match _switch_record_pointcloud s with Some _ => true | None => false end)
       (modify (upd_switch_record_pointcloud (Some (mkWidget b)))) ;;
  when (match _ui_usecase s with Some _ => true | None => false end)
       (modify (upd_ui_usecase (Some (mkWidget b)))).

(** [on_notify], where the metadata file can be opened; for a file that
    cannot be, see [Disk.on_notify]. *)
Definition on_notify (notification : Notification) : M unit :=
  s <- get_self ;;
  if negb (menu s) then ret tt
  else if String.eqb (subject notification) "picoflexx.set_exposure" then
    match exposure notification with
    | Some e => set_exposure e
    | None => raise KeyError
    end
  else if String.eqb (subject notification) "recording.started" then
    set_read_only true ;;
    modify (upd_frame_count (-1)) ;;
    match rec_path notification with
    | None => raise KeyError
    | Some dir =>
        modify (upd_recording_directory (Some dir)) ;;
        modify (upd_recording_reconnection_count 0) ;;
        save_recording_metadata dir ;;
        start_pointcloud_recording dir
    end
  else if String.eqb (subject notification) "recording.stopped" then
    set_read_only false ;;
    stop_pointcloud_recording ;;
    modify (upd_recording_directory None)
  else ret tt.

Definition attempt_reconnect : M unit :=
  logger DEBUG "attempt_reconnect()" ;;
  s <- get_self ;;
  match camera s with
  | None => logger WARNING "Camera wasn't connected at all?"
  | Some _ =>
      when (_reconnection_attempts s =? 0)
           (on_disconnection ;;
            notify_all (plain_notification "picoflexx.disconnected")) ;;
      modify (upd_reconnection_attempts (_reconnection_attempts s + 1)) ;;
      ok <- init_device ;;
      if ok then
        s' <- get_self ;;
        logger INFO ("Reconnected after " ++ str (_reconnection_attempts s')
                     ++ " attempts!") ;;
        modify (upd_reconnection_attempts 0)
      else ret tt
  end.

Definition reset_reconnect_timers : M unit :=
  modify (upd_missed_frame_count 0) ;;
  now <- time ;;
  modify (upd_last_frame_time now).

Definition get_frames : M (option FramePair) :=
  frames <- call_camera cam_get_frame CamGetFrame ;;
  match frames with
  | None =>
      s <- get_self ;;
      modify (upd_missed_frame_count (_missed_frame_count s + 1)) ;;
      s <- get_self ;;
      trigger <- (if 45 <? _missed_frame_count s then ret true
                  else now <- time ;;
                       ret (PrimFloat.ltb 5 (PrimFloat.sub now (_last_frame_time s)))) ;;
      when trigger (attempt_reconnect ;; reset_reconnect_timers) ;;
      ret None
  | Some fp =>
      reset_reconnect_timers ;;
      s <- get_self ;;
      offset <- match royale_timestamp_offset s with
                | None =>
                    pupil <- g_pool_get_timestamp ;;
                    unix <- time ;;
                    let o := PrimFloat.sub pupil unix in
                    modify (upd_royale_timestamp_offset (Some o)) ;;
                    ret o
                | Some o => ret o
                end ;;
      let adjusted := shift_pair offset fp in
      s <- get_self ;;
      modify (upd_frame_count (frame_count s + 1)) ;;
      ret (Some adjusted)
  end.

Definition cleanup : M unit :=
  s <- get_self ;;
  match camera s with
  | Some _ =>
      call_camera cam_close (fun _ => CamClose) ;;
      modify (upd_camera None)
  | None => ret tt
  end.

(** ** Construction and settings *)

(** The keyword arguments of [__init__]: an absent key is [None] and takes the
    parameter's default; [kw_inherited] is what goes on to [super().__init__]. *)
Record Kwargs (R : Type) : Type := mkKwargs {
  kw_auto_exposure : option bool;
  kw_record_pointcloud : option bool;
  kw_current_exposure : option Z;
  kw_selected_usecase : option string;
  kw_inherited : R
}.
Arguments mkKwargs {R}.
Arguments kw_auto_exposure {R}.
Arguments kw_record_pointcloud {R}.
Arguments kw_current_exposure {R}.
Arguments kw_selected_usecase {R}.
Arguments kw_inherited {R}.

Definition default {A : Type} (d : A) (o : option A) : A :=
  match o with Some a => a | None => d end.

(** [__init__(g_pool, **kwargs)]: [device] is the object [RoyaleCameraDevice()]
    returns, [k] the clocks of [g_pool]; the source has no menu until
    [init_ui] adds one. *)
Definition __init__ {R : Type} (kwargs : Kwargs R) (device : C) (k : K)
  : Res bool * St :=
  let (now, k') := clock_time k in
  init_device
    (mkSt
       (mkSource (Some device) false (kw_selected_usecase kwargs) 0
                 (default false (kw_record_pointcloud kwargs)) None now 0 0 0
                 None None None
                 (default 2000 (kw_current_exposure kwargs))
                 (default false (kw_auto_exposure kwargs)) None)
       k' []).

(** [get_init_dict()]: [inherited] is [super().get_init_dict()]. *)
Definition get_init_dict {R : Type} (inherited : R) (s : Picoflexx_Source)
  : Kwargs R :=
  mkKwargs (Some (_current_exposure_mode s)) (Some (record_pointcloud s))
           (Some (current_exposure s)) (selected_usecase s) inherited.

(** ** Runs *)

(** The host calls the acquisition entry point once per tick; [ticks n]
    collects what each of [n] consecutive calls of [get_frames] produced. *)
Fixpoint ticks (n : nat) (st : St) : list (Res (option FramePair)) * St :=
  match n with
  | O => ([], st)
  | S n' =>
      let (r, st1) := get_frames st in
      let (rs, st2) := ticks n' st1 in
      (r :: rs, st2)
  end.

(** [stalled n st]: each of the next [n] polls times out, and at none of them
    has the clock moved more than 5 s past the last success time. *)
Fixpoint stalled (n : nat) (st : St) : bool :=
  match n with
  | O => true
  | S n' =>
      match camera (self st) with
      | Some c =>
          match fst (cam_get_frame c) with
          | None => true
          | Some _ => false
          end
      | None => false
      end
      && negb (PrimFloat.ltb 5 (PrimFloat.sub (fst (clock_time (clock st)))
                                              (_last_frame_time (self st))))
      && stalled n' (snd (get_frames st))
  end.

(** The frame pairs handed to the caller. *)
Definition returned (rs : list (Res (option FramePair))) : list FramePair :=
  flat_map (fun r => match r with Ok (Some fp) => [fp] | _ => [] end) rs.

(** The events appended to the trace between two states. *)
Definition events_since (st0 st1 : St) : list Event :=
  skipn (List.length (trace st0)) (trace st1).

(** The device does not come up when the source is constructed:
    [camera.initialize()] fails, or the camera is not connected. *)
Definition offline_at_construction (device : C) : bool :=
  let (ok, device') := cam_initialize device in
  negb ok || negb (fst (cam_is_connected device')).

(** ** Assertions on computations *)

(** [I] holds after [m] whenever it held before, also when [m] raises. *)
Definition invariant {A : Type} (I : St -> Prop) (m : M A) : Prop :=
  forall st, I st -> I (snd (m st)).

(** [m] leaves the observation [f] of the state as it was. *)
Definition preserves {A X : Type} (f : St -> X) (m : M A) : Prop :=
  forall x, invariant (fun st => f st = x) m.

(** From a state with a device object that satisfies [P], [m] returns
    normally, with a result and a state that satisfy [Q]. *)
Definition yields {A : Type} (P : St -> Prop) (m : M A)
    (Q : A -> St -> Prop) : Prop :=
  forall st, camera (self st) <> None -> P st ->
    exists a, fst (m st) = Ok a /\ Q a (snd (m st)).

(** The device object exists ([self.camera is not None]). *)
Definition has_camera (st : St) : Prop := camera (self st) <> None.

(** [m] returns normally from every state that has a device object. *)
Definition returns {A : Type} (m : M A) : Prop :=
  forall st, has_camera st -> exists a, fst (m st) = Ok a.

(** In a run of [m] from a state that has a device object, if no connection
    or capture check fails, the device reports its exposure limits. *)
Definition refreshes {A : Type} (m : M A) : Prop :=
  forall st, has_camera st ->
    failed_checks (events_since st (snd (m st))) = [] ->
    reported_maxima (events_since st (snd (m st))) <> [].

(** The trace of [st] continues [base]. *)
Definition extends (base : list Event) (st : St) : Prop :=
  exists new, trace st = (base ++ new)%list.

(** Since the trace was [base] and the remembered exposure [e0], the
    remembered exposure has been lowered to every maximum the device
    reported, and changed in no other way. *)
Definition clamped (base : list Event) (e0 : Z) (st : St) : Prop :=
  exists new,
    trace st = (base ++ new)%list /\
    current_exposure (self st) = fold_left Z.min (reported_maxima new) e0.

(** What the recording coordinator and the connection protocol can be
    observed to have done: notifications and segment files so far, and the
    fields that decide the next segment's name. *)
Definition session (st : St)
  : nat * list ConnectionEvent * list string * Z * option string * bool * Z :=
  (reconnections (trace st), connection_log (trace st),
   started_paths (trace st), _recording_reconnection_count (self st),
   _recording_directory (self st), record_pointcloud (self st),
   _reconnection_attempts (self st)).

(** The file a new segment is written to. *)
Definition segment_path (dir : string) (count : Z) : string :=
  os_path_join dir (segment_filename count).

(** [session] once [camera.initialize()] has answered [ok]. *)
Definition initialized_session (ok : bool)
    (x : nat * list ConnectionEvent * list string * Z * option string
         * bool * Z)
  : nat * list ConnectionEvent * list string * Z * option string * bool * Z :=
  let '(r, log, paths, count, dir, record, n) := x in
  (r, (log ++ [Initialized ok])%list, paths, count, dir, record, n).

(** [session] once [init_device] has gone through to its end. *)
Definition reconnected_session
    (x : nat * list ConnectionEvent * list string * Z * option string
         * bool * Z)
  : nat * list ConnectionEvent * list string * Z * option string * bool * Z :=
  let '(r, log, paths, count, dir, record, n) := x in
  match dir, record with
  | Some loc, true =>
      (S r, (log ++ [Restored])%list,
       (paths ++ [segment_path loc (count + 1)])%list, count + 1,
       dir, record, n)
  | _, _ => (S r, (log ++ [Restored])%list, paths, count, dir, record, n)
  end.

(** [session] once [attempt_reconnect] has announced the loss of the
    connection, if this is the first attempt, and counted the attempt. *)
Definition announced_session
    (x : nat * list ConnectionEvent * list string * Z * option string
         * bool * Z)
  : nat * list ConnectionEvent * list string * Z * option string * bool * Z :=
  let '(r, log, paths, count, dir, record, n) := x in
  (r, (log ++ (if n =? 0 then [Announced] else []))%list, paths, count, dir,
   record, n + 1).

(** [session] with the attempt counter back at zero. *)
Definition settled_session
    (x : nat * list ConnectionEvent * list string * Z * option string
         * bool * Z)
  : nat * list ConnectionEvent * list string * Z * option string * bool * Z :=
  let '(r, log, paths, count, dir, record, _) := x in
  (r, log, paths, count, dir, record, 0).

(** [session] after [attempt_reconnect], whose [camera.initialize()]
    answered [ok] and whose [init_device] returned [b]. *)
Definition attempted_session (ok b : bool)
    (x : nat * list ConnectionEvent * list string * Z * option string
         * bool * Z)
  : nat * list ConnectionEvent * list string * Z * option string * bool * Z :=
  let a := initialized_session ok (announced_session x) in
  if b then settled_session (reconnected_session a) else a.

(** The segment files of a session with [k] reconnections, as they are to be
    named: [pointcloud.rrf], [pointcloud_1.rrf], ..., [pointcloud_k.rrf]. *)
Definition segment_names (dir : string) (k : nat) : list string :=
  map (fun i => os_path_join dir
                  match i with
                  | O => "pointcloud.rrf"
                  | S _ => "pointcloud_" ++ str (Z.of_nat i) ++ ".rrf"
                  end)
      (seq 0 (S k)).

(** A recording into [dir] is going on: since it started, when there had
    been [r0] reconnections and the segments [paths0], every reconnection
    has opened the next segment. *)
Definition recording (dir : string) (r0 : nat) (paths0 : list string)
    (x : nat * list ConnectionEvent * list string * Z * option string
         * bool * Z) : Prop :=
  let '(r, _, paths, count, d, record, _) := x in
  (r0 <= r)%nat /\ count = Z.of_nat (r - r0) /\
  d = Some dir /\ record = true /\
  paths = (paths0 ++ segment_names dir (r - r0))%list.

(** The source after [set_read_only b]. *)
Definition with_read_only (b : bool) (s : Picoflexx_Source)
  : Picoflexx_Source :=
  let s1 := match _switch_record_pointcloud s with
            | Some _ => upd_switch_record_pointcloud (Some (mkWidget b)) s
            | None => s
            end in
  match _ui_usecase s1 with
  | Some _ => upd_ui_usecase (Some (mkWidget b)) s1
  | None => s1
  end.

(** The state in which "recording.started" opens the first segment: the
    widgets locked, the session fields set, the metadata written. *)
Definition recording_armed (dir : string) (st : St) : St :=
  let meta_info_path := os_path_join dir "info_picoflexx.csv" in
  mkSt (upd_recording_reconnection_count 0
          (upd_recording_directory (Some dir)
             (upd_frame_count (-1) (with_read_only true (self st)))))
       (clock st)
       (trace st ++
        [FileOpen meta_info_path "a";
         WriteKeyValueFile meta_info_path "Royale Timestamp Offset"
                           (royale_timestamp_offset (self st)) true]).

(** The state in which a timed-out poll decides whether to reconnect. *)
Definition missed_once (c' : C) (st : St) (k : K) : St :=
  mkSt (upd_missed_frame_count (_missed_frame_count (self st) + 1)
          (upd_camera (Some c') (self st)))
       k (trace st ++ [CamGetFrame None]).

End Backend.

(** ** A scripted device and scripted clocks

    The answers of the device and the readings of the clocks are read off
    lists, one per method; an exhausted list answers with a default. *)

Record Script : Type := mkScript {
  s_initialize : list bool;
  s_is_connected : list bool;
  s_is_capturing : list bool;
  s_current_usecase : list string;
  s_exposure_mode : list bool;
  s_exposure_limits : list (Z * Z);
  s_frames : list (option FramePair)
}.

Definition pop {A : Type} (d : A) (l : list A) : A * list A :=
  match l with
  | [] => (d, [])
  | x :: rest => (x, rest)
  end.

#[export] Instance ScriptedCamera : RoyaleCameraDevice Script := {
  cam_initialize c :=
    let (r, l) := pop false (s_initialize c) in
    (r, mkScript l (s_is_connected c) (s_is_capturing c) (s_current_usecase c)
                 (s_exposure_mode c) (s_exposure_limits c) (s_frames c));
  cam_is_connected c :=
    let (r, l) := pop false (s_is_connected c) in
    (r, mkScript (s_initialize c) l (s_is_capturing c) (s_current_usecase c)
                 (s_exposure_mode c) (s_exposure_limits c) (s_frames c));
  cam_is_capturing c :=
    let (r, l) := pop false (s_is_capturing c) in
    (r, mkScript (s_initialize c) (s_is_connected c) l (s_current_usecase c)
                 (s_exposure_mode c) (s_exposure_limits c) (s_frames c));
  cam_set_usecase _ c := (tt, c);
  cam_get_current_usecase c :=
    let (r, l) := pop "MODE_9_5FPS_2000" (s_current_usecase c) in
    (r, mkScript (s_initialize c) (s_is_connected c) (s_is_capturing c) l
                 (s_exposure_mode c) (s_exposure_limits c) (s_frames c));
  cam_get_exposure_mode c :=
    let (r, l) := pop false (s_exposure_mode c) in
    (r, mkScript (s_initialize c) (s_is_connected c) (s_is_capturing c)
                 (s_current_usecase c) l (s_exposure_limits c) (s_frames c));
  cam_set_exposure_mode wanted c := (wanted, c);
  cam_get_exposure_limits c :=
    let (r, l) := pop (0, 2000) (s_exposure_limits c) in
    (r, mkScript (s_initialize c) (s_is_connected c) (s_is_capturing c)
                 (s_current_usecase c) (s_exposure_mode c) l (s_frames c));
  cam_set_exposure _ c := (tt, c);
  cam_get_frame c :=
    let (r, l) := pop None (s_frames c) in
    (r, mkScript (s_initialize c) (s_is_connected c) (s_is_capturing c)
                 (s_current_usecase c) (s_exposure_mode c)
                 (s_exposure_limits c) l);
  cam_start_recording _ c := (tt, c);
  cam_stop_recording c := (tt, c);
  cam_close c := (tt, c)
}.

Record Readings : Type := mkReadings {
  unix_time : list float;
  pupil_time : list float
}.

#[export] Instance ScriptedClock : HostClock Readings := {
  clock_time k :=
    let (t, l) := pop 0%float (unix_time k) in (t, mkReadings l (pupil_time k));
  clock_get_timestamp k :=
    let (t, l) := pop 0%float (pupil_time k) in (t, mkReadings (unix_time k) l)
}.

(** A device that is unplugged: nothing succeeds, no frame arrives. *)
Definition unplugged : Script := mkScript [] [] [] [] [] [] [].

(** A frame pair whose two frames carry the device timestamp [t]. *)
Definition frame_at (t : float) : FramePair :=
  mkFramePair (mkFrame t []) (mkFrame t [0; 1000]).

(** A source as [__init__] leaves it, with chosen camera, menu and options. *)
Definition source_with (c : option Script) (has_menu record : bool)
    (offset : option float) (dir : option string) (count : Z)
  : @Picoflexx_Source Script :=
  mkSource c has_menu None 0 record offset 0%float 0 0 count
           None None None 2000 false dir.

(** ** Scenarios *)

(** [n] clock readings, [step] apart, from [t] on. *)
Fixpoint spaced (n : nat) (t step : float) : list float :=
  match n with
  | O => []
  | S n' => t :: spaced n' (PrimFloat.add t step) step
  end.

Definition world (s : @Picoflexx_Source Script) (k : Readings)
  : @St Script Readings :=
  mkSt s k [].

(** A device that delivers the given frames and then nothing. *)
Definition streaming (frames : list (option FramePair)) : Script :=
  mkScript [] [] [] [] [] [] frames.

(** A device that is back: [initialize] and the connection checks succeed
    [n] times, it is capturing, and it reports the given exposure limits. *)
Definition replugged (n : nat) (limits : list (Z * Z))
    (frames : list (option FramePair)) : Script :=
  mkScript (repeat true n) (repeat true (3 * n)) (repeat true (2 * n))
           [] [] limits frames.

(** The first poll obtains a frame stamped 100.0 while Pupil time is 1000.0
    and [time()] reads [unix]; the next frame is stamped 101.0. *)
Definition calibrating (unix : float) : @St Script Readings :=
  world (source_with
           (Some (streaming [Some (frame_at 100); Some (frame_at 101)]))
           true false None None 0)
        (mkReadings [unix; unix; PrimFloat.add unix 1] [1000%float]).

(** A source that calibrated its offset to 900.0 in an earlier epoch, lost
    the device and finds it again; by now Pupil time is 2000.0 and [time()]
    reads 200.0, and the next frame is stamped 300.0. *)
Definition second_epoch : @St Script Readings :=
  world (source_with (Some (replugged 1 [] [Some (frame_at 300)]))
           true false (Some 900%float) None 0)
        (mkReadings [200%float; 200%float] [2000%float]).

(** Nothing arrives, and the clock advances 10 ms from poll to poll. *)
Definition stalling : @St Script Readings :=
  world (source_with (Some unplugged) true false None None 0)
        (mkReadings (spaced 60 (PrimFloat.div 1 100) (PrimFloat.div 1 100)) []).

(** 45 polls have timed out already. *)
Definition nearly_due : @St Script Readings :=
  world (upd_missed_frame_count 45
           (source_with (Some unplugged) true false None None 0))
        (mkReadings [] []).

(** A source whose device object is gone. *)
Definition without_device : @St Script Readings :=
  world (source_with None true false None None 0) (mkReadings [] []).

(** The record-pointcloud option is on; no frame arrives, but the device
    comes back each time it is initialized. *)
Definition recording_through_drops : @St Script Readings :=
  world (source_with (Some (replugged 5 [] [])) true true (Some 900%float)
           None 0)
        (mkReadings [] []).

(** The option is on and no recording is active. *)
Definition idle_with_option : @St Script Readings :=
  world (source_with (Some unplugged) true true None None 0)
        (mkReadings [] []).

(** The option is off and no recording is active. *)
Definition idle : @St Script Readings :=
  world (source_with (Some unplugged) true false None None 0)
        (mkReadings [] []).

(** A source that never got a menu. *)
Definition never_online : @St Script Readings :=
  world (source_with (Some unplugged) false true (Some 900%float) None 0)
        (mkReadings [] []).

(** * The rest of the source *)

(** ** The connection protocol as an automaton

    [Up]: no reconnection is under way.  [Down]: the loss has been announced.
    [Ready]: the last [camera.initialize()] answered [true]. *)
Inductive Link : Type := Up | Down | Ready.

(** One observed step; [None] when the step cannot follow. *)
Definition link_step (s : Link) (e : ConnectionEvent) : option Link :=
  match s, e with
  | Up, Announced => Some Down
  | Down, Initialized ok => Some (if ok then Ready else Down)
  | Ready, Initialized ok => Some (if ok then Ready else Down)
  | Ready, Restored => Some Up
  | _, _ => None
  end.

Fixpoint link_run (s : Link) (log : list ConnectionEvent) : option Link :=
  match log with
  | [] => Some s
  | e :: rest =>
      match link_step s e with
      | Some s' => link_run s' rest
      | None => None
      end
  end.

(** A reconnection is under way. *)
Definition under_way (s : Link) : bool :=
  match s with
  | Up => false
  | Down | Ready => true
  end.

(** The connection protocol has been followed since the log was [log0] and
    the link [s0], and the attempt counter tells whether it is under way. *)
Definition protocol_kept (log0 : list ConnectionEvent) (s0 : Link)
    (x : nat * list ConnectionEvent * list string * Z * option string
         * bool * Z) : Prop :=
  let '(_, log, _, _, _, _, n) := x in
  0 <= n /\
  exists new s,
    log = (log0 ++ new)%list /\ link_run s0 new = Some s /\
    (n = 0 <-> s = Up).

(** The state the attempt counter stands for. *)
Definition link_of (attempts_made : Z) : Link :=
  if attempts_made =? 0 then Up else Down.

(** ** Settings sent to the device *)

Inductive Setting : Type :=
| UsecaseSet (usecase : string)
| ExposureModeSet (wanted applied : bool)
| ExposureSet (value : Z).

Definition pick_setting (e : Event) : list Setting :=
  match e with
  | CamSetUsecase u => [UsecaseSet u]
  | CamSetExposureMode wanted applied => [ExposureModeSet wanted applied]
  | CamSetExposure value => [ExposureSet value]
  | _ => []
  end.

(** The calls of the device's setters, [set_usecase], [set_exposure_mode]
    (with the mode the device answered) and [set_exposure], in order. *)
Definition settings_sent (tr : list Event) : list Setting :=
  flat_map pick_setting tr.

(** The events before the first call of [set_exposure_mode]. *)
Fixpoint before_mode_set (tr : list Event) : list Event :=
  match tr with
  | [] => []
  | CamSetExposureMode _ _ :: _ => []
  | e :: rest => e :: before_mode_set rest
  end.

Definition pick_recording (e : Event) : list (option string) :=
  match e with
  | CamStartRecording p => [Some p]
  | CamStopRecording => [None]
  | _ => []
  end.

(** The recording calls on the device, in order: [Some path] for
    [start_recording(path)], [None] for [stop_recording()]. *)
Definition recording_calls (tr : list Event) : list (option string) :=
  flat_map pick_recording tr.

(** No segment is opened while another is open: starts and stops alternate.
    [open] tells whether a segment is open before the calls. *)
Fixpoint segments_alternate (open : bool) (calls : list (option string))
  : option bool :=
  match calls with
  | [] => Some open
  | Some _ :: rest => if open then None else segments_alternate true rest
  | None :: rest => if open then segments_alternate false rest else None
  end.

Definition pick_stop (e : Event) : list unit :=
  match e with
  | CamStopRecording => [tt]
  | _ => []
  end.

(** The calls of [camera.stop_recording()]. *)
Definition stops (tr : list Event) : list unit :=
  flat_map pick_stop tr.

Definition pick_warning (e : Event) : list string :=
  match e with
  | Log WARNING msg => [msg]
  | _ => []
  end.

(** The warnings logged, in order. *)
Definition warnings (tr : list Event) : list string :=
  flat_map pick_warning tr.

(** ** Frame rates of the device *)

(** The frame-rate methods of [RoyaleCameraDevice]. *)
Class RoyaleFrameRates (C : Type) : Type := {
  cam_get_max_frame_rate : C -> Z * C;
  cam_get_frame_rate : C -> Z * C;
  cam_set_frame_rate : Z -> C -> unit * C
}.

(** The calls of these methods, with what they returned; they are collected
    in a list of their own, beside the trace. *)
Inductive RateCall : Type :=
| GetMaxFrameRate (result : Z)
| GetFrameRate (result : Z)
| SetFrameRate (rate : Z).

(** ** What [recent_events] writes *)

(** The two keys of the [events] dict that [recent_events] assigns. *)
Record Events : Type := mkEvents {
  events_frame : option Frame;
  events_depth_frame : option Frame
}.

(** [self._recent_frame] and [self._recent_depth_frame]. *)
Record Recent : Type := mkRecent {
  _recent_frame : option Frame;
  _recent_depth_frame : option Frame
}.

Inductive Outcome : Type :=
| Returned
| Raised (e : Exn)
| RaisedIndexError.

Section Rest.

Context {C K : Type} {Cam : RoyaleCameraDevice C} {Clk : HostClock K}
        {Rates : RoyaleFrameRates C}.

Notation "x <- m ;; k" := (bind m (fun x => k))
  (at level 61, m at next level, right associativity).
Notation "m ;; k" := (bind m (fun _ => k))
  (at level 61, right associativity).

Definition set_exposure_delayed (exposure : Z) : @M C K unit :=
  modify (upd_current_exposure exposure) ;;
  notify_all (set_exposure_notification exposure).

(** [recent_events(events)]: a frame pair is truthy; [exposure_times[1]] is
    an IndexError when the depth frame has fewer than two exposure times. *)
Definition recent_events (events : Events) (recent : Recent) (st : @St C K)
  : Outcome * Events * Recent * @St C K :=
  match get_frames st with
  | (Raise e, st') => (Raised e, events, recent, st')
  | (Ok None, st') => (Returned, events, recent, st')
  | (Ok (Some frames), st') =>
      let events' := mkEvents (Some (ir frames)) (Some (depth frames)) in
      let recent' := mkRecent (Some (ir frames)) (Some (depth frames)) in
      if _current_exposure_mode (self st') then
        match nth_error (exposure_times (depth frames)) 1 with
        | Some e =>
            (Returned, events', recent',
             mkSt (upd_current_exposure e (self st')) (clock st') (trace st'))
        | None => (RaisedIndexError, events', recent', st')
        end
      else (Returned, events', recent', st')
  end.

(** [self.camera.<method>(...)] for a frame-rate method. *)
Definition call_rate {A : Type} (method : C -> A * C) (call : A -> RateCall)
    (calls : list RateCall) : @M C K (A * list RateCall) :=
  fun st =>
    match camera (self st) with
    | None => (Raise AttributeError, st)
    | Some c =>
        let (a, c') := method c in
        (Ok (a, (calls ++ [call a])%list),
         mkSt (upd_camera (Some c') (self st)) (clock st) (trace st))
    end.

(** [frame_rates]: [1, (self.camera.get_max_frame_rate() if self.online
    else 30)]. *)
Definition frame_rates (calls : list RateCall)
  : @M C K ((Z * Z) * list RateCall) :=
  on <- online ;;
  if on then
    r <- call_rate cam_get_max_frame_rate GetMaxFrameRate calls ;;
    ret ((1, fst r), snd r)
  else ret ((1, 30), calls).

(** [frame_rate] *)
Definition frame_rate (calls : list RateCall) : @M C K (Z * list RateCall) :=
  on <- online ;;
  if on then call_rate cam_get_frame_rate GetFrameRate calls
  else ret (30, calls).

(** [rates.index(min(rates))] for the two distances. *)
Definition best_rate_idx (d0 d1 : Z) : nat :=
  if d0 =? Z.min d0 d1 then 0%nat else 1%nat.

(** The setter of [frame_rate]; [frame_size] is [str(self.frame_size)]. *)
Definition frame_rate_setter (new_rate : Z) (frame_size : string)
    (calls : list RateCall) : @M C K (unit * list RateCall) :=
  r1 <- frame_rates calls ;;
  let idx := best_rate_idx (Z.abs (fst (fst r1) - new_rate))
                           (Z.abs (snd (fst r1) - new_rate)) in
  r2 <- frame_rates (snd r1) ;;
  let rate := match idx with
              | O => fst (fst r2)
              | S _ => snd (fst r2)
              end in
  when (negb (rate =? new_rate))
       (logger WARNING
          (str new_rate ++ "fps capture mode not available at ("
           ++ frame_size ++ ") on 'PicoFlexx Source'. Selected "
           ++ str rate ++ "fps. ")) ;;
  call_rate (cam_set_frame_rate rate) (fun _ => SetFrameRate rate) (snd r2).

(** [init_device] from "Apply settings" on, once the device is initialized
    and connected. *)
Definition apply_settings : @M C K bool :=
  s <- get_self ;;
  let wanted_exposure_mode := _current_exposure_mode s in
  match selected_usecase s with
  | Some uc => set_usecase uc
  | None => ret tt
  end ;;
  set_exposure_mode wanted_exposure_mode ;;
  s <- get_self ;;
  when (negb (_current_exposure_mode s)
        && negb (current_exposure s =? 0))
       (set_exposure (current_exposure s) ;;
        notify_all (set_exposure_notification (current_exposure s))) ;;
  load_camera_state ;;
  on_reconnection ;;
  notify_all (plain_notification "picoflexx.reconnected") ;;
  ret true.

(** The setter calls of [init_device] for a source [s], when the device
    answers [applied] to [set_exposure_mode] and the remembered exposure is
    [e] by then. *)
Definition settings_of (s : @Picoflexx_Source C) (applied : bool) (e : Z)
  : list Setting :=
  (match selected_usecase s with
   | Some uc => [UsecaseSet uc]
   | None => []
   end
   ++ [ExposureModeSet (_current_exposure_mode s) applied]
   ++ (if negb applied && negb (e =? 0) then [ExposureSet e] else []))%list.

End Rest.

(** ** The metadata file, on any file system

    [open(meta_info_path, "a")] raises OSError when the file cannot be
    opened, for one because the recording directory is missing or not
    writable; [writable path] tells whether it can be.  Writing to the
    opened file is taken to succeed.  [Disk.save_recording_metadata] and
    [Disk.on_notify] are the two methods on such a file system; where the
    metadata file can be opened they are [save_recording_metadata] and
    [on_notify]. *)

Module Disk.
Section OnDisk.

Context {C K : Type} {Cam : RoyaleCameraDevice C}.
Variable writable : string -> bool.

Notation "x <- m ;; k" := (bind m (fun x => k))
  (at level 61, m at next level, right associativity).
Notation "m ;; k" := (bind m (fun _ => k))
  (at level 61, right associativity).

Definition save_recording_metadata (rec_path : string) : @M C K unit :=
  let meta_info_path := os_path_join rec_path "info_picoflexx.csv" in
  if writable meta_info_path then
    emit (FileOpen meta_info_path "a") ;;
    s <- get_self ;;
    emit (WriteKeyValueFile meta_info_path "Royale Timestamp Offset"
                            (royale_timestamp_offset s) true)
  else raise OSError.

Definition on_notify (notification : Notification) : @M C K unit :=
  s <- get_self ;;
  if negb (menu s) then ret tt
  else if String.eqb (subject notification) "picoflexx.set_exposure" then
    match exposure notification with
    | Some e => set_exposure e
    | None => raise KeyError
    end
  else if String.eqb (subject notification) "recording.started" then
    set_read_only true ;;
    modify (upd_frame_count (-1)) ;;
    match rec_path notification with
    | None => raise KeyError
    | Some dir =>
        modify (upd_recording_directory (Some dir)) ;;
        modify (upd_recording_reconnection_count 0) ;;
        save_recording_metadata dir ;;
        start_pointcloud_recording dir
    end
  else if String.eqb (subject notification) "recording.stopped" then
    set_read_only false ;;
    stop_pointcloud_recording ;;
    modify (upd_recording_directory None)
  else ret tt.

End OnDisk.
End Disk.

#[export] Instance ScriptedRates : RoyaleFrameRates Script := {
  cam_get_max_frame_rate c := (45, c);
  cam_get_frame_rate c := (35, c);
  cam_set_frame_rate _ c := (tt, c)
}.

(** The device is up and capturing. *)
Definition capturing : @St Script Readings :=
  world (source_with (Some (replugged 3 [(100, 1500)] [])) true false None
           None 0)
        (mkReadings [] []).

(** The device is back and reports the exposure limits 100 and 1500; the
    source has a use case selected, is in manual mode and remembers an
    exposure of 2000. *)
Definition reapplying : @St Script Readings :=
  world (upd_selected_usecase (Some "MODE_5_45FPS_500")
           (source_with (Some (replugged 3 [(100, 1500); (100, 1500)] []))
              true false None None 0))
        (mkReadings [] []).

(** The camera is back and connected, but it is not capturing; it would
    report the exposure limits 100 and 1500. *)
Definition connected_not_capturing : @St Script Readings :=
  world (source_with
           (Some (mkScript [true] [true; true] [] [] [] [(100, 1500)] []))
           true false None None 0)
        (mkReadings [] []).

(** A recording into [/rec] is going on, with the option on; no frame
    arrives, but the device comes back each time it is initialized. *)
Definition mid_recording : @St Script Readings :=
  world (source_with (Some (replugged 5 [] [])) true true (Some 900%float)
           (Some "/rec") 0)
        (mkReadings [] []).

(** * Properties *)

Section Properties.

Context {C K : Type} {Cam : RoyaleCameraDevice C} {Clk : HostClock K}.

Local Notation "'State'" := (@St C K).
Local Notation "'Comp'" := (@M C K).
Local Notation "x <- m ;; k" := (bind m (fun x => k))
  (at level 61, m at next level, right associativity).
Local Notation "m ;; k" := (bind m (fun _ => k))
  (at level 61, right associativity).

(** ** Rules for [invariant] *)

Lemma invariant_ret {A} (I : State -> Prop) (a : A) : invariant I (ret a).
Proof. intros st H; exact H. Qed.

Lemma invariant_raise {A} (I : State -> Prop) (e : Exn) :
  invariant I (@raise C K A e).
Proof. intros st H; exact H. Qed.

Lemma invariant_bind {A B} (I : State -> Prop) (m : Comp A) (k : A -> Comp B) :
  invariant I m -> (forall a, invariant I (k a)) -> invariant I (bind m k).
Proof.
  intros Hm Hk st H. unfold bind.
  specialize (Hm st H). destruct (m st) as [[a | e] st']; cbn in *.
  - apply Hk, Hm.
  - exact Hm.
Qed.

Lemma invariant_get_self (I : State -> Prop) : invariant I get_self.
Proof. intros st H; exact H. Qed.

Lemma invariant_modify (I : State -> Prop) g :
  (forall st, I st -> I (mkSt (g (self st)) (clock st) (trace st))) ->
  invariant I (modify g).
Proof. intros H st; apply H. Qed.

Lemma invariant_emit (I : State -> Prop) e :
  (forall st, I st -> I (mkSt (self st) (clock st) (trace st ++ [e]))) ->
  invariant I (emit e).
Proof. intros H st; apply H. Qed.

Lemma invariant_call_camera {A} (I : State -> Prop) (method : C -> A * C) ev :
  (forall st c a c',
      camera (self st) = Some c -> method c = (a, c') -> I st ->
      I (mkSt (upd_camera (Some c') (self st)) (clock st)
              (trace st ++ [ev a]))) ->
  invariant I (call_camera method ev).
Proof.
  intros H st HI. unfold call_camera.
  destruct (camera (self st)) as [c |] eqn:Hc; [| exact HI].
  destruct (method c) as [a c'] eqn:Hm. cbn. eapply H; eauto.
Qed.

Lemma invariant_time (I : State -> Prop) :
  (forall st k, I st -> I (mkSt (self st) k (trace st))) ->
  invariant I time.
Proof.
  intros H st HI. unfold time. destruct (clock_time (clock st)). apply H, HI.
Qed.

Lemma invariant_g_pool_get_timestamp (I : State -> Prop) :
  (forall st k, I st -> I (mkSt (self st) k (trace st))) ->
  invariant I g_pool_get_timestamp.
Proof.
  intros H st HI. unfold g_pool_get_timestamp.
  destruct (clock_get_timestamp (clock st)). apply H, HI.
Qed.

(** The observers of the trace are homomorphisms. *)
Lemma attempts_app a b : attempts (a ++ b) = (attempts a + attempts b)%nat.
Proof. unfold attempts. now rewrite flat_map_app, length_app. Qed.

Lemma reconnections_app a b :
  reconnections (a ++ b) = (reconnections a + reconnections b)%nat.
Proof. unfold reconnections. now rewrite flat_map_app, length_app. Qed.

Lemma connection_log_app a b :
  connection_log (a ++ b) = (connection_log a ++ connection_log b)%list.
Proof. apply flat_map_app. Qed.

Lemma started_paths_app a b :
  started_paths (a ++ b) = (started_paths a ++ started_paths b)%list.
Proof. apply flat_map_app. Qed.

Lemma frames_received_app a b :
  frames_received (a ++ b) = (frames_received a ++ frames_received b)%list.
Proof. apply flat_map_app. Qed.

Lemma reported_maxima_app a b :
  reported_maxima (a ++ b) = (reported_maxima a ++ reported_maxima b)%list.
Proof. apply flat_map_app. Qed.

(** Projections of updated records. *)
Ltac fields :=
  cbn [fst snd self clock trace
       camera menu selected_usecase frame_count record_pointcloud
       royale_timestamp_offset _last_frame_time _missed_frame_count
       _reconnection_attempts _recording_reconnection_count _ui_exposure
       _ui_usecase _switch_record_pointcloud current_exposure
       _current_exposure_mode _recording_directory
       upd_camera upd_selected_usecase upd_frame_count
       upd_royale_timestamp_offset upd_last_frame_time
       upd_missed_frame_count upd_reconnection_attempts
       upd_recording_reconnection_count upd_ui_exposure upd_ui_usecase
       upd_switch_record_pointcloud upd_current_exposure
       upd_current_exposure_mode upd_recording_directory] in *.

Ltac observe :=
  unfold session in *; fields;
  unfold attempts, reconnections, connection_log, started_paths,
    frames_received, reported_maxima, camera_calls in *;
  rewrite ?flat_map_app, ?filter_app, ?length_app;
  cbn in *;
  rewrite ?app_nil_r, ?Nat.add_0_r.

(** One structural step of an invariance proof; the leaves are the effects
    of the primitive operations on the state. *)
Ltac inv_step :=
  match goal with
  | |- invariant _ _ => assumption
  | |- invariant _ (bind _ _) => apply invariant_bind; [| intro]
  | |- invariant _ (ret _) => apply invariant_ret
  | |- invariant _ (raise _) => apply invariant_raise
  | |- invariant _ get_self => apply invariant_get_self
  | |- invariant _ (modify _) => apply invariant_modify
  | |- invariant _ (emit _) => apply invariant_emit
  | |- invariant _ (call_camera _ _) => apply invariant_call_camera
  | |- invariant _ time => apply invariant_time
  | |- invariant _ g_pool_get_timestamp =>
      apply invariant_g_pool_get_timestamp
  | |- invariant _ (when ?b _) => unfold when
  | |- invariant _ (match ?x with _ => _ end) => destruct x
  | |- invariant _ ?m =>
      let h := head_of m in unfold h
  end
with head_of m :=
  match m with
  | ?f _ => head_of f
  | _ => m
  end.

Ltac invariance leaf := repeat inv_step; try (intros; cbn in *; leaf).

Ltac frame_inv :=
  invariance ltac:(observe; solve [assumption | congruence]).

Ltac frame := intro; frame_inv.

(** ** The trace only grows *)

Ltac extension :=
  invariance ltac:(
    idtac;
    match goal with
    | H : extends _ _ |- _ =>
        destruct H as [new H]; cbn in H; rewrite H;
        first [ rewrite <- app_assoc; eexists; reflexivity
              | eexists; reflexivity ]
    end).

Lemma events_since_app (st st' : State) new :
  trace st' = (trace st ++ new)%list -> events_since st st' = new.
Proof.
  intros H. unfold events_since. rewrite H, skipn_app, skipn_all.
  now rewrite Nat.sub_diag.
Qed.

Lemma get_frames_extends base : invariant (@extends C K base) get_frames.
Proof. extension. Qed.

Lemma extends_refl (st : State) : extends (trace st) st.
Proof. exists []. now rewrite app_nil_r. Qed.

(** ** Frame lemmas *)

Lemma init_device_offset :
  preserves (fun st : State => royale_timestamp_offset (self st)) init_device.
Proof. frame. Qed.

Lemma attempt_reconnect_extends base :
  invariant (@extends C K base) attempt_reconnect.
Proof. extension. Qed.

(** Each call of [attempt_reconnect] is one attempt. *)
Lemma attempt_reconnect_attempts (st : State) :
  attempts (trace (snd (attempt_reconnect st))) = S (attempts (trace st)).
Proof.
  unfold attempt_reconnect, logger. unfold bind at 1. cbn [emit]. cbv beta.
  match goal with
  | |- attempts (trace (snd (?rest ?st1))) = _ =>
      assert (H : preserves (fun st : State => attempts (trace st)) rest)
        by frame;
      rewrite (H (attempts (trace st1)) st1 eq_refl)
  end.
  cbn [trace]. rewrite attempts_app. cbn. lia.
Qed.

(** ** One tick, case by case *)

Lemma get_frames_timeout (st : State) c c' :
  camera (self st) = Some c ->
  cam_get_frame c = (None, c') ->
  get_frames st =
    if 45 <? _missed_frame_count (self st) + 1 then
      (when true (attempt_reconnect ;; reset_reconnect_timers) ;; ret None)
        (missed_once c' st (clock st))
    else
      let (now, k) := clock_time (clock st) in
      (when (PrimFloat.ltb 5 (PrimFloat.sub now (_last_frame_time (self st))))
            (attempt_reconnect ;; reset_reconnect_timers) ;; ret None)
        (missed_once c' st k).
Proof.
  intros Hc Hf. unfold get_frames. unfold bind at 1. unfold call_camera.
  rewrite Hc, Hf. cbn -[attempt_reconnect reset_reconnect_timers Z.ltb].
  unfold bind at 1. cbn -[attempt_reconnect reset_reconnect_timers Z.ltb].
  unfold bind at 1. cbn -[attempt_reconnect reset_reconnect_timers Z.ltb].
  unfold bind at 1. cbn -[attempt_reconnect reset_reconnect_timers Z.ltb].
  unfold bind at 1. unfold bind at 2.
  destruct (45 <? _missed_frame_count (self st) + 1); [reflexivity |].
  unfold bind at 2. unfold time at 1. cbn -[attempt_reconnect reset_reconnect_timers].
  destruct (clock_time (clock st)) as [now k]. reflexivity.
Qed.

(** ** Normal return *)

Lemma returns_ret {A} (a : A) : returns (@ret C K A a).
Proof. intros st _. now exists a. Qed.

Lemma returns_bind {A B} (m : Comp A) (k : A -> Comp B) :
  returns m -> invariant (@has_camera C K) m -> (forall a, returns (k a)) ->
  returns (bind m k).
Proof.
  intros Hm Hi Hk st H. unfold bind.
  destruct (Hm st H) as [a Ha]. specialize (Hi st H).
  destruct (m st) as [r st']. cbn in Ha, Hi. subst r. now apply Hk.
Qed.

Lemma returns_call_camera {A} (method : C -> A * C) ev :
  returns (call_camera method ev : Comp A).
Proof.
  intros st H. unfold call_camera, has_camera in *.
  destruct (camera (self st)); [| congruence].
  destruct (method c). now eexists.
Qed.

Lemma returns_time : returns (@time C K Clk).
Proof. intros st _. unfold time. destruct (clock_time (clock st)). now eexists. Qed.

Lemma returns_g_pool_get_timestamp : returns (@g_pool_get_timestamp C K Clk).
Proof.
  intros st _. unfold g_pool_get_timestamp.
  destruct (clock_get_timestamp (clock st)). now eexists.
Qed.

Ltac keeps_camera :=
  invariance ltac:(unfold has_camera in *; cbn; congruence).

Ltac ret_step :=
  match goal with
  | |- returns (bind _ _) => apply returns_bind; [| keeps_camera | intro]
  | |- returns (ret _) => apply returns_ret
  | |- returns (call_camera _ _) => apply returns_call_camera
  | |- returns time => apply returns_time
  | |- returns g_pool_get_timestamp => apply returns_g_pool_get_timestamp
  | |- returns get_self => intros ? _; now eexists
  | |- returns (modify _) => intros ? _; now eexists
  | |- returns (emit _) => intros ? _; now eexists
  | |- returns (when ?b _) => unfold when
  | |- returns (match ?x with _ => _ end) => destruct x
  | |- returns ?m => let h := head_of m in unfold h
  end.

Ltac normal_return := repeat ret_step.

Lemma attempt_reconnect_returns : returns (attempt_reconnect : Comp unit).
Proof. normal_return. Qed.

Lemma get_frames_has_camera : invariant (@has_camera C K) get_frames.
Proof. keeps_camera. Qed.

Lemma attempt_reconnect_clock :
  preserves (fun st : State => clock st) attempt_reconnect.
Proof. frame. Qed.

(** A triggered reconnection: [attempt_reconnect], then both fields of the
    failure tracker are reset, whatever [init_device] answered. *)
Lemma trigger_run (st1 : State) :
  has_camera st1 ->
  (when true (attempt_reconnect ;; reset_reconnect_timers) ;; ret None) st1 =
    let st2 := snd (attempt_reconnect st1) in
    let (now, k) := clock_time (clock st1) in
    (Ok (@None FramePair),
     mkSt (upd_last_frame_time now (upd_missed_frame_count 0 (self st2)))
          k (trace st2)).
Proof.
  intros H. unfold when. unfold bind at 1 2.
  destruct (attempt_reconnect_returns st1 H) as [[] Hr].
  pose proof (attempt_reconnect_clock (clock st1) st1 eq_refl) as Hk.
  cbn beta in Hk.
  destruct (attempt_reconnect st1) as [r st2]. cbn in Hr, Hk |- *. subst r.
  unfold reset_reconnect_timers, bind, modify, time. cbn. rewrite Hk.
  destruct (clock_time (clock st1)). reflexivity.
Qed.

Lemma missed_once_has_camera c' (st : State) k : has_camera (missed_once c' st k).
Proof. unfold has_camera. cbn. congruence. Qed.

(** What a timed-out poll does to the failure tracker and to the number of
    reconnection attempts. *)
Lemma get_frames_timeout_tracker (st : State) c c' :
  camera (self st) = Some c ->
  cam_get_frame c = (None, c') ->
  let missed := _missed_frame_count (self st) + 1 in
  let now := fst (clock_time (clock st)) in
  let late := PrimFloat.ltb 5 (PrimFloat.sub now (_last_frame_time (self st))) in
  let st' := snd (get_frames st) in
  fst (get_frames st) = Ok None /\
  if (45 <? missed) || late then
    attempts (trace st') = S (attempts (trace st)) /\
    _missed_frame_count (self st') = 0 /\
    _last_frame_time (self st') =
      fst (clock_time (if 45 <? missed then clock st
                       else snd (clock_time (clock st))))
  else
    attempts (trace st') = attempts (trace st) /\
    _missed_frame_count (self st') = missed /\
    _last_frame_time (self st') = _last_frame_time (self st).
Proof.
  intros Hc Hf. cbv zeta. rewrite (get_frames_timeout st c c' Hc Hf).
  assert (Hfire : forall k,
    let st1 := missed_once c' st k in
    let r := (when true (attempt_reconnect ;; reset_reconnect_timers) ;;
              ret (@None FramePair)) st1 in
    fst r = Ok None /\
    attempts (trace (snd r)) = S (attempts (trace st)) /\
    _missed_frame_count (self (snd r)) = 0 /\
    _last_frame_time (self (snd r)) = fst (clock_time k)).
  { intros k. cbv zeta. rewrite trigger_run by apply missed_once_has_camera.
    cbv zeta. cbn [clock missed_once].
    destruct (clock_time k) as [now k']. cbn [fst snd self trace].
    rewrite attempt_reconnect_attempts. cbn [trace missed_once].
    rewrite attempts_app. cbn. rewrite Nat.add_0_r. auto. }
  destruct (45 <? _missed_frame_count (self st) + 1) eqn:Hm; cbn [orb].
  - apply Hfire.
  - destruct (clock_time (clock st)) as [now k] eqn:Hk. cbn [fst snd].
    destruct (PrimFloat.ltb 5 (PrimFloat.sub now (_last_frame_time (self st)))).
    + apply Hfire.
    + unfold when, bind, ret, missed_once. fields.
      rewrite attempts_app. cbn. rewrite Nat.add_0_r. auto.
Qed.

(** What a successful poll returns and does to the state. *)
Lemma get_frames_success (st : State) c fp c' :
  camera (self st) = Some c ->
  cam_get_frame c = (Some fp, c') ->
  let (now, k1) := clock_time (clock st) in
  let s1 := upd_last_frame_time now
              (upd_missed_frame_count 0 (upd_camera (Some c') (self st))) in
  let tr1 := (trace st ++ [CamGetFrame (Some fp)])%list in
  get_frames st =
    match royale_timestamp_offset (self st) with
    | Some o =>
        (Ok (Some (shift_pair o fp)),
         mkSt (upd_frame_count (frame_count (self st) + 1) s1) k1 tr1)
    | None =>
        let (pupil, k2) := clock_get_timestamp k1 in
        let (unix, k3) := clock_time k2 in
        let o := PrimFloat.sub pupil unix in
        (Ok (Some (shift_pair o fp)),
         mkSt (upd_frame_count (frame_count (self st) + 1)
                 (upd_royale_timestamp_offset (Some o) s1)) k3 tr1)
    end.
Proof.
  intros Hc Hf.
  unfold get_frames, reset_reconnect_timers, bind, call_camera, modify, time,
    g_pool_get_timestamp, get_self, ret.
  rewrite Hc, Hf. fields.
  destruct (clock_time (clock st)) as [now k1]. fields.
  destruct (royale_timestamp_offset (self st)) as [o |]; [reflexivity |].
  fields. destruct (clock_get_timestamp k1) as [pupil k2]. fields.
  destruct (clock_time k2) as [unix k3]. reflexivity.
Qed.

Lemma attempts_since (st st' : State) :
  extends (trace st) st' ->
  attempts (trace st') = (attempts (trace st) + attempts (events_since st st'))%nat.
Proof.
  intros [new H]. rewrite (events_since_app st st' new H), H.
  apply attempts_app.
Qed.

(** What a successful poll does to the failure tracker. *)
Lemma get_frames_success_tracker (st : State) c fp c' :
  camera (self st) = Some c ->
  cam_get_frame c = (Some fp, c') ->
  let st' := snd (get_frames st) in
  attempts (trace st') = attempts (trace st) /\
  _missed_frame_count (self st') = 0 /\
  _last_frame_time (self st') = fst (clock_time (clock st)).
Proof.
  intros Hc Hf. pose proof (get_frames_success st c fp c' Hc Hf) as H.
  destruct (clock_time (clock st)) as [now k1]. cbv zeta in *.
  destruct (royale_timestamp_offset (self st)).
  - rewrite H. fields. rewrite attempts_app. cbn. rewrite Nat.add_0_r. auto.
  - destruct (clock_get_timestamp k1) as [pupil k2].
    destruct (clock_time k2) as [unix k3]. rewrite H. fields.
    rewrite attempts_app. cbn. rewrite Nat.add_0_r. auto.
Qed.

(** C3. A poll calls [attempt_reconnect] if and only if it timed out and
    either the missed-frame count, after its increment, exceeds 45 or the
    clock reads more than 5 s past the last success time; it never calls it
    twice.  A poll that obtains a frame pair sets the missed-frame count to
    zero and the last success time to the clock's reading. *)
Theorem get_frames_reconnect_trigger (st : State) (c : C) :
  camera (self st) = Some c ->
  let frames := fst (cam_get_frame c) in
  let now := fst (clock_time (clock st)) in
  let missed := _missed_frame_count (self st) + 1 in
  let st' := snd (get_frames st) in
  let fired := attempts (events_since st st') in
  (fired = 1%nat <->
   frames = None /\
   (45 < missed \/
    PrimFloat.ltb 5 (PrimFloat.sub now (_last_frame_time (self st))) = true)) /\
  (fired <= 1)%nat /\
  (frames <> None ->
   fired = 0%nat /\
   _missed_frame_count (self st') = 0 /\
   _last_frame_time (self st') = now).
Proof.
  intros Hc. cbv zeta.
  pose proof (attempts_since st _ (get_frames_extends _ st (extends_refl st)))
    as Hsince.
  destruct (cam_get_frame c) as [[fp |] c'] eqn:Hf; cbn [fst].
  - destruct (get_frames_success_tracker st c fp c' Hc Hf) as (Ha & Hm & Hl).
    rewrite Ha in Hsince.
    assert (H0 : attempts (events_since st (snd (get_frames st))) = 0%nat)
      by lia.
    rewrite H0. repeat split; try (intros; discriminate); try lia; auto.
    intros [H _]. discriminate.
  - destruct (get_frames_timeout_tracker st c c' Hc Hf) as [_ H].
    cbv zeta in H.
    destruct (45 <? _missed_frame_count (self st) + 1) eqn:Hm; cbn [orb] in H.
    + destruct H as (Ha & _). apply Z.ltb_lt in Hm.
      assert (H1 : attempts (events_since st (snd (get_frames st))) = 1%nat)
        by lia.
      rewrite H1. repeat split; auto; try (intros; congruence).
    + apply Z.ltb_ge in Hm.
      destruct (PrimFloat.ltb 5 _) eqn:Hlate.
      * destruct H as (Ha & _).
        assert (H1 : attempts (events_since st (snd (get_frames st))) = 1%nat)
          by lia.
        rewrite H1. repeat split; auto; try (intros; congruence).
      * destruct H as (Ha & _).
        assert (H0 : attempts (events_since st (snd (get_frames st))) = 0%nat)
          by lia.
        rewrite H0. repeat split; try lia; try (intros; congruence).
Qed.

(** ** Runs of polls *)

Lemma ticks_S n (st : State) :
  snd (ticks (S n) st) = snd (ticks n (snd (get_frames st))).
Proof.
  cbn [ticks]. destruct (get_frames st) as [r st1].
  cbn [snd]. now destruct (ticks n st1).
Qed.

Lemma ticks_add n k (st : State) :
  snd (ticks (n + k) st) = snd (ticks k (snd (ticks n st))).
Proof.
  revert st. induction n as [| n IH]; intros st; [reflexivity |].
  rewrite Nat.add_succ_l, !ticks_S. apply IH.
Qed.

Lemma ticks_invariant (I : State -> Prop) n :
  invariant I get_frames -> forall st, I st -> I (snd (ticks n st)).
Proof.
  intros H. induction n as [| n IH]; intros st HI; [exact HI |].
  rewrite ticks_S. apply IH, H, HI.
Qed.

Lemma stalled_add n k (st : State) :
  stalled (n + k) st = true ->
  stalled n st = true /\ stalled k (snd (ticks n st)) = true.
Proof.
  revert st. induction n as [| n IH]; intros st H; [now split |].
  rewrite Nat.add_succ_l in H. cbn [stalled] in H |- *.
  apply andb_prop in H. destruct H as [H1 H2].
  destruct (IH _ H2) as [H3 H4]. rewrite ticks_S.
  split; [now rewrite H1, H3 | exact H4].
Qed.

(** The first poll of a stalled run. *)
Lemma stalled_first n (st : State) :
  stalled (S n) st = true ->
  exists c c',
    camera (self st) = Some c /\ cam_get_frame c = (None, c') /\
    PrimFloat.ltb 5 (PrimFloat.sub (fst (clock_time (clock st)))
                                   (_last_frame_time (self st))) = false /\
    stalled n (snd (get_frames st)) = true.
Proof.
  cbn [stalled]. intros H.
  apply andb_prop in H. destruct H as [H H3].
  apply andb_prop in H. destruct H as [H1 H2].
  destruct (camera (self st)) as [c |]; [| discriminate].
  destruct (cam_get_frame c) as [[fp |] c'] eqn:Hf; [discriminate |].
  exists c, c'. repeat split; auto. now apply negb_true_iff.
Qed.

(** While the count stays at 45 or below, stalled polls only count. *)
Lemma stalled_counts n : forall (st : State),
  stalled n st = true ->
  _missed_frame_count (self st) + Z.of_nat n <= 45 ->
  attempts (trace (snd (ticks n st))) = attempts (trace st) /\
  _missed_frame_count (self (snd (ticks n st))) =
    _missed_frame_count (self st) + Z.of_nat n.
Proof.
  induction n as [| n IH]; intros st Hs Hm.
  - cbn. split; [reflexivity | lia].
  - destruct (stalled_first n st Hs) as (c & c' & Hc & Hf & Hlate & Hrest).
    destruct (get_frames_timeout_tracker st c c' Hc Hf) as [_ H].
    cbv zeta in H. rewrite Hlate in H.
    replace (45 <? _missed_frame_count (self st) + 1) with false in H
      by (symmetry; apply Z.ltb_ge; lia).
    cbn [orb] in H. destruct H as (Ha & Hcount & _).
    rewrite ticks_S. destruct (IH _ Hrest) as [IHa IHm]; [lia |].
    split; [congruence | lia].
Qed.

(** C5. A poll that times out and triggers a reconnection leaves the
    missed-frame count at 0 and the last success time at the clock's next
    reading, whatever [init_device] answered.  Hence, from a count of 0, a
    run of 46 timeouts none of which finds the clock more than 5 s past the
    last success time makes no attempt during its first 45 polls and exactly
    one during the 46th, after which the count is 0 again. *)
Theorem reconnect_resets_tracker (st st0 : State) (c c' : C) :
  camera (self st) = Some c ->
  cam_get_frame c = (None, c') ->
  let missed := _missed_frame_count (self st) + 1 in
  let now := fst (clock_time (clock st)) in
  let late := PrimFloat.ltb 5 (PrimFloat.sub now (_last_frame_time (self st))) in
  (45 <? missed) || late = true ->
  _missed_frame_count (self st0) = 0 ->
  stalled 46 st0 = true ->
  (_missed_frame_count (self (snd (get_frames st))) = 0 /\
   _last_frame_time (self (snd (get_frames st))) =
     fst (clock_time (if 45 <? missed then clock st
                      else snd (clock_time (clock st))))) /\
  (attempts (events_since st0 (snd (ticks 45 st0))) = 0%nat /\
   attempts (events_since st0 (snd (ticks 46 st0))) = 1%nat /\
   _missed_frame_count (self (snd (ticks 46 st0))) = 0).
Proof.
  intros Hc Hf. cbv zeta. intros Htrig Hzero Hstall. split.
  - destruct (get_frames_timeout_tracker st c c' Hc Hf) as [_ H].
    cbv zeta in H. rewrite Htrig in H. tauto.
  - change 46%nat with (45 + 1)%nat in Hstall |- *.
    destruct (stalled_add 45 1 st0 Hstall) as [H45 H1].
    destruct (stalled_counts 45 st0 H45) as [Ha Hm]; [lia |].
    pose proof (attempts_since st0 _
      (ticks_invariant _ 45 (get_frames_extends _) st0 (extends_refl st0)))
      as Hs45.
    pose proof (attempts_since st0 _
      (ticks_invariant _ (45 + 1) (get_frames_extends _) st0
         (extends_refl st0)))
      as Hs46.
    rewrite ticks_add in Hs46 |- *.
    set (st45 := snd (ticks 45 st0)) in *.
    destruct (stalled_first 0 st45 H1) as (d & d' & Hd & Hg & _ & _).
    destruct (get_frames_timeout_tracker st45 d d' Hd Hg) as [_ H].
    cbv zeta in H.
    replace (45 <? _missed_frame_count (self st45) + 1) with true in H
      by (symmetry; apply Z.ltb_lt; lia).
    cbn [orb] in H. destruct H as (Hb & Hcount & _).
    rewrite (ticks_S 0 st45) in *. cbn [ticks snd] in *.
    repeat split; [lia | lia | exact Hcount].
Qed.

(** ** The timestamp offset *)

Lemma poll_timeout_keeps b c' (st : State) k :
  let st' := snd ((when b (attempt_reconnect ;; reset_reconnect_timers) ;;
                   ret (@None FramePair)) (missed_once c' st k)) in
  frames_received (trace st') = frames_received (trace st) /\
  royale_timestamp_offset (self st') = royale_timestamp_offset (self st).
Proof.
  assert (Hkeep :
    preserves (fun st : State => (frames_received (trace st),
                                  royale_timestamp_offset (self st)))
      (when b (attempt_reconnect ;; reset_reconnect_timers) ;;
       ret (@None FramePair))) by frame.
  specialize (Hkeep _ (missed_once c' st k) eq_refl). cbn beta in Hkeep.
  cbv zeta. split.
  - apply (f_equal fst) in Hkeep. cbn [fst] in Hkeep. rewrite Hkeep.
    unfold missed_once. fields. rewrite frames_received_app. cbn.
    now rewrite app_nil_r.
  - apply (f_equal snd) in Hkeep. cbn [snd] in Hkeep. rewrite Hkeep.
    reflexivity.
Qed.

(** One poll: the frame pair handed out is the one received, shifted by the
    stored offset, which a poll sets only when none is stored. *)
Lemma get_frames_offset_step (st : State) :
  exists new,
    trace (snd (get_frames st)) = (trace st ++ new)%list /\
    match fst (get_frames st) with
    | Ok (Some fp') =>
        exists raw o,
          frames_received new = [raw] /\ fp' = shift_pair o raw /\
          royale_timestamp_offset (self (snd (get_frames st))) = Some o /\
          (royale_timestamp_offset (self st) = None \/
           royale_timestamp_offset (self st) = Some o)
    | _ =>
        frames_received new = [] /\
        royale_timestamp_offset (self (snd (get_frames st))) =
          royale_timestamp_offset (self st)
    end.
Proof.
  destruct (camera (self st)) as [c |] eqn:Hc.
  2:{ exists []. unfold get_frames, bind, call_camera. rewrite Hc. cbn.
      now rewrite app_nil_r. }
  destruct (cam_get_frame c) as [[fp |] c'] eqn:Hf.
  - pose proof (get_frames_success st c fp c' Hc Hf) as H.
    destruct (clock_time (clock st)) as [now k1]. cbv zeta in H.
    exists [CamGetFrame (Some fp)].
    destruct (royale_timestamp_offset (self st)) as [o |] eqn:Ho.
    + rewrite H. fields. split; [reflexivity |].
      exists fp, o. auto.
    + destruct (clock_get_timestamp k1) as [pupil k2].
      destruct (clock_time k2) as [unix k3]. rewrite H. fields.
      split; [reflexivity |]. exists fp, (PrimFloat.sub pupil unix). auto.
  - destruct (get_frames_extends _ st (extends_refl st)) as [new Hnew].
    exists new. split; [exact Hnew |].
    destruct (get_frames_timeout_tracker st c c' Hc Hf) as [Hr _].
    rewrite Hr.
    assert (Hall :
      frames_received (trace (snd (get_frames st))) =
        frames_received (trace st) /\
      royale_timestamp_offset (self (snd (get_frames st))) =
        royale_timestamp_offset (self st)).
    { rewrite (get_frames_timeout st c c' Hc Hf).
      destruct (45 <? _missed_frame_count (self st) + 1).
      - apply poll_timeout_keeps.
      - destruct (clock_time (clock st)) as [now k].
        apply poll_timeout_keeps. }
    destruct Hall as [Hfr Hoff]. split; [| exact Hoff].
    rewrite Hnew, frames_received_app in Hfr.
    rewrite <- (app_nil_r (frames_received (trace st))) in Hfr at 2.
    now apply app_inv_head in Hfr.
Qed.

Lemma ticks_cons n (st : State) :
  fst (ticks (S n) st) =
    fst (get_frames st) :: fst (ticks n (snd (get_frames st))).
Proof.
  cbn [ticks]. destruct (get_frames st) as [r st1].
  cbn [fst snd]. now destruct (ticks n st1).
Qed.

(** A run of polls: one offset shifts every frame pair it hands out. *)
Lemma ticks_offset n : forall (st : State),
  exists new o,
    trace (snd (ticks n st)) = (trace st ++ new)%list /\
    returned (fst (ticks n st)) = map (shift_pair o) (frames_received new) /\
    (forall o0, royale_timestamp_offset (self st) = Some o0 ->
                o = o0 /\
                royale_timestamp_offset (self (snd (ticks n st))) = Some o0) /\
    (royale_timestamp_offset (self st) = None ->
     (royale_timestamp_offset (self (snd (ticks n st))) = None /\
      returned (fst (ticks n st)) = []) \/
     royale_timestamp_offset (self (snd (ticks n st))) = Some o).
Proof.
  induction n as [| n IH]; intros st.
  - exists [], (match royale_timestamp_offset (self st) with
                | Some o0 => o0
                | None => 0%float
                end).
    cbn. rewrite app_nil_r.
    split; [reflexivity |]. split; [reflexivity |]. split.
    + intros o0 H. now rewrite H.
    + intros H. now left.
  - rewrite ticks_S, ticks_cons.
    destruct (get_frames_offset_step st) as (new1 & Hnew1 & Hstep).
    destruct (IH (snd (get_frames st))) as (new2 & o & Hnew2 & Hret & Hset & Hunset).
    exists (new1 ++ new2)%list, o.
    split; [now rewrite Hnew2, Hnew1, app_assoc |].
    rewrite frames_received_app, map_app.
    destruct (fst (get_frames st)) as [[fp' |] | e].
    + destruct Hstep as (raw & o1 & Hraw & Hfp & Hoff & Hbefore).
      destruct (Hset o1 Hoff) as [-> Hfinal].
      unfold returned in *. cbn [flat_map app]. rewrite Hret, Hraw, Hfp.
      cbn [map app]. split; [reflexivity |]. split.
      * intros o0 H.
        assert (o1 = o0) as <- by (destruct Hbefore; congruence).
        now split.
      * intros _. now right.
    + destruct Hstep as (Hraw & Hoff).
      unfold returned in *. cbn [flat_map app]. rewrite Hraw.
      rewrite Hoff in *. cbn [map app]. auto.
    + destruct Hstep as (Hraw & Hoff).
      unfold returned in *. cbn [flat_map app]. rewrite Hraw.
      rewrite Hoff in *. cbn [map app]. auto.
Qed.

(** C1 (amended). The stored offset is unset only by [__init__]:
    [init_device] leaves it as it is, at the first connection and at every
    reconnection.  Over any run of polls, reconnections included, one offset
    shifts every frame pair handed out; an offset stored before the run is
    that offset and is still stored after it, and a run that starts with no
    offset either hands out no frame and ends with none, or ends with that
    one offset stored. *)
Theorem timestamp_offset_fixed_once :
  (forall (R : Type) (kwargs : Kwargs R) (device : C) (k : K),
     royale_timestamp_offset (self (snd (__init__ kwargs device k))) = None) /\
  (forall st : State,
     royale_timestamp_offset (self (snd (init_device st))) =
       royale_timestamp_offset (self st)) /\
  (forall (st : State) (n : nat),
     exists o,
       returned (fst (ticks n st)) =
         map (shift_pair o)
             (frames_received (events_since st (snd (ticks n st)))) /\
       (forall o0, royale_timestamp_offset (self st) = Some o0 ->
                   o = o0 /\
                   royale_timestamp_offset (self (snd (ticks n st))) = Some o0) /\
       (royale_timestamp_offset (self st) = None ->
        (royale_timestamp_offset (self (snd (ticks n st))) = None /\
         returned (fst (ticks n st)) = []) \/
        royale_timestamp_offset (self (snd (ticks n st))) = Some o)).
Proof.
  split; [| split].
  - intros R kwargs device k. unfold __init__.
    destruct (clock_time k) as [now k'].
    now rewrite (init_device_offset _ _ eq_refl).
  - intros st. now rewrite (init_device_offset _ st eq_refl).
  - intros st n.
    destruct (ticks_offset n st) as (new & o & Hnew & Hret & Hset & Hunset).
    exists o. rewrite (events_since_app _ _ _ Hnew). auto.
Qed.

(** C2 (amended). A poll that obtains a frame pair while no offset is stored
    stores [g_pool.get_timestamp() - time()], the difference of the two host
    clocks at that moment; the frame's own timestamp plays no part.  The
    stored offset is added to the timestamps of both frames of every pair
    handed out, by this poll and by any later poll with the same offset
    stored. *)
Theorem get_frames_adds_clock_offset (st st2 : State) c fp c' c2 fp2 c2' :
  camera (self st) = Some c ->
  cam_get_frame c = (Some fp, c') ->
  royale_timestamp_offset (self st) = None ->
  camera (self st2) = Some c2 ->
  cam_get_frame c2 = (Some fp2, c2') ->
  royale_timestamp_offset (self st2) =
    royale_timestamp_offset (self (snd (get_frames st))) ->
  let k1 := snd (clock_time (clock st)) in
  let pupil := fst (clock_get_timestamp k1) in
  let unix := fst (clock_time (snd (clock_get_timestamp k1))) in
  let offset := PrimFloat.sub pupil unix in
  let adjust f := mkFrame (PrimFloat.add (timestamp f) offset)
                          (exposure_times f) in
  royale_timestamp_offset (self (snd (get_frames st))) = Some offset /\
  fst (get_frames st) = Ok (Some (mkFramePair (adjust (ir fp))
                                              (adjust (depth fp)))) /\
  fst (get_frames st2) = Ok (Some (mkFramePair (adjust (ir fp2))
                                               (adjust (depth fp2)))).
Proof.
  intros Hc Hf Ho Hc2 Hf2 Ho2. cbv zeta.
  pose proof (get_frames_success st c fp c' Hc Hf) as H.
  pose proof (get_frames_success st2 c2 fp2 c2' Hc2 Hf2) as H2.
  rewrite Ho in H.
  destruct (clock_time (clock st)) as [now k1].
  cbv beta iota zeta in H. cbn [fst snd].
  destruct (clock_get_timestamp k1) as [pupil k2].
  cbv beta iota zeta in H. cbn [fst snd].
  destruct (clock_time k2) as [unix k3].
  cbv beta iota zeta in H. cbn [fst snd].
  rewrite H in *. fields.
  destruct (clock_time (clock st2)) as [now2 k21]. cbv zeta in H2.
  rewrite Ho2 in H2. rewrite H2. auto.
Qed.

(** ** The exposure clamp *)

Lemma refresh_exposure_limits_clamps base e0 :
  invariant (@clamped C K base e0) refresh_exposure_limits.
Proof.
  intros st (new & Ht & He).
  unfold refresh_exposure_limits, bind, call_camera, when, modify, get_self,
    ret.
  destruct (camera (self st)) as [c |]; [| now exists new].
  destruct (cam_get_exposure_limits c) as [[low high] c']. fields.
  exists (new ++ [CamGetExposureLimits low high])%list.
  rewrite reported_maxima_app, fold_left_app, <- He, Ht, app_assoc.
  cbn [reported_maxima flat_map pick_limits app fold_left].
  destruct (high <? current_exposure (self st)) eqn:Hlt; fields;
    destruct (_ui_exposure (self st)); fields;
    (split; [reflexivity |]);
    first [ apply Z.ltb_lt in Hlt | apply Z.ltb_ge in Hlt ]; lia.
Qed.

Ltac clamp_leaf :=
  idtac;
  match goal with
  | H : clamped _ _ _ |- _ =>
      destruct H as (new & Ht & He); fields;
      first
        [ exists new; split; assumption
        | eexists (new ++ [_])%list; split;
          [ rewrite Ht, <- app_assoc; reflexivity
          | rewrite reported_maxima_app; cbn; rewrite app_nil_r; assumption ] ]
  end.

Lemma clamped_refl (st : State) : clamped (trace st) (current_exposure (self st)) st.
Proof. exists []. now rewrite app_nil_r. Qed.

Lemma clamped_since (st st' : State) :
  clamped (trace st) (current_exposure (self st)) st' ->
  current_exposure (self st') =
    fold_left Z.min (reported_maxima (events_since st st'))
              (current_exposure (self st)).
Proof.
  intros (new & Ht & He). now rewrite (events_since_app _ _ _ Ht).
Qed.

Lemma fold_min_le l : forall e,
  fold_left Z.min l e <= e /\ Forall (fun high => fold_left Z.min l e <= high) l.
Proof.
  induction l as [| h l IH]; intros e; cbn [fold_left].
  - split; [lia | constructor].
  - destruct (IH (Z.min e h)) as [H1 H2]. split; [lia |].
    constructor; [lia | exact H2].
Qed.

(** ** Rules for [yields] *)

Lemma yields_ret {A} (P : State -> Prop) (a : A) (Q : A -> State -> Prop) :
  (forall st, P st -> Q a st) -> yields P (ret a) Q.
Proof. intros H st _ HP. exists a. split; [reflexivity | now apply H]. Qed.

Lemma yields_bind {A B} (P : State -> Prop) (m : Comp A) (k : A -> Comp B)
    (Q : B -> State -> Prop) :
  returns m -> invariant (@has_camera C K) m -> invariant P m ->
  (forall a, yields P (k a) Q) ->
  yields P (bind m k) Q.
Proof.
  intros Hr Hc HP Hk st Hcam Hst. unfold bind.
  destruct (Hr st Hcam) as [a Ha].
  specialize (Hc st Hcam). specialize (HP st Hst).
  destruct (m st) as [r st']. cbn [fst snd] in *. subst r.
  now apply Hk.
Qed.

Lemma bind_ok {A B} (m : Comp A) (k : A -> Comp B) (st : State) a :
  fst (m st) = Ok a -> bind m k st = k a (snd (m st)).
Proof. unfold bind. destruct (m st) as [r st']. cbn. now intros ->. Qed.

(** ** What [init_device] does to a session *)

Ltac yield_prefix :=
  repeat
    match goal with
    | |- yields _ (bind on_reconnection _) _ => fail 1
    | |- yields _ (bind _ _) _ =>
        apply yields_bind; [normal_return | keeps_camera | frame_inv | intro]
    | |- yields _ (if negb ?b then _ else _) _ => destruct b; cbn [negb]
    | |- yields _ (ret _) _ => apply yields_ret; intros ? ?; assumption
    end.

Lemma reconnected_yields x :
  yields (fun st : State => session st = x)
         (on_reconnection ;;
          notify_all (plain_notification "picoflexx.reconnected") ;;
          ret true)
         (fun b st => b = true /\ session st = reconnected_session x).
Proof.
  intros st Hcam <-.
  unfold on_reconnection, start_pointcloud_recording, notify_all, bind,
    call_camera, modify, emit, get_self, ret, session, reconnected_session.
  destruct (_recording_directory (self st)) as [dir |] eqn:Hd;
    destruct (record_pointcloud (self st)) eqn:Hr; fields;
    rewrite ?Hr, ?Hd; cbn [negb]; cbv beta; fields.
  1:{ destruct (camera (self st)) as [c |]; [| congruence].
      match goal with
      | |- context [cam_start_recording ?path c] =>
          destruct (cam_start_recording path c) as [[] c']
      end.
      fields.
      exists true. split; [reflexivity |]. split; [reflexivity |].
      rewrite Hr, Hd. unfold segment_path. observe.
      now rewrite Nat.add_1_r. }
  all: exists true; split; [reflexivity |]; split; [reflexivity |];
    rewrite ?Hr, ?Hd; observe; now rewrite Nat.add_1_r.
Qed.

(** [init_device] calls [camera.initialize()] once; it returns [true] only
    if that call did, and then it has reconnected the session. *)
Lemma init_device_yields x :
  yields (fun st : State => session st = x) init_device
         (fun b st =>
            exists ok,
              (b = true -> ok = true) /\
              session st =
                if b then reconnected_session (initialized_session ok x)
                else initialized_session ok x).
Proof.
  intros st Hcam <-.
  destruct (init_device st) as [r st'] eqn:E. cbn [fst snd].
  unfold init_device in E. unfold bind at 1 in E.
  unfold call_camera at 1 in E.
  destruct (camera (self st)) as [c |] eqn:Hc; [| congruence].
  destruct (cam_initialize c) as [ok c1].
  set (st1 := mkSt _ _ _) in E.
  assert (Hcam1 : camera (self st1) <> None) by (subst st1; cbn; congruence).
  assert (H1 : session st1 = initialized_session ok (session st)).
  { subst st1. unfold session, initialized_session. fields. observe.
    reflexivity. }
  destruct ok; cbn [negb] in E; cbv beta in E.
  - match type of E with
    | ?rest st1 = _ =>
        assert (H : yields (fun st : State => session st = session st1) rest
                      (fun b st =>
                         session st =
                           if b then reconnected_session (session st1)
                           else session st1))
    end.
    { yield_prefix.
      intros s0 Hcam0 Hs0.
      destruct (reconnected_yields _ s0 Hcam0 Hs0) as (b & Hb & -> & Hq).
      exists true. split; [exact Hb | exact Hq]. }
    destruct (H st1 Hcam1 eq_refl) as (b & Hb & Hq).
    rewrite E in Hb, Hq. cbn [fst snd] in Hb, Hq.
    exists b. split; [exact Hb |]. exists true. split; [reflexivity |].
    now rewrite Hq, H1.
  - unfold ret in E. injection E as <- <-.
    exists false. split; [reflexivity |]. exists false.
    split; [discriminate | exact H1].
Qed.

(** ** What [attempt_reconnect] does to a session *)

Lemma on_disconnection_returns : returns (on_disconnection : Comp unit).
Proof. normal_return. Qed.

Lemma on_disconnection_has_camera :
  invariant (@has_camera C K) on_disconnection.
Proof. keeps_camera. Qed.

Lemma on_disconnection_session :
  preserves (fun st : State => session st) on_disconnection.
Proof. frame. Qed.

(** The first steps of [attempt_reconnect] on a source with a device: the
    loss is announced if the counter [n] is zero; the counter is not touched
    yet. *)
Lemma announce_run (st : State) (n : Z) :
  has_camera st ->
  let m := when (n =? 0)
             (on_disconnection ;;
              notify_all (plain_notification "picoflexx.disconnected")) in
  fst (m st) = Ok tt /\
  has_camera (snd (m st)) /\
  session (snd (m st)) =
    let '(r, log, paths, count, dir, record, n') := session st in
    (r, (log ++ (if n =? 0 then [Announced] else []))%list, paths, count,
     dir, record, n').
Proof.
  intros Hcam. cbv zeta. destruct (n =? 0); unfold when.
  - destruct (on_disconnection_returns st Hcam) as [[] Hr].
    rewrite (bind_ok _ _ st tt Hr).
    pose proof (on_disconnection_has_camera st Hcam) as Hc.
    pose proof (on_disconnection_session _ st eq_refl) as Hs.
    cbn beta in Hs.
    set (st1 := snd (on_disconnection st)) in *.
    unfold notify_all, emit. cbn [fst snd].
    split; [reflexivity |]. split; [exact Hc |].
    rewrite <- Hs. unfold session. fields. observe. reflexivity.
  - unfold ret. cbn [fst snd]. split; [reflexivity |]. split; [exact Hcam |].
    unfold session. now rewrite app_nil_r.
Qed.

Lemma session_log (st : State) lvl msg :
  session (mkSt (self st) (clock st) (trace st ++ [Log lvl msg])) = session st.
Proof. unfold session. fields. observe. reflexivity. Qed.

Lemma session_settled (st : State) lvl msg :
  session (mkSt (upd_reconnection_attempts 0 (self st)) (clock st)
                (trace st ++ [Log lvl msg])) =
    settled_session (session st).
Proof. unfold session, settled_session. fields. observe. reflexivity. Qed.

Lemma attempt_reconnect_yields x :
  yields (fun st : State => session st = x) attempt_reconnect
         (fun _ st =>
            exists ok b,
              (b = true -> ok = true) /\
              session st = attempted_session ok b x).
Proof.
  intros st Hcam <-.
  destruct (attempt_reconnect st) as [r st'] eqn:E. cbn [fst snd].
  unfold attempt_reconnect, logger in E. unfold bind at 1 in E.
  cbn [emit] in E. unfold bind at 1 in E. cbn [get_self self] in E.
  destruct (camera (self st)) as [c |] eqn:Hc; [| congruence].
  set (st0 := mkSt (self st) (clock st) _) in E.
  assert (Hcam0 : has_camera st0)
    by (unfold has_camera; subst st0; cbn; congruence).
  assert (Hs0 : session st0 = session st) by apply session_log.
  destruct (announce_run st0 (_reconnection_attempts (self st)) Hcam0)
    as (Hr1 & Hcam1 & Hs1).
  cbv zeta in Hr1, Hcam1, Hs1.
  rewrite (bind_ok _ _ st0 tt Hr1) in E.
  set (st1 := snd (when _ _ st0)) in *.
  unfold bind at 1 in E. cbn [modify] in E.
  set (st2 := mkSt _ (clock st1) (trace st1)) in E.
  assert (Hcam2 : camera (self st2) <> None)
    by (subst st2; exact Hcam1).
  assert (Hs2 : session st2 = announced_session (session st)).
  { rewrite Hs0 in Hs1. subst st2. unfold session in Hs1 |- *.
    unfold announced_session. cbv beta iota zeta in Hs1 |- *.
    cbn [self trace _recording_reconnection_count _recording_directory
         record_pointcloud _reconnection_attempts upd_reconnection_attempts].
    injection Hs1 as H1 H2 H3 H4 H5 H6 H7.
    now rewrite H1, H2, H3, H4, H5, H6. }
  destruct (init_device_yields _ st2 Hcam2 eq_refl)
    as (b & Hb & ok & Hok & Hs3).
  rewrite (bind_ok _ _ st2 b Hb) in E.
  set (st3 := snd (init_device st2)) in *.
  rewrite Hs2 in Hs3.
  destruct b.
  - unfold bind, get_self, logger, emit, modify in E. cbn [fst snd] in E.
    injection E as <- <-.
    exists tt. split; [reflexivity |]. exists ok, true.
    split; [exact Hok |]. unfold attempted_session.
    rewrite <- Hs3. apply session_settled.
  - unfold ret in E. injection E as <- <-.
    exists tt. split; [reflexivity |]. exists ok, false.
    split; [exact Hok |]. exact Hs3.
Qed.

Lemma connection_log_since (st st' : State) :
  extends (trace st) st' ->
  connection_log (trace st') =
    (connection_log (trace st) ++ connection_log (events_since st st'))%list.
Proof.
  intros [new H]. rewrite (events_since_app st st' new H), H.
  apply connection_log_app.
Qed.

(** C6. Without a device object [attempt_reconnect] only logs a warning:
    it returns, the source and the clocks are as before and nothing but the
    two log lines was emitted.  With a device object it sends
    "picoflexx.disconnected" exactly when the attempt counter is zero, that
    is on the first attempt since the last success, and before anything
    else; it then calls [camera.initialize()] exactly once, whatever the
    counter; the counter ends at zero if [init_device] succeeded (the
    "picoflexx.reconnected" notification closes the protocol) and one higher
    than before otherwise. *)
Theorem attempt_reconnect_protocol (st0 st : State) :
  camera (self st0) = None ->
  camera (self st) <> None ->
  (fst (attempt_reconnect st0) = Ok tt /\
   self (snd (attempt_reconnect st0)) = self st0 /\
   clock (snd (attempt_reconnect st0)) = clock st0 /\
   events_since st0 (snd (attempt_reconnect st0)) =
     [Log DEBUG "attempt_reconnect()";
      Log WARNING "Camera wasn't connected at all?"]) /\
  (let n := _reconnection_attempts (self st) in
   let st' := snd (attempt_reconnect st) in
   fst (attempt_reconnect st) = Ok tt /\
   exists ok b,
     (b = true -> ok = true) /\
     connection_log (events_since st st') =
       ((if n =? 0 then [Announced] else []) ++ [Initialized ok]
        ++ (if b then [Restored] else []))%list /\
     _reconnection_attempts (self st') = (if b then 0 else n + 1)).
Proof.
  intros Hnone Hcam. split.
  - unfold attempt_reconnect, logger, emit, bind, get_self.
    cbn [fst snd self]. rewrite Hnone. cbn [fst snd self clock].
    repeat split. apply events_since_app. cbn [trace].
    now rewrite <- app_assoc.
  - cbv zeta.
    destruct (attempt_reconnect_yields _ st Hcam eq_refl)
      as ([] & Hr & ok & b & Hok & Hs).
    split; [exact Hr |]. exists ok, b. split; [exact Hok |].
    pose proof (connection_log_since st _
                  (attempt_reconnect_extends _ st (extends_refl st))) as Hlog.
    unfold attempted_session, announced_session, initialized_session,
      reconnected_session, settled_session, session in Hs.
    destruct b;
      [destruct (_recording_directory (self st));
       destruct (record_pointcloud (self st)) |];
      injection Hs as _ Hl _ _ _ _ Hn;
      rewrite Hl, <- ?app_assoc in Hlog;
      apply app_inv_head in Hlog; rewrite <- Hlog; auto.
Qed.

(** ** Segment names *)

Lemma append_inv_head (p a b : string) : p ++ a = p ++ b -> a = b.
Proof.
  induction p as [| c p IH]; cbn; intros H; [exact H |].
  injection H as H. now apply IH.
Qed.

Lemma length_append (a b : string) :
  String.length (a ++ b) = (String.length a + String.length b)%nat.
Proof. induction a as [| c a IH]; cbn; [reflexivity | now rewrite IH]. Qed.

Lemma append_inv_tail (t : string) : forall a b : string,
  a ++ t = b ++ t -> a = b.
Proof.
  induction a as [| c a IH]; intros [| c' b] H; cbn in H.
  - reflexivity.
  - apply (f_equal String.length) in H. cbn in H.
    rewrite length_append in H. lia.
  - apply (f_equal String.length) in H. cbn in H.
    rewrite length_append in H. lia.
  - injection H as -> H. f_equal. now apply IH.
Qed.

Lemma str_inj (a b : Z) : str a = str b -> a = b.
Proof.
  unfold str. intros H.
  assert (Hnn : forall z, Z.to_int z <> Decimal.Pos Decimal.Nil /\
                          Z.to_int z <> Decimal.Neg Decimal.Nil).
  { intros [| q | q]; cbn; split; try discriminate;
      intros E; injection E as E; now apply Unsigned.to_uint_nonnil in E. }
  apply (f_equal NilZero.int_of_string) in H.
  rewrite !NilZero.isi in H by apply Hnn.
  injection H as H. apply (f_equal Z.of_int) in H.
  now rewrite !DecimalZ.of_to in H.
Qed.

Lemma segment_filename_inj (a b : Z) :
  segment_filename a = segment_filename b -> a = b.
Proof.
  unfold segment_filename.
  destruct (a =? 0) eqn:Ha; destruct (b =? 0) eqn:Hb; intros H.
  - apply Z.eqb_eq in Ha, Hb. congruence.
  - cbn in H. discriminate.
  - cbn in H. discriminate.
  - apply append_inv_head, append_inv_tail in H. now apply str_inj.
Qed.

Lemma segment_path_inj dir (a b : Z) :
  segment_path dir a = segment_path dir b -> a = b.
Proof.
  unfold segment_path.
  assert (H : forall z,
    os_path_join dir (segment_filename z) =
      (if String.eqb dir "" || endswith_sep dir then dir else dir ++ "/")
      ++ segment_filename z).
  { intros z. unfold os_path_join, segment_filename.
    destruct (z =? 0); cbn [startswith_sep append Ascii.eqb Bool.eqb];
      destruct (String.eqb dir "" || endswith_sep dir); try reflexivity;
      induction dir as [| c d IH]; cbn; congruence. }
  rewrite !H. intros E. apply append_inv_head in E.
  now apply segment_filename_inj.
Qed.

Lemma segment_names_spec dir k :
  segment_names dir k =
    map (fun i => segment_path dir (Z.of_nat i)) (seq 0 (S k)).
Proof.
  unfold segment_names. apply map_ext. intros [| i]; reflexivity.
Qed.

Lemma segment_names_S dir k :
  segment_names dir (S k) =
    (segment_names dir k ++ [segment_path dir (Z.of_nat k + 1)])%list.
Proof.
  rewrite !segment_names_spec, (seq_S (S k)), map_app. cbn [map Nat.add].
  do 3 f_equal. lia.
Qed.

Lemma segment_names_NoDup dir k : NoDup (segment_names dir k).
Proof.
  rewrite segment_names_spec.
  apply NoDup_map_NoDup_ForallPairs; [| apply seq_NoDup].
  intros i j _ _ H. apply segment_path_inj in H. lia.
Qed.

(** ** Recording across reconnections *)

Lemma recording_attempted dir r0 paths0 ok b x :
  recording dir r0 paths0 x ->
  recording dir r0 paths0 (attempted_session ok b x).
Proof.
  destruct x as [[[[[[r log] paths] count] d] record] n].
  unfold recording, attempted_session, announced_session,
    initialized_session, reconnected_session, settled_session.
  intros (Hr & Hc & -> & -> & Hp). destruct b; [| auto].
  repeat split; try lia.
  replace (S r - r0)%nat with (S (r - r0)) by lia.
  now rewrite segment_names_S, app_assoc, Hp, Hc.
Qed.

Lemma session_missed_once c' (st : State) k :
  session (missed_once c' st k) = session st.
Proof. unfold session, missed_once. fields. observe. reflexivity. Qed.

Lemma session_reset (st : State) now (k : K) :
  session (mkSt (upd_last_frame_time now
                   (upd_missed_frame_count 0 (self st))) k (trace st)) =
    session st.
Proof. reflexivity. Qed.

(** A poll keeps a recording going: a timeout that reconnects opens the next
    segment, every other poll opens none. *)
Lemma get_frames_recording dir r0 paths0 :
  invariant (fun st : State =>
               has_camera st /\ recording dir r0 paths0 (session st))
            get_frames.
Proof.
  intros st [Hcam Hrec].
  split; [now apply get_frames_has_camera |].
  destruct (camera (self st)) as [c |] eqn:Hc; [| now elim Hcam].
  destruct (cam_get_frame c) as [[fp |] c'] eqn:Hf.
  - pose proof (get_frames_success st c fp c' Hc Hf) as H.
    destruct (clock_time (clock st)) as [now k1]. cbv zeta in H.
    destruct (royale_timestamp_offset (self st)).
    + rewrite H. cbn [snd].
      replace (session _) with (session st); [exact Hrec |].
      unfold session. fields. observe. reflexivity.
    + destruct (clock_get_timestamp k1) as [pupil k2].
      destruct (clock_time k2) as [unix k3]. rewrite H. cbn [snd].
      replace (session _) with (session st); [exact Hrec |].
      unfold session. fields. observe. reflexivity.
  - rewrite (get_frames_timeout st c c' Hc Hf).
    assert (Hfire : forall k,
      recording dir r0 paths0
        (session (snd ((when true (attempt_reconnect ;; reset_reconnect_timers)
                        ;; ret (@None FramePair)) (missed_once c' st k))))).
    { intros k. rewrite trigger_run by apply missed_once_has_camera.
      cbv zeta. destruct (clock_time (clock (missed_once c' st k))) as [t k'].
      cbn [snd]. rewrite session_reset.
      destruct (attempt_reconnect_yields _ (missed_once c' st k)
                  (missed_once_has_camera c' st k) eq_refl)
        as ([] & _ & ok & b & _ & ->).
      apply recording_attempted. now rewrite session_missed_once. }
    destruct (45 <? _missed_frame_count (self st) + 1); [apply Hfire |].
    destruct (clock_time (clock st)) as [now k].
    destruct (PrimFloat.ltb 5 _); [apply Hfire |].
    unfold when, bind, ret. cbn [snd]. now rewrite session_missed_once.
Qed.

Lemma set_read_only_run b (st : State) :
  set_read_only b st =
    (Ok tt, mkSt (with_read_only b (self st)) (clock st) (trace st)).
Proof.
  unfold set_read_only, with_read_only, when, bind, modify, get_self, ret.
  cbn [fst snd self].
  destruct st as [s k tr]. cbn [self clock trace].
  destruct (_switch_record_pointcloud s) eqn:E1;
    destruct (_ui_usecase s) eqn:E2; cbn; rewrite ?E2; reflexivity.
Qed.

Lemma with_read_only_fields b (s : @Picoflexx_Source C) :
  camera (with_read_only b s) = camera s /\
  record_pointcloud (with_read_only b s) = record_pointcloud s /\
  royale_timestamp_offset (with_read_only b s) = royale_timestamp_offset s /\
  _reconnection_attempts (with_read_only b s) = _reconnection_attempts s.
Proof.
  unfold with_read_only.
  destruct (_switch_record_pointcloud s) eqn:E1;
    destruct (_ui_usecase s) eqn:E2; cbn; rewrite ?E2; cbn; auto.
Qed.

(** "recording.started" on a source with a menu. *)
Lemma on_notify_recording_started (st : State) dir :
  menu (self st) = true ->
  on_notify (recording_started dir) st =
    start_pointcloud_recording dir (recording_armed dir st).
Proof.
  intros Hm. unfold on_notify. unfold bind at 1. cbn [get_self self fst snd].
  rewrite Hm. cbn [negb subject recording_started String.eqb Ascii.eqb
                   Bool.eqb rec_path].
  unfold bind at 1. rewrite set_read_only_run.
  unfold save_recording_metadata, bind, modify, emit, get_self.
  cbn [fst snd self clock trace]. unfold recording_armed.
  destruct (with_read_only_fields true (self st)) as (_ & _ & Ho & _).
  cbn [royale_timestamp_offset upd_recording_reconnection_count
       upd_recording_directory upd_frame_count].
  now rewrite Ho, <- app_assoc.
Qed.

(** The "recording.started" notification opens the first segment. *)
Lemma recording_started_run (st : State) dir c :
  camera (self st) = Some c ->
  menu (self st) = true ->
  record_pointcloud (self st) = true ->
  let st1 := snd (on_notify (recording_started dir) st) in
  has_camera st1 /\ extends (trace st) st1 /\
  _recording_reconnection_count (self st1) = 0 /\
  recording dir (reconnections (trace st)) (started_paths (trace st))
            (session st1).
Proof.
  intros Hc Hm Hr. cbv zeta. rewrite (on_notify_recording_started st dir Hm).
  destruct (with_read_only_fields true (self st)) as (Hc' & Hr' & _ & _).
  unfold start_pointcloud_recording, bind, call_camera, get_self,
    recording_armed.
  cbn [fst snd self clock trace record_pointcloud camera
       _recording_reconnection_count upd_recording_reconnection_count
       upd_recording_directory upd_frame_count].
  rewrite Hr', Hr. cbn [negb]. cbv beta.
  cbn [fst snd self clock trace record_pointcloud camera
       _recording_reconnection_count upd_recording_reconnection_count
       upd_recording_directory upd_frame_count].
  rewrite Hc', Hc.
  destruct (cam_start_recording _ c) as [[] c1]. cbn [fst snd].
  split; [unfold has_camera; cbn; congruence |].
  split; [eexists; cbn [trace]; rewrite <- app_assoc; reflexivity |].
  split; [reflexivity |].
  unfold recording, session. fields.
  rewrite !reconnections_app, !started_paths_app.
  cbn [reconnections started_paths flat_map pick_reconnected pick_started
       app List.length].
  rewrite !Nat.add_0_r, Nat.sub_diag, Hr', Hr, app_nil_r.
  repeat split; auto.
Qed.

(** C4. A recording starts with the reconnection count at 0.  With the
    record-pointcloud option on, the segment files opened from the
    "recording.started" notification on, over any number of polls, are
    [pointcloud.rrf], [pointcloud_1.rrf], ..., [pointcloud_K.rrf] in the
    recording directory, in that order, where [K] is the number of
    reconnections in those polls: [K + 1] files, no two of the same name.
    The count is then [K], and a segment's file name is a function of the
    count at the moment it is opened. *)
Theorem segment_numbering (st : State) (dir : string) (n : nat) (c : C) :
  camera (self st) = Some c ->
  menu (self st) = true ->
  record_pointcloud (self st) = true ->
  let st1 := snd (on_notify (recording_started dir) st) in
  let st2 := snd (ticks n st1) in
  let new := events_since st st2 in
  let K := reconnections new in
  _recording_reconnection_count (self st1) = 0 /\
  started_paths new = segment_names dir K /\
  List.length (started_paths new) = S K /\
  NoDup (started_paths new) /\
  _recording_reconnection_count (self st2) = Z.of_nat K /\
  started_paths (events_since st (snd (start_pointcloud_recording dir st))) =
    [os_path_join dir
       (segment_filename (_recording_reconnection_count (self st)))].
Proof.
  intros Hc Hm Hr. cbv zeta.
  destruct (recording_started_run st dir c Hc Hm Hr)
    as (Hcam1 & Hext1 & Hzero & Hrec1).
  cbv zeta in Hcam1, Hext1, Hzero, Hrec1.
  set (st1 := snd (on_notify (recording_started dir) st)) in *.
  destruct (ticks_invariant _ n (get_frames_recording dir _ _) st1
              (conj Hcam1 Hrec1)) as [_ Hrec2].
  destruct (ticks_invariant _ n (get_frames_extends (trace st)) st1 Hext1)
    as [new Hnew].
  set (st2 := snd (ticks n st1)) in *.
  rewrite (events_since_app st st2 new Hnew).
  unfold recording, session in Hrec2.
  destruct Hrec2 as (Hle & Hcount & _ & _ & Hpaths).
  rewrite Hnew, reconnections_app in Hle, Hcount, Hpaths.
  rewrite started_paths_app in Hpaths.
  replace (reconnections (trace st) + reconnections new
           - reconnections (trace st))%nat
    with (reconnections new) in * by lia.
  apply app_inv_head in Hpaths.
  split; [exact Hzero |]. split; [exact Hpaths |].
  split; [rewrite Hpaths; unfold segment_names;
          now rewrite length_map, length_seq |].
  split; [rewrite Hpaths; apply segment_names_NoDup |].
  split; [exact Hcount |].
  unfold start_pointcloud_recording, bind, call_camera, get_self.
  cbn [fst snd self]. rewrite Hr. cbn [negb]. cbv beta. rewrite Hc.
  destruct (cam_start_recording _ c) as [[] c1]. cbn [snd].
  erewrite events_since_app by (cbn [trace]; reflexivity).
  reflexivity.
Qed.

(** ** Stopping and starting a recording, settings *)

(** Where the metadata file can be opened, the methods on a file system are
    the methods above. *)
Lemma disk_on_notify_writable (writable : string -> bool) (n : Notification)
    (st : State) :
  (forall dir, rec_path n = Some dir ->
     writable (os_path_join dir "info_picoflexx.csv") = true) ->
  Disk.on_notify writable n st = on_notify n st.
Proof.
  intros H. unfold Disk.on_notify, on_notify.
  destruct (rec_path n) as [dir |]; [| reflexivity].
  assert (Hs : Disk.save_recording_metadata writable dir =
               (save_recording_metadata dir : Comp unit)).
  { unfold Disk.save_recording_metadata, save_recording_metadata.
    now rewrite (H dir eq_refl). }
  now rewrite Hs.
Qed.

(** "recording.started" on a source with a menu, where the metadata file
    cannot be opened. *)
Lemma disk_on_notify_not_writable (writable : string -> bool) (st : State)
    dir :
  menu (self st) = true ->
  writable (os_path_join dir "info_picoflexx.csv") = false ->
  Disk.on_notify writable (recording_started dir) st =
    (Raise OSError,
     mkSt (upd_recording_reconnection_count 0
             (upd_recording_directory (Some dir)
                (upd_frame_count (-1) (with_read_only true (self st)))))
          (clock st) (trace st)).
Proof.
  intros Hm Hw. unfold Disk.on_notify. unfold bind at 1.
  cbn [get_self self fst snd].
  rewrite Hm. cbn [negb subject recording_started String.eqb Ascii.eqb
                   Bool.eqb rec_path].
  unfold bind at 1. rewrite set_read_only_run.
  unfold Disk.save_recording_metadata. rewrite Hw.
  unfold bind, modify, raise. reflexivity.
Qed.

(** C9 (amended). A source without a menu ignores the "recording.started"
    notification.  On a source that has a menu, if [info_picoflexx.csv] in
    the recording directory can be opened for appending, the notification
    opens it in append mode and writes the key "Royale Timestamp Offset"
    with the offset stored at that moment (none, if no frame has been
    obtained yet), once, before the first segment is opened; if the file
    cannot be opened, the OSError leaves [on_notify]: nothing is written and
    no segment is opened, while the widgets are locked, [frame_count] is -1
    and the recording directory and the reconnection count are set
    already. *)
Theorem recording_started_writes_offset (writable : string -> bool)
    (st st0 : State) (dir : string) :
  menu (self st) = true ->
  menu (self st0) = false ->
  let meta_info_path := os_path_join dir "info_picoflexx.csv" in
  let run := Disk.on_notify writable (recording_started dir) st in
  Disk.on_notify writable (recording_started dir) st0 = (Ok tt, st0) /\
  if writable meta_info_path then
    run = on_notify (recording_started dir) st /\
    events_since st (snd run) =
      ([FileOpen meta_info_path "a";
        WriteKeyValueFile meta_info_path "Royale Timestamp Offset"
                          (royale_timestamp_offset (self st)) true]
       ++ match camera (self st), record_pointcloud (self st) with
          | Some _, true =>
              [CamStartRecording (os_path_join dir "pointcloud.rrf")]
          | _, _ => []
          end)%list
  else
    run =
      (Raise OSError,
       mkSt (upd_recording_reconnection_count 0
               (upd_recording_directory (Some dir)
                  (upd_frame_count (-1) (with_read_only true (self st)))))
            (clock st) (trace st)) /\
    events_since st (snd run) = [].
Proof.
  intros Hm Hm0. cbv zeta. split.
  { unfold Disk.on_notify, bind, get_self, ret. cbn [fst snd].
    now rewrite Hm0. }
  destruct (writable (os_path_join dir "info_picoflexx.csv")) eqn:Hw.
  - assert (Heq : Disk.on_notify writable (recording_started dir) st =
                  on_notify (recording_started dir) st).
    { apply disk_on_notify_writable. cbn [rec_path recording_started].
      now intros d [= <-]. }
    split; [exact Heq |]. rewrite Heq.
    rewrite (on_notify_recording_started st dir Hm).
    destruct (with_read_only_fields true (self st)) as (Hc' & Hr' & _ & _).
    apply events_since_app.
    unfold start_pointcloud_recording, bind, call_camera, get_self,
      recording_armed, ret.
    cbn [fst snd self clock trace record_pointcloud camera
         _recording_reconnection_count upd_recording_reconnection_count
         upd_recording_directory upd_frame_count].
    rewrite Hr'. destruct (record_pointcloud (self st)); cbn [negb]; cbv beta;
      cbn [fst snd self clock trace record_pointcloud camera
           _recording_reconnection_count upd_recording_reconnection_count
           upd_recording_directory upd_frame_count];
      rewrite ?Hc'; destruct (camera (self st)) as [c |];
      try (destruct (cam_start_recording _ c) as [[] c1]);
      cbn [snd trace]; rewrite <- ?app_assoc, ?app_nil_r; reflexivity.
  - rewrite (disk_on_notify_not_writable writable st dir Hm Hw).
    split; [reflexivity |]. cbn [snd]. apply events_since_app.
    cbn [trace]. now rewrite app_nil_r.
Qed.

(** C10. A source constructed from the dictionary [get_init_dict] returned,
    on a device that does not come up, has the record-pointcloud option, the
    auto-exposure mode, the exposure value and the selected usecase of the
    source the dictionary was taken from. *)
Theorem init_dict_roundtrip (R : Type) (inherited : R)
    (s1 : @Picoflexx_Source C) (device : C) (k : K) :
  offline_at_construction device = true ->
  let s2 := self (snd (__init__ (get_init_dict inherited s1) device k)) in
  fst (__init__ (get_init_dict inherited s1) device k) = Ok false /\
  record_pointcloud s2 = record_pointcloud s1 /\
  _current_exposure_mode s2 = _current_exposure_mode s1 /\
  current_exposure s2 = current_exposure s1 /\
  selected_usecase s2 = selected_usecase s1.
Proof.
  unfold offline_at_construction. intros Hoff. cbv zeta.
  destruct (__init__ (get_init_dict inherited s1) device k) as [r st'] eqn:E.
  unfold __init__ in E. destruct (clock_time k) as [now k'].
  unfold init_device in E. unfold bind at 1 in E.
  unfold call_camera at 1 in E. cbn [self camera] in E.
  destruct (cam_initialize device) as [ok d1].
  destruct ok; cbn [negb orb] in Hoff, E.
  - unfold bind at 1 in E. unfold call_camera at 1 in E.
    cbn [self camera upd_camera] in E.
    destruct (cam_is_connected d1) as [connected d2].
    cbn [fst] in Hoff. destruct connected; [discriminate |].
    cbn [negb] in E. unfold bind, logger, emit, ret in E.
    injection E as <- <-. cbn. auto.
  - unfold ret in E. injection E as <- <-. cbn. auto.
Qed.

(** * Further properties *)

(** ** Polls and the session *)

(** A poll leaves the session alone or makes one reconnection attempt. *)
Lemma get_frames_session (st : State) :
  has_camera st ->
  session (snd (get_frames st)) = session st \/
  exists ok b,
    (b = true -> ok = true) /\
    session (snd (get_frames st)) = attempted_session ok b (session st).
Proof.
  intros Hcam.
  destruct (camera (self st)) as [c |] eqn:Hc; [| now elim Hcam].
  destruct (cam_get_frame c) as [[fp |] c'] eqn:Hf.
  - left. pose proof (get_frames_success st c fp c' Hc Hf) as H.
    destruct (clock_time (clock st)) as [now k1]. cbv zeta in H.
    destruct (royale_timestamp_offset (self st)).
    + rewrite H. cbn [snd]. unfold session. fields. observe. reflexivity.
    + destruct (clock_get_timestamp k1) as [pupil k2].
      destruct (clock_time k2) as [unix k3]. rewrite H. cbn [snd].
      unfold session. fields. observe. reflexivity.
  - rewrite (get_frames_timeout st c c' Hc Hf).
    assert (Hfire : forall k,
      exists ok b,
        (b = true -> ok = true) /\
        session (snd ((when true (attempt_reconnect ;; reset_reconnect_timers)
                       ;; ret (@None FramePair)) (missed_once c' st k))) =
          attempted_session ok b (session st)).
    { intros k. rewrite trigger_run by apply missed_once_has_camera.
      cbv zeta. destruct (clock_time (clock (missed_once c' st k))) as [t k'].
      cbn [snd]. rewrite session_reset.
      destruct (attempt_reconnect_yields _ (missed_once c' st k)
                  (missed_once_has_camera c' st k) eq_refl)
        as ([] & _ & ok & b & Hok & ->).
      exists ok, b. split; [exact Hok |]. now rewrite session_missed_once. }
    destruct (45 <? _missed_frame_count (self st) + 1); [right; apply Hfire |].
    destruct (clock_time (clock st)) as [now k].
    destruct (PrimFloat.ltb 5 _); [right; apply Hfire |].
    left. unfold when, bind, ret. cbn [snd]. apply session_missed_once.
Qed.

Lemma link_run_app s l1 l2 :
  link_run s (l1 ++ l2) =
    match link_run s l1 with
    | Some s' => link_run s' l2
    | None => None
    end.
Proof.
  revert s. induction l1 as [| e l1 IH]; intros s; cbn; [reflexivity |].
  destruct (link_step s e); [apply IH | reflexivity].
Qed.

Lemma protocol_kept_attempted log0 s0 ok b x :
  (b = true -> ok = true) ->
  protocol_kept log0 s0 x ->
  protocol_kept log0 s0 (attempted_session ok b x).
Proof.
  destruct x as [[[[[[r log] paths] count] d] record] n].
  unfold protocol_kept, attempted_session, announced_session,
    initialized_session, reconnected_session, settled_session.
  intros Hok (Hn & new & s & -> & Hrun & Hup).
  assert (Hstep : exists s1,
    link_run s0 (new ++ (if n =? 0 then [Announced] else [])
                     ++ [Initialized ok]) = Some s1 /\
    s1 = (if ok then Ready else Down)).
  { rewrite link_run_app, Hrun. destruct (n =? 0) eqn:Hz.
    - apply Z.eqb_eq in Hz. rewrite (proj1 Hup Hz). cbn. eauto.
    - apply Z.eqb_neq in Hz.
      destruct s; [elim Hz; now apply Hup | cbn; eauto | cbn; eauto]. }
  destruct Hstep as (s1 & Hs1 & Hs1').
  destruct b.
  - rewrite (Hok eq_refl) in *. subst s1.
    assert (Hrun' :
      link_run s0 ((new ++ (if n =? 0 then [Announced] else [])
                        ++ [Initialized true]) ++ [Restored]) = Some Up)
      by (rewrite link_run_app, Hs1; reflexivity).
    destruct d as [loc |]; [destruct record |];
      (split; [lia |]);
      exists ((new ++ (if n =? 0 then [Announced] else [])
                   ++ [Initialized true]) ++ [Restored])%list, Up;
      (split; [rewrite <- !app_assoc; reflexivity |]);
      (split; [exact Hrun' | tauto]).
  - split; [lia |].
    exists (new ++ (if n =? 0 then [Announced] else [])
                ++ [Initialized ok])%list, s1.
    split; [now rewrite <- !app_assoc |]. split; [exact Hs1 |].
    subst s1. split; [lia | destruct ok; discriminate].
Qed.

Lemma get_frames_protocol log0 s0 :
  invariant (fun st : State =>
               has_camera st /\ protocol_kept log0 s0 (session st))
            get_frames.
Proof.
  intros st [Hcam Hkept].
  split; [now apply get_frames_has_camera |].
  destruct (get_frames_session st Hcam) as [-> | (ok & b & Hok & ->)];
    [exact Hkept | now apply protocol_kept_attempted].
Qed.

(** X1. Over any run of polls on a source with a device, the notifications
    "picoflexx.disconnected" and "picoflexx.reconnected" alternate, starting
    with the one the attempt counter calls for; [camera.initialize()] is
    called only between them; "picoflexx.reconnected" follows directly on a
    [camera.initialize()] that answered [true]; and the counter stays
    non-negative and is zero exactly when no reconnection is under way. *)
Theorem reconnection_protocol_alternates (st : State) (n : nat) :
  camera (self st) <> None ->
  0 <= _reconnection_attempts (self st) ->
  let st' := snd (ticks n st) in
  0 <= _reconnection_attempts (self st') /\
  option_map under_way
    (link_run (link_of (_reconnection_attempts (self st)))
              (connection_log (events_since st st'))) =
    Some (negb (_reconnection_attempts (self st') =? 0)).
Proof.
  intros Hcam Hn. cbv zeta.
  assert (H0 : protocol_kept (connection_log (trace st))
                 (link_of (_reconnection_attempts (self st))) (session st)).
  { unfold protocol_kept, session. split; [exact Hn |].
    exists [], (link_of (_reconnection_attempts (self st))).
    rewrite app_nil_r. split; [reflexivity |]. split; [reflexivity |].
    unfold link_of. destruct (_reconnection_attempts (self st) =? 0) eqn:Hz.
    - apply Z.eqb_eq in Hz. tauto.
    - apply Z.eqb_neq in Hz. split; [tauto | discriminate]. }
  destruct (ticks_invariant _ n (get_frames_protocol _ _) st (conj Hcam H0))
    as [_ Hkept].
  pose proof (connection_log_since st _
                (ticks_invariant _ n (get_frames_extends _) st
                   (extends_refl st))) as Hlog.
  unfold protocol_kept, session in Hkept.
  destruct Hkept as (Hn' & new & s & Hnew & Hrun & Hup).
  split; [exact Hn' |].
  rewrite Hlog in Hnew. apply app_inv_head in Hnew. rewrite Hnew, Hrun.
  cbn [option_map]. f_equal.
  destruct (_reconnection_attempts (self (snd (ticks n st))) =? 0) eqn:Hz.
  - apply Z.eqb_eq in Hz. now rewrite (proj1 Hup Hz).
  - apply Z.eqb_neq in Hz.
    destruct s; [elim Hz; now apply Hup | reflexivity | reflexivity].
Qed.

(** ** Outside a recording *)

Lemma not_recording_attempted ok b r log paths count d record n :
  d = None \/ record = false ->
  exists r' log' n',
    attempted_session ok b (r, log, paths, count, d, record, n) =
      (r', log', paths, count, d, record, n').
Proof.
  unfold attempted_session, announced_session, initialized_session,
    reconnected_session, settled_session.
  intros [-> | ->]; destruct b; try destruct d; try destruct record;
    eauto.
Qed.

Lemma get_frames_not_recording paths count d record :
  d = None \/ record = false ->
  invariant (fun st : State =>
               has_camera st /\
               exists r log n,
                 session st = (r, log, paths, count, d, record, n))
            get_frames.
Proof.
  intros Hoff st (Hcam & r & log & n & Hs).
  split; [now apply get_frames_has_camera |].
  destruct (get_frames_session st Hcam) as [-> | (ok & b & _ & ->)];
    [eauto |].
  rewrite Hs. destruct (not_recording_attempted ok b r log paths count d
                          record n Hoff) as (r' & log' & n' & ->).
  eauto.
Qed.

(** X2. While no recording is active, or with the record-pointcloud option
    off, polls open no segment file, however often the device is lost and
    found again, and the reconnection count, the recording directory and the
    option stay as they are. *)
Theorem no_segment_outside_recording (st : State) (n : nat) :
  camera (self st) <> None ->
  _recording_directory (self st) = None \/
  record_pointcloud (self st) = false ->
  let st' := snd (ticks n st) in
  started_paths (events_since st st') = [] /\
  _recording_reconnection_count (self st') =
    _recording_reconnection_count (self st) /\
  _recording_directory (self st') = _recording_directory (self st) /\
  record_pointcloud (self st') = record_pointcloud (self st).
Proof.
  intros Hcam Hoff. cbv zeta.
  destruct (ticks_invariant _ n
              (get_frames_not_recording (started_paths (trace st))
                 (_recording_reconnection_count (self st))
                 (_recording_directory (self st))
                 (record_pointcloud (self st)) Hoff)
              st)
    as (_ & r & log & k & Hs).
  { split; [exact Hcam |]. unfold session. eauto. }
  destruct (ticks_invariant _ n (get_frames_extends (trace st)) st
              (extends_refl st)) as [new Hnew].
  rewrite (events_since_app st _ new Hnew).
  unfold session in Hs. injection Hs as _ _ Hp Hc Hd Hr _.
  rewrite Hnew, started_paths_app in Hp.
  rewrite <- (app_nil_r (started_paths (trace st))) in Hp at 2.
  apply app_inv_head in Hp. auto.
Qed.

(** ** The failure tracker and the frame counter *)

(** X3. The missed-frame count stays between 0 and 45 from poll to poll:
    the poll that would make it 46 reconnects and resets it. *)
Theorem missed_frame_count_bounded (st : State) (n : nat) :
  camera (self st) <> None ->
  0 <= _missed_frame_count (self st) <= 45 ->
  0 <= _missed_frame_count (self (snd (ticks n st))) <= 45.
Proof.
  intros Hcam Hb.
  refine (proj2 (ticks_invariant
                   (fun s : State =>
                      has_camera s /\ 0 <= _missed_frame_count (self s) <= 45)
                   n _ st (conj Hcam Hb))).
  clear. intros st [Hcam Hb].
  split; [now apply get_frames_has_camera |].
  destruct (camera (self st)) as [c |] eqn:Hc; [| now elim Hcam].
  destruct (cam_get_frame c) as [[fp |] c'] eqn:Hf.
  - destruct (get_frames_success_tracker st c fp c' Hc Hf) as (_ & -> & _).
    lia.
  - destruct (get_frames_timeout_tracker st c c' Hc Hf) as [_ H].
    cbv zeta in H.
    destruct (45 <? _missed_frame_count (self st) + 1) eqn:Hm; cbn [orb] in H.
    + destruct H as (_ & -> & _). lia.
    + apply Z.ltb_ge in Hm.
      destruct (PrimFloat.ltb 5 _); destruct H as (_ & -> & _); lia.
Qed.

Lemma poll_timeout_frame_count b c' (st : State) k :
  frame_count
    (self (snd ((when b (attempt_reconnect ;; reset_reconnect_timers) ;;
                 ret (@None FramePair)) (missed_once c' st k)))) =
    frame_count (self st).
Proof.
  assert (Hkeep :
    preserves (fun st : State => frame_count (self st))
      (when b (attempt_reconnect ;; reset_reconnect_timers) ;;
       ret (@None FramePair))) by frame.
  now rewrite (Hkeep _ (missed_once c' st k) eq_refl).
Qed.

(** X4. [frame_count] counts the frame pairs handed out: a run of polls
    raises it by the number of pairs it returned, and neither a timeout nor
    a reconnection touches it. *)
Theorem frame_count_counts_returned (st : State) (n : nat) :
  frame_count (self (snd (ticks n st))) =
    frame_count (self st) + Z.of_nat (List.length (returned (fst (ticks n st)))).
Proof.
  revert st. induction n as [| n IH]; intros st.
  - cbn. lia.
  - rewrite ticks_S, ticks_cons, IH. unfold returned. cbn [flat_map].
    rewrite length_app.
    assert (Hstep :
      frame_count (self (snd (get_frames st))) =
        frame_count (self st)
        + Z.of_nat (List.length
                      match fst (get_frames st) with
                      | Ok (Some fp) => [fp]
                      | _ => []
                      end)).
    { destruct (camera (self st)) as [c |] eqn:Hc.
      2:{ unfold get_frames, bind, call_camera. rewrite Hc. cbn. lia. }
      destruct (cam_get_frame c) as [[fp |] c'] eqn:Hf.
      - pose proof (get_frames_success st c fp c' Hc Hf) as H.
        destruct (clock_time (clock st)) as [now k1]. cbv zeta in H.
        destruct (royale_timestamp_offset (self st)).
        + rewrite H. reflexivity.
        + destruct (clock_get_timestamp k1) as [pupil k2].
          destruct (clock_time k2) as [unix k3]. rewrite H. reflexivity.
      - destruct (get_frames_timeout_tracker st c c' Hc Hf) as [-> _].
        rewrite (get_frames_timeout st c c' Hc Hf).
        destruct (45 <? _missed_frame_count (self st) + 1).
        + rewrite poll_timeout_frame_count. cbn. lia.
        + destruct (clock_time (clock st)) as [now k].
          rewrite poll_timeout_frame_count. cbn. lia. }
    rewrite Hstep. lia.
Qed.

(** ** Letting go of the device *)

(** X5. [cleanup] closes the device at most once and drops the device
    object: a second [cleanup] does nothing, a poll afterwards raises
    AttributeError without touching the state, and a reconnection attempt
    afterwards makes no call on any device. *)
Theorem cleanup_releases_device (st : State) :
  let st1 := snd (cleanup st) in
  fst (cleanup st) = Ok tt /\
  camera (self st1) = None /\
  camera_calls (events_since st st1) =
    match camera (self st) with
    | Some _ => [CamClose]
    | None => []
    end /\
  cleanup st1 = (Ok tt, st1) /\
  get_frames st1 = (Raise AttributeError, st1) /\
  camera_calls (events_since st1 (snd (attempt_reconnect st1))) = [].
Proof.
  cbv zeta.
  assert (Hgone : forall s : State,
    camera (self s) = None ->
    cleanup s = (Ok tt, s) /\
    get_frames s = (Raise AttributeError, s) /\
    camera_calls (events_since s (snd (attempt_reconnect s))) = []).
  { intros s Hn. split; [| split].
    - unfold cleanup, bind, get_self, ret. cbn [fst snd]. now rewrite Hn.
    - unfold get_frames, bind, call_camera. now rewrite Hn.
    - unfold attempt_reconnect, logger, emit, bind, get_self.
      cbn [fst snd self]. rewrite Hn. cbn [fst snd].
      erewrite events_since_app
        by (cbn [trace]; rewrite <- app_assoc; reflexivity).
      reflexivity. }
  destruct (camera (self st)) as [c |] eqn:Hc.
  - destruct (cleanup st) as [r st1] eqn:E.
    unfold cleanup, bind, get_self, call_camera, modify in E.
    cbn [fst snd self] in E. rewrite Hc in E. cbn [fst snd self] in E.
    rewrite Hc in E. destruct (cam_close c) as [[] c'].
    injection E as <- <-. cbn [fst snd self clock trace].
    split; [reflexivity |]. split; [reflexivity |].
    split; [erewrite events_since_app by (cbn [trace]; reflexivity);
            reflexivity |].
    apply Hgone. reflexivity.
  - destruct (Hgone st Hc) as (H1 & H2 & H3). rewrite H1. cbn [fst snd].
    split; [reflexivity |]. split; [exact Hc |].
    split; [unfold events_since; now rewrite skipn_all |].
    auto.
Qed.

(** ** Notifications *)

(** X6. A notification with a missing key: "picoflexx.set_exposure"
    without "exposure" raises KeyError and changes nothing;
    "recording.started" without "rec_path" raises KeyError after the widgets
    are locked and [frame_count] is -1, with no recording directory set, no
    metadata written and no segment opened. *)
Theorem on_notify_missing_key (st : State) :
  menu (self st) = true ->
  on_notify (plain_notification "picoflexx.set_exposure") st =
    (Raise KeyError, st) /\
  on_notify (plain_notification "recording.started") st =
    (Raise KeyError,
     mkSt (upd_frame_count (-1) (with_read_only true (self st)))
          (clock st) (trace st)).
Proof.
  intros Hm. split.
  - unfold on_notify, bind, get_self, raise. cbn [fst snd].
    rewrite Hm. reflexivity.
  - unfold on_notify. unfold bind at 1. cbn [get_self self fst snd].
    rewrite Hm. cbn [negb subject plain_notification String.eqb Ascii.eqb
                     Bool.eqb rec_path].
    unfold bind at 1. rewrite set_read_only_run.
    unfold bind, modify, raise. reflexivity.
Qed.

(** X7. Notifications the source does not handle: without a menu every
    notification, and with one every notification whose subject is none of
    "picoflexx.set_exposure", "recording.started" and "recording.stopped",
    is taken without any effect. *)
Theorem on_notify_ignores_the_rest (st : State) (n : Notification) :
  menu (self st) = false \/
  (subject n <> "picoflexx.set_exposure" /\
   subject n <> "recording.started" /\
   subject n <> "recording.stopped") ->
  on_notify n st = (Ok tt, st).
Proof.
  intros H. unfold on_notify, bind, get_self, ret. cbn [fst snd].
  destruct (menu (self st)); cbn [negb]; [| reflexivity].
  destruct H as [H | (H1 & H2 & H3)]; [discriminate |].
  apply String.eqb_neq in H1, H2, H3. now rewrite H1, H2, H3.
Qed.


(** "recording.stopped" on a source with a menu. *)
Lemma on_notify_recording_stopped (st : State) :
  menu (self st) = true ->
  on_notify recording_stopped st =
    (stop_pointcloud_recording ;; modify (upd_recording_directory None))
      (mkSt (with_read_only false (self st)) (clock st) (trace st)).
Proof.
  intros Hm. unfold on_notify. unfold bind at 1. cbn [get_self self fst snd].
  rewrite Hm. cbn [negb subject recording_stopped plain_notification
                   String.eqb Ascii.eqb Bool.eqb].
  unfold bind at 1. now rewrite set_read_only_run.
Qed.

(** C8 (amended). With the record-pointcloud option off and no recording
    active, the stop operation makes no call on the device and raises no
    error: [stop_pointcloud_recording] leaves the state as it is, and the
    "recording.stopped" notification changes nothing except that, on a
    source with a menu, the two widgets are made writable again, which is no
    change if neither was locked.  With the option on, on a source with a
    menu and a device object, both call [camera.stop_recording()] once,
    whether or not a recording is active. *)
Theorem stop_recording_noop_when_option_off (st st1 : State) (c : C) :
  record_pointcloud (self st) = false ->
  _recording_directory (self st) = None ->
  record_pointcloud (self st1) = true ->
  camera (self st1) = Some c ->
  menu (self st1) = true ->
  (stop_pointcloud_recording st = (Ok tt, st) /\
   on_notify recording_stopped st =
     (Ok tt,
      if menu (self st)
      then mkSt (with_read_only false (self st)) (clock st) (trace st)
      else st) /\
   (_switch_record_pointcloud (self st) <> Some (mkWidget true) ->
    _ui_usecase (self st) <> Some (mkWidget true) ->
    with_read_only false (self st) = self st)) /\
  (fst (stop_pointcloud_recording st1) = Ok tt /\
   events_since st1 (snd (stop_pointcloud_recording st1)) =
     [CamStopRecording] /\
   fst (on_notify recording_stopped st1) = Ok tt /\
   events_since st1 (snd (on_notify recording_stopped st1)) =
     [CamStopRecording]).
Proof.
  intros Hr Hd Hr1 Hc1 Hm1.
  assert (Hstop : forall s : State,
            record_pointcloud (self s) = false ->
            stop_pointcloud_recording s = (Ok tt, s)).
  { intros s H. unfold stop_pointcloud_recording, bind, get_self, ret.
    cbn [fst snd]. now rewrite H. }
  assert (Hcall : forall s : State,
            record_pointcloud (self s) = true ->
            camera (self s) = Some c ->
            stop_pointcloud_recording s =
              (Ok tt,
               mkSt (upd_camera (Some (snd (cam_stop_recording c))) (self s))
                    (clock s) (trace s ++ [CamStopRecording]))).
  { intros s H1 H2.
    unfold stop_pointcloud_recording, bind, get_self, call_camera.
    cbn [fst snd]. rewrite H1. cbn [negb]. cbv beta. rewrite H2.
    now destruct (cam_stop_recording c) as [[] c1]. }
  split; [split; [| split] | split; [| split; [| split]]].
  - now apply Hstop.
  - destruct (menu (self st)) eqn:Hm.
    + rewrite (on_notify_recording_stopped st Hm). unfold bind at 1.
      destruct (with_read_only_fields false (self st)) as (_ & Hr' & _ & _).
      rewrite Hstop by (cbn [self]; now rewrite Hr').
      unfold modify. cbn [self clock trace]. do 2 f_equal.
      clear - Hd. destruct (self st). cbn in Hd. subst.
      unfold with_read_only. cbn.
      destruct _switch_record_pointcloud0; destruct _ui_usecase0; reflexivity.
    + unfold on_notify, bind, get_self, ret. cbn [fst snd].
      now rewrite Hm.
  - unfold with_read_only. destruct (self st). cbn.
    destruct _switch_record_pointcloud0 as [[[|]] |];
      destruct _ui_usecase0 as [[[|]] |]; cbn; intros Hs Hu;
      first [reflexivity | congruence].
  - now rewrite (Hcall st1 Hr1 Hc1).
  - rewrite (Hcall st1 Hr1 Hc1). cbn [snd]. now apply events_since_app.
  - rewrite (on_notify_recording_stopped st1 Hm1). unfold bind at 1.
    destruct (with_read_only_fields false (self st1)) as (Hc' & Hr' & _ & _).
    rewrite Hcall
      by (cbn [self]; first [now rewrite Hr' | now rewrite Hc']).
    reflexivity.
  - rewrite (on_notify_recording_stopped st1 Hm1). unfold bind at 1.
    destruct (with_read_only_fields false (self st1)) as (Hc' & Hr' & _ & _).
    rewrite Hcall
      by (cbn [self]; first [now rewrite Hr' | now rewrite Hc']).
    unfold modify. cbn [snd fst trace]. now apply events_since_app.
Qed.


(** X9. Dragging the exposure slider: [set_exposure_delayed] stores the
    exposure at once and sends one "picoflexx.set_exposure" notification
    with a delay of 0.3 s; when that notification comes back, [on_notify]
    sets this very exposure on the device, by one call, and the stored value
    is still the same. *)
Theorem exposure_slider_reaches_device (st : State) (e : Z) (c : C) :
  camera (self st) = Some c ->
  menu (self st) = true ->
  let st1 := snd (set_exposure_delayed e st) in
  let n := mkNotification "picoflexx.set_exposure"
                          (Some 0x1.3333333333333p-2%float) (Some e) None in
  let st2 := snd (on_notify n st1) in
  current_exposure (self st1) = e /\
  events_since st st1 = [NotifyAll n] /\
  fst (on_notify n st1) = Ok tt /\
  camera_calls (events_since st1 st2) = [CamSetExposure e] /\
  current_exposure (self st2) = e.
Proof.
  intros Hc Hm. cbv zeta.
  change (snd (set_exposure_delayed e st))
    with (mkSt (upd_current_exposure e (self st)) (clock st)
               (trace st ++ [NotifyAll (set_exposure_notification e)])).
  set (st1 := mkSt _ _ _).
  split; [reflexivity |].
  split; [now apply events_since_app |].
  destruct (on_notify _ st1) as [r2 st2] eqn:E.
  unfold on_notify, set_exposure, bind, get_self, call_camera in E.
  cbn [fst snd] in E. subst st1.
  cbn [self clock trace menu upd_current_exposure camera] in E.
  rewrite Hm in E.
  cbn [negb subject exposure String.eqb Ascii.eqb Bool.eqb] in E.
  cbv beta in E.
  cbn [self clock trace menu upd_current_exposure camera] in E.
  rewrite Hc in E. destruct (cam_set_exposure e c) as [[] c'].
  injection E as <- <-.
  cbn [fst snd self trace current_exposure upd_camera upd_current_exposure].
  split; [reflexivity |]. split; [| reflexivity].
  erewrite events_since_app by (cbn [trace]; reflexivity). reflexivity.
Qed.

(** ** [init_device], case by case *)

Lemma init_device_cases (st : State) c :
  camera (self st) = Some c ->
  let (ok, c1) := cam_initialize c in
  let st1 := mkSt (upd_camera (Some c1) (self st)) (clock st)
                  (trace st ++ [CamInitialize ok]) in
  if ok then
    let (connected, c2) := cam_is_connected c1 in
    let st2 := mkSt (upd_camera (Some c2) (self st)) (clock st)
                    (trace st ++ [CamInitialize true;
                                  CamIsConnected connected]) in
    if connected then init_device st = apply_settings st2
    else init_device st =
           (Ok false,
            mkSt (self st2) (clock st)
                 (trace st ++ [CamInitialize true; CamIsConnected false;
                               Log DEBUG "Camera not connected"]))
  else init_device st = (Ok false, st1).
Proof.
  intros Hc. destruct (cam_initialize c) as [ok c1] eqn:Hi. cbv zeta.
  assert (H1 : init_device st =
               (if negb ok then ret false
                else connected <- call_camera cam_is_connected CamIsConnected ;;
                     if negb connected
                     then logger DEBUG "Camera not connected" ;; ret false
                     else apply_settings)
                 (mkSt (upd_camera (Some c1) (self st)) (clock st)
                       (trace st ++ [CamInitialize ok]))).
  { unfold init_device. unfold bind at 1. unfold call_camera at 1.
    rewrite Hc, Hi. reflexivity. }
  rewrite H1. destruct ok; cbn [negb]; [| reflexivity].
  destruct (cam_is_connected c1) as [connected c2] eqn:Hn.
  destruct connected; unfold bind at 1; unfold call_camera at 1;
    cbn [self camera upd_camera clock trace]; rewrite Hn; cbn [negb].
  - now rewrite <- app_assoc.
  - unfold bind, logger, emit, ret. cbn [fst snd self clock trace upd_camera].
    now rewrite <- !app_assoc.
Qed.

Lemma apply_settings_returns_true x :
  yields (fun st : State => session st = x) apply_settings
         (fun b _ => b = true).
Proof.
  unfold apply_settings. yield_prefix.
  intros s0 Hcam0 Hs0.
  destruct (reconnected_yields _ s0 Hcam0 Hs0) as (b & Hb & -> & _).
  exists true. split; [exact Hb | reflexivity].
Qed.

(** X10. An [init_device] that returns [False] has done nothing but ask the
    device: either [initialize()] failed, or it succeeded and the camera is
    not connected, which is logged; no notification is sent, no setting is
    applied, and every attribute of the source other than the device object
    is as before. *)
Theorem init_device_failure_is_silent (st : State) :
  camera (self st) <> None ->
  fst (init_device st) = Ok false ->
  let st' := snd (init_device st) in
  upd_camera (camera (self st)) (self st') = self st /\
  clock st' = clock st /\
  (events_since st st' = [CamInitialize false] \/
   events_since st st' =
     [CamInitialize true; CamIsConnected false;
      Log DEBUG "Camera not connected"]).
Proof.
  intros Hcam Hfalse. cbv zeta.
  destruct (camera (self st)) as [c |] eqn:Hc; [| congruence].
  pose proof (init_device_cases st c Hc) as H.
  assert (Heta : forall c', upd_camera (Some c)
                              (upd_camera (Some c') (self st)) = self st).
  { intros c'. destruct st as [s k tr]. cbn [self] in *.
    destruct s. cbn in *. now subst. }
  destruct (cam_initialize c) as [ok c1]. cbv zeta in H.
  destruct ok.
  - destruct (cam_is_connected c1) as [connected c2]. cbv zeta in H.
    destruct connected.
    + set (st2 := mkSt _ _ _) in H.
      assert (Hcam2 : camera (self st2) <> None)
        by (subst st2; cbn; congruence).
      destruct (apply_settings_returns_true _ st2 Hcam2 eq_refl)
        as (b & Hb & ->).
      rewrite H, Hb in Hfalse. discriminate.
    + rewrite H. cbn [snd self clock]. split; [apply Heta |].
      split; [reflexivity |]. right. now apply events_since_app.
  - rewrite H. cbn [snd self clock]. split; [apply Heta |].
    split; [reflexivity |]. left. now apply events_since_app.
Qed.

(** ** The settings [init_device] applies *)

Ltac frame2 :=
  intro;
  invariance ltac:(unfold settings_sent, recording_calls in *; observe;
                   solve [assumption | congruence]).

Lemma settings_sent_app a b :
  settings_sent (a ++ b) = (settings_sent a ++ settings_sent b)%list.
Proof. apply flat_map_app. Qed.

Lemma load_camera_state_returns : returns (load_camera_state : Comp unit).
Proof. normal_return. Qed.

Lemma load_camera_state_has_camera :
  invariant (@has_camera C K) load_camera_state.
Proof. keeps_camera. Qed.

Lemma load_camera_state_settings :
  preserves (fun st : State => settings_sent (trace st)) load_camera_state.
Proof. frame2. Qed.

(** Re-applying the selected use case, if there is one: the exposure is
    lowered to the maxima reported meanwhile. *)
Lemma usecase_step (sel : option string) (st : State) :
  has_camera st ->
  let m := match sel with
           | Some uc => set_usecase uc
           | None => ret tt
           end in
  fst (m st) = Ok tt /\
  has_camera (snd (m st)) /\
  exists new,
    trace (snd (m st)) = (trace st ++ new)%list /\
    settings_sent new =
      match sel with
      | Some uc => [UsecaseSet uc]
      | None => []
      end /\
    current_exposure (self (snd (m st))) =
      fold_left Z.min (reported_maxima new) (current_exposure (self st)).
Proof.
  intros Hcam. cbv zeta. destruct sel as [uc |].
  - destruct (set_usecase uc st) as [r st'] eqn:E.
    unfold set_usecase in E. unfold bind at 1 in E.
    unfold call_camera at 1 in E.
    destruct (camera (self st)) as [c |] eqn:Hc; [| now elim Hcam].
    destruct (cam_set_usecase uc c) as [[] c1].
    set (st1 := mkSt _ _ _) in E.
    assert (Hcam1 : has_camera st1)
      by (unfold has_camera; subst st1; cbn; congruence).
    destruct (load_camera_state_returns st1 Hcam1) as [[] Hr].
    pose proof (load_camera_state_has_camera st1 Hcam1) as Hc'.
    pose proof (load_camera_state_settings _ st1 eq_refl) as Hs.
    assert (Hclamp : invariant (@clamped C K (trace st1)
                                  (current_exposure (self st1)))
                               load_camera_state).
    { pose proof (refresh_exposure_limits_clamps (trace st1)
                    (current_exposure (self st1))) as Hrefresh.
      invariance clamp_leaf. }
    destruct (Hclamp st1 (clamped_refl st1)) as (new & Ht & He).
    cbn beta in Hs. rewrite E in Hr, Hc', Hs, Ht, He. cbn [fst snd] in *.
    subst r. split; [reflexivity |]. split; [exact Hc' |].
    exists (CamSetUsecase uc :: new).
    rewrite Ht, settings_sent_app in Hs.
    rewrite <- (app_nil_r (settings_sent (trace st1))) in Hs at 2.
    apply app_inv_head in Hs.
    subst st1. cbn [trace self current_exposure upd_camera] in Ht, He.
    split; [now rewrite Ht, <- app_assoc |].
    split; [| exact He].
    change (settings_sent (CamSetUsecase uc :: new))
      with (UsecaseSet uc :: settings_sent new).
    now rewrite Hs.
  - unfold ret. cbn [fst snd]. split; [reflexivity |].
    split; [exact Hcam |]. exists []. now rewrite app_nil_r.
Qed.

(** Re-applying the exposure mode: the source takes the mode the device
    answers. *)
Lemma mode_step (wanted : bool) (st : State) :
  has_camera st ->
  exists applied,
    fst (set_exposure_mode wanted st) = Ok tt /\
    has_camera (snd (set_exposure_mode wanted st)) /\
    trace (snd (set_exposure_mode wanted st)) =
      (trace st ++ [CamSetExposureMode wanted applied])%list /\
    _current_exposure_mode (self (snd (set_exposure_mode wanted st))) =
      applied /\
    current_exposure (self (snd (set_exposure_mode wanted st))) =
      current_exposure (self st).
Proof.
  intros Hcam.
  destruct (set_exposure_mode wanted st) as [r st'] eqn:E.
  unfold set_exposure_mode, bind, call_camera, modify, get_self, ret in E.
  destruct (camera (self st)) as [c |] eqn:Hc; [| now elim Hcam].
  destruct (cam_set_exposure_mode wanted c) as [applied c1].
  cbn [fst snd self clock trace _ui_exposure upd_current_exposure_mode
       upd_camera] in E.
  exists applied.
  destruct (_ui_exposure (self st)); injection E as <- <-;
    cbn [fst snd self trace]; (split; [reflexivity |]);
    (split; [unfold has_camera; cbn; congruence |]);
    repeat split.
Qed.

(** Re-applying the exposure, in manual mode and unless it is zero. *)
Lemma exposure_step (st : State) :
  has_camera st ->
  let e := current_exposure (self st) in
  let m := when (negb (_current_exposure_mode (self st)) && negb (e =? 0))
             (set_exposure e ;; notify_all (set_exposure_notification e)) in
  fst (m st) = Ok tt /\
  has_camera (snd (m st)) /\
  exists new,
    trace (snd (m st)) = (trace st ++ new)%list /\
    settings_sent new =
      if negb (_current_exposure_mode (self st)) && negb (e =? 0)
      then [ExposureSet e] else [].
Proof.
  intros Hcam. cbv zeta.
  destruct (negb (_current_exposure_mode (self st))
            && negb (current_exposure (self st) =? 0)); unfold when.
  - match goal with
    | |- context [snd (?m st)] => destruct (m st) as [r st'] eqn:E
    end.
    unfold set_exposure, notify_all, emit, bind, call_camera in E.
    destruct (camera (self st)) as [c |] eqn:Hc; [| now elim Hcam].
    destruct (cam_set_exposure (current_exposure (self st)) c) as [[] c1].
    cbn [fst snd self clock trace] in E. injection E as <- <-.
    cbn [fst snd self trace]. split; [reflexivity |].
    split; [unfold has_camera; cbn; congruence |].
    eexists. split; [rewrite <- app_assoc; reflexivity | reflexivity].
  - unfold ret. cbn [fst snd]. split; [reflexivity |].
    split; [exact Hcam |]. exists []. now rewrite app_nil_r.
Qed.

Lemma before_mode_set_app l wanted applied rest :
  (forall w a, ~ In (ExposureModeSet w a) (settings_sent l)) ->
  before_mode_set (l ++ CamSetExposureMode wanted applied :: rest) = l.
Proof.
  induction l as [| e l IH]; intros H; [reflexivity |].
  assert (Hl : forall w a, ~ In (ExposureModeSet w a) (settings_sent l)).
  { intros w a Hin. apply (H w a).
    change (settings_sent (e :: l))
      with (pick_setting e ++ settings_sent l)%list.
    apply in_or_app. now right. }
  destruct e; cbn [app before_mode_set]; try (now rewrite IH).
  exfalso. apply (H wanted0 applied0). cbn. now left.
Qed.

(** X11. A successful [init_device] calls the setters of the device in this
    order and makes no other setter call: [set_usecase] with the selected
    use case, if one is selected; [set_exposure_mode] with the exposure mode
    the source had before the use case was set again (setting a use case may
    change the mode the device is in); and [set_exposure], exactly if the
    mode the device answers is manual and the remembered exposure is not
    zero, with the remembered exposure as it is by then: lowered to the
    maxima reported while the use case was set.  A failed one calls no
    setter. *)
Theorem init_device_reapplies_settings (st : State) (b : bool) :
  camera (self st) <> None ->
  fst (init_device st) = Ok b ->
  let new := events_since st (snd (init_device st)) in
  if b then
    exists applied,
      settings_sent new =
        settings_of (self st) applied
          (fold_left Z.min (reported_maxima (before_mode_set new))
                     (current_exposure (self st)))
  else settings_sent new = [].
Proof.
  intros Hcam Hb. cbv zeta.
  destruct (camera (self st)) as [c |] eqn:Hc; [| congruence].
  pose proof (init_device_cases st c Hc) as H.
  destruct (cam_initialize c) as [ok c1]. cbv zeta in H.
  destruct ok.
  2:{ rewrite H in Hb |- *. injection Hb as <-. cbn [snd].
      erewrite events_since_app by (cbn [trace]; reflexivity). reflexivity. }
  destruct (cam_is_connected c1) as [connected c2]. cbv zeta in H.
  destruct connected.
  2:{ rewrite H in Hb |- *. injection Hb as <-. cbn [snd].
      erewrite events_since_app by (cbn [trace]; reflexivity). reflexivity. }
  set (st2 := mkSt _ _ _) in H.
  assert (Hcam2 : has_camera st2)
    by (unfold has_camera; subst st2; cbn; congruence).
  destruct (apply_settings_returns_true _ st2 Hcam2 eq_refl)
    as (b' & Hb' & ->).
  rewrite H, Hb' in Hb. injection Hb as <-.
  rewrite H. clear H Hb'.
  destruct (apply_settings st2) as [r st'] eqn:E. cbn [snd].
  unfold apply_settings in E. unfold bind at 1 in E.
  cbn [get_self fst snd] in E.
  assert (Hsel : selected_usecase (self st2) = selected_usecase (self st))
    by reflexivity.
  assert (Hmode : _current_exposure_mode (self st2) =
                  _current_exposure_mode (self st)) by reflexivity.
  assert (Hexp : current_exposure (self st2) = current_exposure (self st))
    by reflexivity.
  assert (Ht2 : trace st2 =
                (trace st ++ [CamInitialize true; CamIsConnected true])%list)
    by reflexivity.
  rewrite Hsel, Hmode in E.
  destruct (usecase_step (selected_usecase (self st)) st2 Hcam2)
    as (Hr3 & Hcam3 & new3 & Ht3 & Hs3 & He3).
  cbv zeta in Hr3, Hcam3, Ht3, He3.
  rewrite (bind_ok _ _ st2 tt Hr3) in E.
  set (st3 := snd (_ st2)) in *.
  destruct (mode_step (_current_exposure_mode (self st)) st3 Hcam3)
    as (applied & Hr4 & Hcam4 & Ht4 & Hm4 & He4).
  rewrite (bind_ok _ _ st3 tt Hr4) in E.
  set (st4 := snd (set_exposure_mode _ st3)) in *.
  unfold bind at 1 in E. cbn [get_self fst snd] in E.
  destruct (exposure_step st4 Hcam4) as (Hr5 & Hcam5 & new5 & Ht5 & Hs5).
  cbv zeta in Hr5, Hcam5, Ht5.
  rewrite (bind_ok _ _ st4 tt Hr5) in E.
  set (st5 := snd (when _ _ st4)) in *.
  match type of E with
  | ?tail st5 = _ =>
      assert (Htail : preserves (fun st : State => settings_sent (trace st))
                                tail) by frame2;
      assert (Hext : invariant (@extends C K (trace st5)) tail) by extension;
      pose proof (Htail _ st5 eq_refl) as Hs6; cbn beta in Hs6;
      pose proof (Hext st5 (extends_refl st5)) as [new6 Ht6]
  end.
  rewrite E in Hs6, Ht6. cbn [snd] in Hs6, Ht6.
  clearbody st5 st4 st3. clear E Hr3 Hr4 Hr5 Hcam3 Hcam4 Hcam5 Htail Hext.
  rewrite Ht6, settings_sent_app in Hs6.
  rewrite <- (app_nil_r (settings_sent (trace st5))) in Hs6 at 2.
  apply app_inv_head in Hs6.
  rewrite Hm4, He4, He3, Hexp in Hs5.
  assert (Hwhole : trace st' =
            (trace st ++
             ([CamInitialize true; CamIsConnected true] ++ new3)
             ++ CamSetExposureMode (_current_exposure_mode (self st)) applied
             :: (new5 ++ new6))%list).
  { rewrite Ht6, Ht5, Ht4, Ht3, Ht2, <- !app_assoc. reflexivity. }
  rewrite (events_since_app st st' _ Hwhole).
  assert (Hfree : forall w a,
            ~ In (ExposureModeSet w a)
                 (settings_sent ([CamInitialize true; CamIsConnected true]
                                 ++ new3))).
  { intros w a. rewrite settings_sent_app, Hs3. cbn.
    destruct (selected_usecase (self st)); cbn; intuition discriminate. }
  rewrite (before_mode_set_app _ _ _ _ Hfree).
  exists applied.
  change (CamSetExposureMode (_current_exposure_mode (self st)) applied
          :: (new5 ++ new6))%list
    with ([CamSetExposureMode (_current_exposure_mode (self st)) applied]
          ++ (new5 ++ new6))%list.
  rewrite !settings_sent_app, Hs3, Hs5, Hs6, reported_maxima_app.
  unfold settings_of. cbn. now rewrite app_nil_r.
Qed.

(** ** [load_camera_state] *)

Lemma call_camera_run {A} (method : C -> A * C) (ev : A -> Event)
    (st : State) {c a c'} :
  camera (self st) = Some c -> method c = (a, c') ->
  call_camera method ev st =
    (Ok a, mkSt (upd_camera (Some c') (self st)) (clock st)
                (trace st ++ [ev a])).
Proof. intros Hc Hm. unfold call_camera. now rewrite Hc, Hm. Qed.

Lemma bind_run {A B} (m : Comp A) (k : A -> Comp B) (st : State) {st1 a} :
  m st = (Ok a, st1) -> bind m k st = k a st1.
Proof. intros H. unfold bind. now rewrite H. Qed.

Lemma bind_modify {B} f (k : unit -> Comp B) (st : State) :
  bind (modify f) k st = k tt (mkSt (f (self st)) (clock st) (trace st)).
Proof. reflexivity. Qed.

Ltac camera_step H E :=
  cbv beta in E;
  match type of H with
  | ?m ?c = _ =>
      match type of E with
      | context [bind (call_camera m ?ev) ?k ?s] =>
          rewrite (bind_run _ k s (call_camera_run (c := c) m ev s eq_refl H))
            in E
      end
  end.

Lemma online_true (st : State) :
  fst (online st) = Ok true ->
  exists c c1 c2,
    camera (self st) = Some c /\
    online st =
      (Ok true,
       mkSt (upd_camera (Some c2) (upd_camera (Some c1) (self st)))
            (clock st)
            ((trace st ++ [CamIsConnected true]) ++ [CamIsCapturing true])).
Proof.
  intros Hon. destruct (online st) as [r st1] eqn:E. cbn [fst] in Hon.
  subst r. unfold online in E. unfold bind at 1 in E.
  unfold get_self at 1 in E. cbn [fst snd] in E.
  destruct (camera (self st)) as [c |] eqn:Hc;
    [| unfold ret in E; discriminate].
  destruct (cam_is_connected c) as [connected c1] eqn:H1.
  rewrite (bind_run _ _ _ (call_camera_run _ _ _ Hc H1)) in E.
  destruct connected; [| unfold ret in E; discriminate].
  destruct (cam_is_capturing c1) as [capturing c2] eqn:H2.
  match type of E with
  | call_camera _ _ ?s = _ =>
      rewrite (call_camera_run (c := c1) _ _ s eq_refl H2) in E
  end.
  cbn [self clock trace] in E. injection E as -> <-.
  now exists c, c1, c2.
Qed.

(** X12. On a source that is online, [load_camera_state] asks the device
    for its use case, its exposure mode and its exposure limits, in this
    order and once each, and stores what it was told: the use case, the
    mode, the exposure lowered to the maximum, and, if the slider exists,
    the mode as its read-only flag and the limits as its range. *)
Theorem load_camera_state_mirrors_device (st : State) :
  fst (online st) = Ok true ->
  let st' := snd (load_camera_state st) in
  fst (load_camera_state st) = Ok tt /\
  exists uc mode low high,
    events_since st st' =
      [CamIsConnected true; CamIsCapturing true; CamGetCurrentUsecase uc;
       CamGetExposureMode mode; CamGetExposureLimits low high] /\
    selected_usecase (self st') = Some uc /\
    _current_exposure_mode (self st') = mode /\
    current_exposure (self st') = Z.min (current_exposure (self st)) high /\
    _ui_exposure (self st') =
      option_map (fun _ => mkSlider mode low high) (_ui_exposure (self st)).
Proof.
  intros Hon. cbv zeta.
  destruct (online_true _ Hon) as (c & c1 & c2 & Hc & Ho).
  destruct (load_camera_state st) as [r st'] eqn:E. cbn [fst snd].
  unfold load_camera_state in E. rewrite (bind_run _ _ _ Ho) in E.
  cbv beta in E. cbn [negb] in E.
  destruct (cam_get_current_usecase c2) as [uc c3] eqn:H3.
  camera_step H3 E. cbv beta in E. rewrite bind_modify in E.
  cbn [self clock trace] in E. unfold get_exposure_mode in E.
  destruct (cam_get_exposure_mode c3) as [mode c4] eqn:H4.
  camera_step H4 E. cbv beta in E. rewrite bind_modify in E.
  cbn [self clock trace] in E. unfold refresh_exposure_limits in E.
  destruct (cam_get_exposure_limits c4) as [[low high] c5] eqn:H5.
  camera_step H5 E.
  unfold bind, get_self, when, modify, ret in E.
  cbn [fst snd self clock trace current_exposure upd_camera
       upd_current_exposure_mode upd_selected_usecase] in E.
  destruct (high <? current_exposure (self st)) eqn:Hlt;
    cbn [fst snd self clock trace _ui_exposure upd_camera
         upd_current_exposure upd_current_exposure_mode
         upd_selected_usecase] in E;
    destruct (_ui_exposure (self st)) eqn:Hui;
    cbn [fst snd self clock trace] in E;
    injection E as <- <-;
    (split; [reflexivity |]);
    exists uc, mode, low, high;
    (split; [apply events_since_app; cbn [trace];
             rewrite <- !app_assoc; reflexivity |]);
    cbn [self selected_usecase _current_exposure_mode current_exposure
         _ui_exposure upd_ui_exposure upd_current_exposure
         upd_current_exposure_mode upd_selected_usecase upd_camera];
    rewrite ?Hui; cbn [option_map]; repeat split;
    first [ apply Z.ltb_lt in Hlt | apply Z.ltb_ge in Hlt ]; lia.
Qed.

Lemma upd_camera_twice o o' (s : @Picoflexx_Source C) :
  upd_camera o (upd_camera o' s) = upd_camera o s.
Proof. now destruct s. Qed.

Lemma upd_camera_same (s : @Picoflexx_Source C) : upd_camera (camera s) s = s.
Proof. now destruct s. Qed.

Lemma online_false (st : State) :
  fst (online st) = Ok false ->
  exists st1 checks,
    online st = (Ok false, st1) /\
    upd_camera (camera (self st)) (self st1) = self st /\
    trace st1 = (trace st ++ checks)%list /\
    (checks = [] \/ checks = [CamIsConnected false] \/
     checks = [CamIsConnected true; CamIsCapturing false]).
Proof.
  intros Hoff. destruct (online st) as [r st1] eqn:E. cbn [fst] in Hoff.
  subst r. unfold online in E. unfold bind at 1 in E.
  unfold get_self at 1 in E. cbn [fst snd] in E.
  destruct (camera (self st)) as [c |] eqn:Hc.
  - destruct (cam_is_connected c) as [connected c1] eqn:H1.
    rewrite (bind_run _ _ _ (call_camera_run _ _ _ Hc H1)) in E.
    destruct connected.
    + destruct (cam_is_capturing c1) as [capturing c2] eqn:H2.
      match type of E with
      | call_camera _ _ ?s = _ =>
          rewrite (call_camera_run (c := c1) _ _ s eq_refl H2) in E
      end.
      cbn [self clock trace] in E. injection E as -> <-.
      eexists. exists [CamIsConnected true; CamIsCapturing false].
      split; [reflexivity |]. cbn [self trace].
      split; [now rewrite !upd_camera_twice, <- Hc, upd_camera_same |].
      split; [now rewrite <- app_assoc | auto].
    + unfold ret in E. injection E as <-.
      eexists. exists [CamIsConnected false].
      split; [reflexivity |]. cbn [self trace].
      split; [now rewrite !upd_camera_twice, <- Hc, upd_camera_same | auto].
  - unfold ret in E. injection E as <-.
    exists st, []. split; [reflexivity |].
    split; [now rewrite <- Hc, upd_camera_same |].
    split; [now rewrite app_nil_r | auto].
Qed.

(** X13. On a source that is not online, [load_camera_state] logs an error
    and stores nothing: it has asked the device for no more than whether it
    is connected and capturing, and every attribute of the source other
    than the device object is as before. *)
Theorem load_camera_state_offline (st : State) :
  fst (online st) = Ok false ->
  let st' := snd (load_camera_state st) in
  fst (load_camera_state st) = Ok tt /\
  upd_camera (camera (self st)) (self st') = self st /\
  exists checks,
    events_since st st' =
      (checks ++ [Log ERROR "Can't get state, not online"])%list /\
    (checks = [] \/ checks = [CamIsConnected false] \/
     checks = [CamIsConnected true; CamIsCapturing false]).
Proof.
  intros Hoff. cbv zeta.
  destruct (online_false _ Hoff) as (st1 & checks & Ho & Hs & Ht & Hk).
  unfold load_camera_state. rewrite (bind_run _ _ _ Ho). cbv beta.
  cbn [negb]. unfold logger, emit. cbn [fst snd self].
  split; [reflexivity |]. split; [assumption |].
  exists checks. split; [| assumption].
  apply events_since_app. cbn [trace]. rewrite Ht.
  now rewrite <- app_assoc.
Qed.

(** ** The exposure clamp, when the limits are obtained *)

Lemma failed_checks_app a b :
  failed_checks (a ++ b) = (failed_checks a ++ failed_checks b)%list.
Proof. apply flat_map_app. Qed.

Lemma online_returns : returns (online : Comp bool).
Proof. normal_return. Qed.

(** With a device object, [online] answers [false] after a check that
    failed. *)
Lemma online_false_checks (st : State) :
  has_camera st ->
  fst (online st) = Ok false ->
  exists st1 checks,
    online st = (Ok false, st1) /\
    trace st1 = (trace st ++ checks)%list /\
    (checks = [CamIsConnected false] \/
     checks = [CamIsConnected true; CamIsCapturing false]).
Proof.
  intros Hcam Hoff. destruct (online st) as [r st1] eqn:E. cbn [fst] in Hoff.
  subst r. unfold online in E. unfold bind at 1 in E.
  unfold get_self at 1 in E. cbn [fst snd] in E.
  destruct (camera (self st)) as [c |] eqn:Hc; [| now elim Hcam].
  destruct (cam_is_connected c) as [connected c1] eqn:H1.
  rewrite (bind_run _ _ _ (call_camera_run _ _ _ Hc H1)) in E.
  destruct connected.
  - destruct (cam_is_capturing c1) as [capturing c2] eqn:H2.
    match type of E with
    | call_camera _ _ ?s = _ =>
        rewrite (call_camera_run (c := c1) _ _ s eq_refl H2) in E
    end.
    cbn [self clock trace] in E. injection E as -> <-.
    eexists. exists [CamIsConnected true; CamIsCapturing false].
    split; [reflexivity |]. cbn [trace].
    split; [now rewrite <- app_assoc | now right].
  - unfold ret in E. injection E as <-.
    eexists. exists [CamIsConnected false].
    split; [reflexivity |]. cbn [trace]. split; [reflexivity | now left].
Qed.

(** What [load_camera_state] asks a device that is online. *)
Lemma load_camera_state_online (st : State) :
  fst (online st) = Ok true ->
  exists uc mode low high,
    events_since st (snd (load_camera_state st)) =
      [CamIsConnected true; CamIsCapturing true; CamGetCurrentUsecase uc;
       CamGetExposureMode mode; CamGetExposureLimits low high].
Proof.
  intros Hon.
  destruct (online_true _ Hon) as (c & c1 & c2 & Hc & Ho).
  destruct (load_camera_state st) as [r st'] eqn:E. cbn [snd].
  unfold load_camera_state in E. rewrite (bind_run _ _ _ Ho) in E.
  cbv beta in E. cbn [negb] in E.
  destruct (cam_get_current_usecase c2) as [uc c3] eqn:H3.
  camera_step H3 E. cbv beta in E. rewrite bind_modify in E.
  cbn [self clock trace] in E. unfold get_exposure_mode in E.
  destruct (cam_get_exposure_mode c3) as [mode c4] eqn:H4.
  camera_step H4 E. cbv beta in E. rewrite bind_modify in E.
  cbn [self clock trace] in E. unfold refresh_exposure_limits in E.
  destruct (cam_get_exposure_limits c4) as [[low high] c5] eqn:H5.
  camera_step H5 E.
  unfold bind, get_self, when, modify, ret in E.
  cbn [fst snd self clock trace current_exposure upd_camera
       upd_current_exposure_mode upd_selected_usecase] in E.
  exists uc, mode, low, high.
  destruct (high <? current_exposure (self st));
    cbn [fst snd self clock trace _ui_exposure upd_camera
         upd_current_exposure upd_current_exposure_mode
         upd_selected_usecase] in E;
    destruct (_ui_exposure (self st));
    cbn [fst snd self clock trace] in E;
    injection E as _ <-;
    apply events_since_app; cbn [trace];
    rewrite <- !app_assoc; reflexivity.
Qed.

(** [load_camera_state] obtains the exposure limits, once, exactly when no
    check of its [online] test fails. *)
Lemma load_camera_state_limits (st : State) :
  has_camera st ->
  let new := events_since st (snd (load_camera_state st)) in
  (failed_checks new = [] /\ exists high, reported_maxima new = [high]) \/
  (failed_checks new <> [] /\ reported_maxima new = []).
Proof.
  intros Hcam. cbv zeta.
  destruct (online_returns st Hcam) as [[|] Hon].
  - left. destruct (load_camera_state_online st Hon)
      as (uc & mode & low & high & ->).
    split; [reflexivity |]. now exists high.
  - right.
    destruct (online_false_checks st Hcam Hon) as (st1 & checks & Ho & Ht & Hk).
    unfold load_camera_state. rewrite (bind_run _ _ _ Ho). cbv beta.
    cbn [negb]. unfold logger, emit. cbn [snd].
    erewrite events_since_app
      by (cbn [trace]; rewrite Ht, <- app_assoc; reflexivity).
    destruct Hk as [-> | ->]; split; (discriminate || reflexivity).
Qed.

Lemma load_camera_state_refreshes : refreshes (load_camera_state : Comp unit).
Proof.
  intros st Hcam Hf.
  destruct (load_camera_state_limits st Hcam) as [[_ [high ->]] | [Hn _]];
    [discriminate | contradiction].
Qed.

(** A run obtains the limits if its first part does, or if its first part
    returns and the rest does. *)
Lemma refreshes_bind_l {A B} (m : Comp A) (k : A -> Comp B) :
  refreshes m ->
  (forall base, invariant (@extends C K base) m) ->
  (forall a base, invariant (@extends C K base) (k a)) ->
  refreshes (bind m k).
Proof.
  intros Hm Hxm Hxk st Hcam Hf.
  specialize (Hm st Hcam).
  destruct (Hxm _ st (extends_refl st)) as [e1 He1].
  unfold bind in Hf |- *.
  destruct (m st) as [[a | e] st1]; cbn [snd] in *.
  - destruct (Hxk a _ st1 (extends_refl st1)) as [e2 He2].
    assert (Hw : trace (snd (k a st1)) = (trace st ++ e1 ++ e2)%list)
      by (now rewrite He2, He1, <- app_assoc).
    rewrite (events_since_app _ _ _ Hw) in Hf |- *.
    rewrite (events_since_app _ _ _ He1) in Hm.
    rewrite failed_checks_app in Hf. apply app_eq_nil in Hf.
    rewrite reported_maxima_app. intros Hnil. apply app_eq_nil in Hnil.
    now apply Hm.
  - now apply Hm.
Qed.

Lemma refreshes_bind_r {A B} (m : Comp A) (k : A -> Comp B) :
  returns m ->
  invariant (@has_camera C K) m ->
  (forall base, invariant (@extends C K base) m) ->
  (forall a, refreshes (k a)) ->
  (forall a base, invariant (@extends C K base) (k a)) ->
  refreshes (bind m k).
Proof.
  intros Hr Hc Hxm Hk Hxk st Hcam Hf.
  destruct (Hr st Hcam) as [a Ha]. specialize (Hc st Hcam).
  destruct (Hxm _ st (extends_refl st)) as [e1 He1].
  unfold bind in Hf |- *.
  destruct (m st) as [r st1]; cbn [fst snd] in *. subst r.
  destruct (Hxk a _ st1 (extends_refl st1)) as [e2 He2].
  specialize (Hk a st1 Hc).
  assert (Hw : trace (snd (k a st1)) = (trace st ++ e1 ++ e2)%list)
    by (now rewrite He2, He1, <- app_assoc).
  rewrite (events_since_app _ _ _ Hw) in Hf |- *.
  rewrite (events_since_app _ _ _ He2) in Hk.
  rewrite failed_checks_app in Hf. apply app_eq_nil in Hf.
  rewrite reported_maxima_app. intros Hnil. apply app_eq_nil in Hnil.
  now apply Hk.
Qed.

Ltac skip_to_refresh :=
  repeat
    match goal with
    | |- refreshes (bind load_camera_state _) => fail 1
    | |- refreshes (bind _ _) =>
        apply refreshes_bind_r;
        [normal_return | keeps_camera | intro; extension | intro
        | intros; extension]
    end.

Lemma apply_settings_refreshes : refreshes (apply_settings : Comp bool).
Proof.
  unfold apply_settings. skip_to_refresh.
  apply refreshes_bind_l;
    [apply load_camera_state_refreshes | intro; extension
    | intros; extension].
Qed.

(** [set_usecase] obtains the limits, once, exactly when no check fails. *)
Lemma set_usecase_limits (uc : string) (st : State) :
  has_camera st ->
  let new := events_since st (snd (set_usecase uc st)) in
  (failed_checks new = [] /\ exists high, reported_maxima new = [high]) \/
  (failed_checks new <> [] /\ reported_maxima new = []).
Proof.
  intros Hcam. cbv zeta.
  destruct (camera (self st)) as [c |] eqn:Hc; [| now elim Hcam].
  destruct (cam_set_usecase uc c) as [[] c1] eqn:Hu.
  unfold set_usecase.
  rewrite (bind_run _ _ _ (call_camera_run _ _ _ Hc Hu)).
  set (st1 := mkSt _ _ _).
  assert (Hcam1 : has_camera st1)
    by (unfold has_camera; subst st1; cbn; congruence).
  assert (Hi : invariant (@extends C K (trace st1)) load_camera_state)
    by extension.
  destruct (Hi st1 (extends_refl st1)) as [new Hnew].
  pose proof (load_camera_state_limits st1 Hcam1) as H. cbv zeta in H.
  rewrite (events_since_app _ _ _ Hnew) in H.
  assert (Hw : trace (snd (load_camera_state st1)) =
               (trace st ++ CamSetUsecase uc :: new)%list)
    by (rewrite Hnew; subst st1; cbn [trace]; now rewrite <- app_assoc).
  rewrite (events_since_app _ _ _ Hw).
  exact H.
Qed.

(** C7. [load_camera_state], and with it [set_usecase] and [init_device],
    lower the remembered exposure to each maximum the device reports and
    change it in no other way: afterwards it is the minimum of its former
    value and the reported maxima, so it exceeds none of them.  On a source
    with a device object, [load_camera_state] and [set_usecase] obtain the
    maximum, once, exactly when no connection or capture check of theirs
    fails, and a successful [init_device] in which none fails obtains it at
    least once. *)
Theorem exposure_clamped_to_reported_maximum (st : State) (usecase : string) :
  camera (self st) <> None ->
  let maxima (st' : State) := reported_maxima (events_since st st') in
  let checked (st' : State) := failed_checks (events_since st st') = [] in
  let clamp (st' : State) :=
    current_exposure (self st') =
      fold_left Z.min (maxima st') (current_exposure (self st)) /\
    Forall (fun high => current_exposure (self st') <= high) (maxima st') in
  let once (st' : State) :=
    (checked st' -> exists high, maxima st' = [high]) /\
    (~ checked st' -> maxima st' = []) in
  (clamp (snd (load_camera_state st)) /\ once (snd (load_camera_state st))) /\
  (clamp (snd (set_usecase usecase st)) /\
   once (snd (set_usecase usecase st))) /\
  (clamp (snd (init_device st)) /\
   (fst (init_device st) = Ok true -> checked (snd (init_device st)) ->
    maxima (snd (init_device st)) <> [])).
Proof.
  intros Hcam. cbv zeta.
  pose proof (refresh_exposure_limits_clamps (trace st)
                (current_exposure (self st))) as Hrefresh.
  assert (Hload : invariant (@clamped C K (trace st) (current_exposure (self st)))
                            load_camera_state)
    by invariance clamp_leaf.
  assert (Huse : invariant (@clamped C K (trace st) (current_exposure (self st)))
                           (set_usecase usecase))
    by invariance clamp_leaf.
  assert (Hinit : invariant (@clamped C K (trace st) (current_exposure (self st)))
                            init_device)
    by invariance clamp_leaf.
  assert (Hclamp : forall st' : State,
            clamped (trace st) (current_exposure (self st)) st' ->
            current_exposure (self st') =
              fold_left Z.min (reported_maxima (events_since st st'))
                        (current_exposure (self st)) /\
            Forall (fun high => current_exposure (self st') <= high)
                   (reported_maxima (events_since st st'))).
  { intros st' H. split; [now apply clamped_since |].
    rewrite (clamped_since st st' H). apply fold_min_le. }
  assert (Honce : forall new : list Event,
            (failed_checks new = [] /\ exists high, reported_maxima new = [high])
            \/ (failed_checks new <> [] /\ reported_maxima new = []) ->
            (failed_checks new = [] -> exists high, reported_maxima new = [high])
            /\ (failed_checks new <> [] -> reported_maxima new = [])).
  { intros new [[Hf Hm] | [Hf Hm]]; split; intros H;
      solve [assumption | contradiction]. }
  split; [| split].
  - split; [apply Hclamp, Hload, clamped_refl |].
    apply Honce. exact (load_camera_state_limits st Hcam).
  - split; [apply Hclamp, Huse, clamped_refl |].
    apply Honce. exact (set_usecase_limits usecase st Hcam).
  - split; [apply Hclamp, Hinit, clamped_refl |].
    intros Hok Hchecked.
    destruct (camera (self st)) as [c |] eqn:Hc; [| congruence].
    pose proof (init_device_cases st c Hc) as H.
    destruct (cam_initialize c) as [ok c1]. cbv zeta in H.
    destruct ok; [| rewrite H in Hok; discriminate].
    destruct (cam_is_connected c1) as [connected c2]. cbv zeta in H.
    destruct connected; [| rewrite H in Hok; discriminate].
    set (st2 := mkSt _ _ _) in H.
    assert (Hcam2 : has_camera st2)
      by (unfold has_camera; subst st2; cbn; congruence).
    assert (Hx : invariant (@extends C K (trace st2)) apply_settings)
      by (unfold apply_settings; extension).
    destruct (Hx st2 (extends_refl st2)) as [new Hnew].
    pose proof (apply_settings_refreshes st2 Hcam2) as Hr.
    rewrite (events_since_app _ _ _ Hnew) in Hr.
    assert (Hw : trace (snd (apply_settings st2)) =
                 (trace st ++ [CamInitialize true; CamIsConnected true]
                  ++ new)%list)
      by (rewrite Hnew; subst st2; cbn [trace]; now rewrite <- app_assoc).
    rewrite H in Hchecked |- *.
    rewrite (events_since_app _ _ _ Hw) in Hchecked |- *.
    rewrite failed_checks_app in Hchecked. apply app_eq_nil in Hchecked.
    rewrite reported_maxima_app. cbn [reported_maxima flat_map pick_limits app].
    now apply Hr.
Qed.

(** ** [recent_events] *)

(** X14. [recent_events] publishes what the device delivered, with the
    offset the source holds after the call added to both timestamps, in
    [events] and in the two recent-frame attributes alike.  With automatic
    exposure the remembered exposure becomes the second exposure time of
    the depth frame; if the depth frame has fewer than two, the call raises
    IndexError after the frames were published and counted.  With manual
    exposure the remembered exposure is not touched.  A poll without a
    frame returns normally and publishes nothing. *)
Theorem recent_events_publishes_frames (events : Events) (recent : Recent)
    (st : State) (c : C) :
  camera (self st) = Some c ->
  let '(out, events', recent', st') := recent_events events recent st in
  match fst (cam_get_frame c) with
  | None => out = Returned /\ events' = events /\ recent' = recent
  | Some fp =>
      exists o,
        royale_timestamp_offset (self st') = Some o /\
        events' = mkEvents (Some (shift_frame o (ir fp)))
                           (Some (shift_frame o (depth fp))) /\
        recent' = mkRecent (Some (shift_frame o (ir fp)))
                           (Some (shift_frame o (depth fp))) /\
        frame_count (self st') = frame_count (self st) + 1 /\
        if _current_exposure_mode (self st) then
          match nth_error (exposure_times (depth fp)) 1 with
          | Some e => out = Returned /\ current_exposure (self st') = e
          | None =>
              out = RaisedIndexError /\
              current_exposure (self st') = current_exposure (self st)
          end
        else
          out = Returned /\
          current_exposure (self st') = current_exposure (self st)
  end.
Proof.
  intros Hc.
  destruct (recent_events events recent st) as [[[out ev] rc] st'] eqn:E.
  unfold recent_events in E.
  destruct (cam_get_frame c) as [[fp |] c'] eqn:Hf; cbn [fst].
  - pose proof (get_frames_success st c fp c' Hc Hf) as H.
    destruct (clock_time (clock st)) as [now k1]. cbv zeta in H.
    destruct (royale_timestamp_offset (self st)) as [o |] eqn:Ho.
    + rewrite H in E. fields.
      destruct (_current_exposure_mode (self st));
        [destruct (nth_error (exposure_times (depth fp)) 1) as [e |] eqn:He |];
        cbn [shift_pair ir depth shift_frame exposure_times] in E;
        rewrite ?He in E; injection E as <- <- <- <-; exists o; fields;
        rewrite ?Ho; repeat split; reflexivity.
    + destruct (clock_get_timestamp k1) as [pupil k2].
      destruct (clock_time k2) as [unix k3]. rewrite H in E. fields.
      destruct (_current_exposure_mode (self st));
        [destruct (nth_error (exposure_times (depth fp)) 1) as [e |] eqn:He |];
        cbn [shift_pair ir depth shift_frame exposure_times] in E;
        rewrite ?He in E; injection E as <- <- <- <-;
        exists (PrimFloat.sub pupil unix); fields;
        repeat split; reflexivity.
  - destruct (get_frames_timeout_tracker st c c' Hc Hf) as [H _].
    destruct (get_frames st) as [r st1]. cbn [fst] in H. subst r.
    injection E as <- <- <- <-. auto.
Qed.

(** ** The segments of a recording *)

Ltac frame3 :=
  intro;
  invariance ltac:(unfold stops in *; observe;
                   solve [assumption | congruence]).

Lemma recording_calls_app a b :
  recording_calls (a ++ b) = (recording_calls a ++ recording_calls b)%list.
Proof. apply flat_map_app. Qed.

Lemma stops_app a b : stops (a ++ b) = (stops a ++ stops b)%list.
Proof. apply flat_map_app. Qed.

(** Without a stop, the recording calls are the starts. *)
Lemma no_stop_calls l :
  stops l = [] -> recording_calls l = map Some (started_paths l).
Proof.
  induction l as [| e l IH]; [reflexivity |].
  change (stops (e :: l)) with (pick_stop e ++ stops l)%list.
  change (recording_calls (e :: l))
    with (pick_recording e ++ recording_calls l)%list.
  change (started_paths (e :: l))
    with (pick_started e ++ started_paths l)%list.
  destruct e; cbn; intros H; try discriminate; rewrite ?IH; auto.
Qed.

Lemma segments_alternate_app o a b :
  segments_alternate o (a ++ b) =
    match segments_alternate o a with
    | Some o' => segments_alternate o' b
    | None => None
    end.
Proof.
  revert o. induction a as [| [p |] a IH]; intros o; cbn; [reflexivity | |];
    destruct o; auto.
Qed.

(** Announcing the loss of the connection during a recording closes the
    segment. *)
Lemma announce_recording_calls (st : State) (n : Z) dir c :
  camera (self st) = Some c ->
  _recording_directory (self st) = Some dir ->
  record_pointcloud (self st) = true ->
  let m := when (n =? 0)
             (on_disconnection ;;
              notify_all (plain_notification "picoflexx.disconnected")) in
  recording_calls (trace (snd (m st))) =
    (recording_calls (trace st) ++ (if n =? 0 then [None] else []))%list.
Proof.
  intros Hc Hd Hr. cbv zeta. destruct (n =? 0); unfold when.
  - match goal with
    | |- context [snd (?m st)] => destruct (m st) as [r st'] eqn:E
    end.
    unfold on_disconnection, stop_pointcloud_recording, notify_all, emit,
      bind, get_self, call_camera in E.
    cbn [fst snd] in E. rewrite Hd, Hr in E. cbn [negb fst snd] in E.
    rewrite Hr in E. cbn [negb] in E. cbv beta in E. rewrite Hc in E. destruct (cam_stop_recording c) as [[] c1].
    cbn [fst snd self clock trace] in E. injection E as _ <-.
    cbn [snd trace]. rewrite !recording_calls_app. cbn.
    now rewrite app_nil_r.
  - unfold ret. cbn [snd]. now rewrite app_nil_r.
Qed.

(** What follows the announcement in [attempt_reconnect] stops no
    recording. *)
Lemma reconnect_tail (n : Z) :
  let tail : Comp unit :=
    modify (upd_reconnection_attempts (n + 1)) ;;
    ok <- init_device ;;
    if ok then
      s' <- get_self ;;
      logger INFO ("Reconnected after " ++ str (_reconnection_attempts s')
                   ++ " attempts!") ;;
      modify (upd_reconnection_attempts 0)
    else ret tt in
  preserves (fun st : State => stops (trace st)) tail /\
  forall base, invariant (@extends C K base) tail.
Proof. cbv zeta. split; [frame3 | intro; extension]. Qed.

Lemma attempt_reconnect_after_announce (st : State) :
  has_camera st ->
  let n := _reconnection_attempts (self st) in
  let st0 := mkSt (self st) (clock st)
                  (trace st ++ [Log DEBUG "attempt_reconnect()"]) in
  let st1 := snd (when (n =? 0)
                    (on_disconnection ;;
                     notify_all (plain_notification "picoflexx.disconnected"))
                    st0) in
  stops (trace (snd (attempt_reconnect st))) = stops (trace st1) /\
  extends (trace st1) (snd (attempt_reconnect st)).
Proof.
  intros Hcam. cbv zeta.
  destruct (attempt_reconnect st) as [r st'] eqn:E. cbn [snd].
  unfold attempt_reconnect, logger in E. unfold bind at 1 in E.
  cbn [emit] in E. unfold bind at 1 in E. cbn [get_self self] in E.
  destruct (camera (self st)) as [c |] eqn:Hc; [| now elim Hcam].
  set (st0 := mkSt (self st) (clock st) _) in *.
  assert (Hcam0 : has_camera st0)
    by (unfold has_camera; subst st0; cbn; congruence).
  destruct (announce_run st0 (_reconnection_attempts (self st)) Hcam0)
    as (Hr1 & _ & _).
  cbv zeta in Hr1. rewrite (bind_ok _ _ st0 tt Hr1) in E.
  set (st1 := snd (when _ _ st0)) in *.
  apply (f_equal snd) in E. cbn [snd] in E. rewrite <- E.
  destruct (reconnect_tail (_reconnection_attempts (self st))) as [Ht Hx].
  split.
  - exact (Ht _ st1 eq_refl).
  - exact (Hx _ st1 (extends_refl st1)).
Qed.

(** One reconnection attempt during a recording: the segment is closed if
    this is the first attempt since the last success, and the next segment
    is opened if the attempt succeeds. *)
Lemma attempt_reconnect_recording_calls (st : State) dir :
  has_camera st ->
  _recording_directory (self st) = Some dir ->
  record_pointcloud (self st) = true ->
  let n := _reconnection_attempts (self st) in
  let st' := snd (attempt_reconnect st) in
  exists (b : bool) (path : string),
    _recording_directory (self st') = Some dir /\
    record_pointcloud (self st') = true /\
    _reconnection_attempts (self st') = (if b then 0 else n + 1) /\
    recording_calls (trace st') =
      (recording_calls (trace st) ++ (if n =? 0 then [None] else [])
       ++ (if b then [Some path] else []))%list.
Proof.
  intros Hcam Hd Hr. cbv zeta.
  destruct (attempt_reconnect_yields _ st Hcam eq_refl)
    as ([] & _ & ok & b & _ & Hs).
  destruct (attempt_reconnect_after_announce st Hcam) as [Hst Hext].
  cbv zeta in Hst, Hext.
  destruct (camera (self st)) as [c |] eqn:Hc; [| now elim Hcam].
  set (st0 := mkSt (self st) (clock st) _) in *.
  pose proof (announce_recording_calls st0 (_reconnection_attempts (self st))
                dir c Hc Hd Hr) as Hrc1.
  assert (Hcam0 : has_camera st0)
    by (unfold has_camera; subst st0; cbn; congruence).
  destruct (announce_run st0 (_reconnection_attempts (self st)) Hcam0)
    as (_ & _ & Hs1).
  cbv zeta in Hrc1, Hs1.
  set (st1 := snd (when _ _ st0)) in *.
  set (st' := snd (attempt_reconnect st)) in *.
  assert (Hp1 : started_paths (trace st1) = started_paths (trace st)).
  { unfold session in Hs1. injection Hs1 as _ _ Hp _ _ _ _. rewrite Hp.
    subst st0. cbn [trace]. rewrite started_paths_app. cbn.
    now rewrite app_nil_r. }
  assert (Hrc0 : recording_calls (trace st0) = recording_calls (trace st)).
  { subst st0. cbn [trace]. rewrite recording_calls_app. cbn.
    now rewrite app_nil_r. }
  rewrite Hrc0 in Hrc1. clear Hs1 Hrc0 Hcam0. clearbody st1 st'. clear st0.
  destruct Hext as [new Hnew].
  rewrite Hnew, stops_app in Hst.
  rewrite <- (app_nil_r (stops (trace st1))) in Hst at 2.
  apply app_inv_head in Hst.
  unfold session in Hs. rewrite Hd, Hr in Hs.
  unfold attempted_session, announced_session, initialized_session,
    reconnected_session, settled_session in Hs.
  exists b, (segment_path dir (_recording_reconnection_count (self st) + 1)).
  destruct b; injection Hs as _ _ Hp _ Hd' Hr' Hn';
    rewrite Hnew, started_paths_app, Hp1 in Hp;
    [| rewrite <- (app_nil_r (started_paths (trace st))) in Hp at 2];
    apply app_inv_head in Hp;
    (split; [exact Hd' |]); (split; [exact Hr' |]); (split; [exact Hn' |]);
    rewrite Hnew, recording_calls_app, Hrc1, (no_stop_calls new Hst), Hp,
      <- app_assoc; reflexivity.
Qed.

(** A poll during a recording keeps the segments in step with the attempt
    counter: a segment is open exactly while the counter is zero. *)
Lemma get_frames_segments calls0 open0 dir :
  invariant (fun st : State =>
               has_camera st /\
               _recording_directory (self st) = Some dir /\
               record_pointcloud (self st) = true /\
               0 <= _reconnection_attempts (self st) /\
               exists new,
                 recording_calls (trace st) = (calls0 ++ new)%list /\
                 segments_alternate open0 new =
                   Some (_reconnection_attempts (self st) =? 0))
            get_frames.
Proof.
  intros st (Hcam & Hd & Hr & Hn & new & Hnew & Halt).
  split; [now apply get_frames_has_camera |].
  destruct (camera (self st)) as [c |] eqn:Hc; [| now elim Hcam].
  destruct (cam_get_frame c) as [[fp |] c'] eqn:Hf.
  - pose proof (get_frames_success st c fp c' Hc Hf) as H.
    destruct (clock_time (clock st)) as [now k1]. cbv zeta in H.
    destruct (royale_timestamp_offset (self st)).
    + rewrite H. cbn [snd]. fields. rewrite recording_calls_app. cbn.
      rewrite app_nil_r. eauto 10.
    + destruct (clock_get_timestamp k1) as [pupil k2].
      destruct (clock_time k2) as [unix k3]. rewrite H. cbn [snd]. fields.
      rewrite recording_calls_app. cbn. rewrite app_nil_r. eauto 10.
  - rewrite (get_frames_timeout st c c' Hc Hf).
    assert (Hquiet : forall k,
      recording_calls (trace (missed_once c' st k)) =
        recording_calls (trace st)).
    { intros k. unfold missed_once. cbn [trace].
      rewrite recording_calls_app. cbn. now rewrite app_nil_r. }
    assert (Hfire : forall k,
      let st' := snd ((when true (attempt_reconnect ;; reset_reconnect_timers)
                       ;; ret (@None FramePair)) (missed_once c' st k)) in
      _recording_directory (self st') = Some dir /\
      record_pointcloud (self st') = true /\
      0 <= _reconnection_attempts (self st') /\
      exists new',
        recording_calls (trace st') = (calls0 ++ new')%list /\
        segments_alternate open0 new' =
          Some (_reconnection_attempts (self st') =? 0)).
    { intros k. cbv zeta.
      rewrite trigger_run by apply missed_once_has_camera.
      cbv zeta. destruct (clock_time (clock (missed_once c' st k))) as [t k'].
      cbn [snd]. fields.
      destruct (attempt_reconnect_recording_calls (missed_once c' st k) dir
                  (missed_once_has_camera c' st k) Hd Hr)
        as (b & path & Hd' & Hr' & Hn' & Hrc).
      cbv zeta in Hd', Hr', Hn', Hrc.
      change (_reconnection_attempts (self (missed_once c' st k)))
        with (_reconnection_attempts (self st)) in Hn', Hrc.
      rewrite Hquiet, Hnew, <- app_assoc in Hrc.
      split; [exact Hd' |]. split; [exact Hr' |].
      split; [rewrite Hn'; destruct b; lia |].
      eexists. split; [exact Hrc |].
      rewrite !segments_alternate_app, Halt, Hn'.
      destruct (_reconnection_attempts (self st) =? 0) eqn:Hz; destruct b;
        cbn; try reflexivity; f_equal; symmetry; apply Z.eqb_neq; lia. }
    destruct (45 <? _missed_frame_count (self st) + 1); [apply Hfire |].
    destruct (clock_time (clock st)) as [now k].
    destruct (PrimFloat.ltb 5 _); [apply Hfire |].
    unfold when, bind, ret. cbn [snd]. rewrite Hquiet.
    unfold missed_once. fields. eauto 10.
Qed.

(** X15. During a recording with the record-pointcloud option on, over any
    number of polls, the calls of [start_recording] and [stop_recording]
    alternate: the segment is closed by the first reconnection attempt after
    a success, before the device is initialized again, no second segment is
    opened while one is open and none is closed twice; a segment is open
    exactly while no reconnection is under way. *)
Theorem recording_segments_alternate (st : State) (dir : string) (n : nat) :
  camera (self st) <> None ->
  _recording_directory (self st) = Some dir ->
  record_pointcloud (self st) = true ->
  0 <= _reconnection_attempts (self st) ->
  let st' := snd (ticks n st) in
  segments_alternate (_reconnection_attempts (self st) =? 0)
                     (recording_calls (events_since st st')) =
    Some (_reconnection_attempts (self st') =? 0).
Proof.
  intros Hcam Hd Hr Hn. cbv zeta.
  destruct (ticks_invariant _ n
              (get_frames_segments (recording_calls (trace st))
                 (_reconnection_attempts (self st) =? 0) dir) st)
    as (_ & _ & _ & _ & new & Hnew & Halt).
  { repeat (split; [assumption |]). exists []. now rewrite app_nil_r. }
  destruct (ticks_invariant _ n (get_frames_extends (trace st)) st
              (extends_refl st)) as [ev Hev].
  rewrite (events_since_app st _ ev Hev).
  rewrite Hev, recording_calls_app in Hnew.
  apply app_inv_head in Hnew. now rewrite Hnew.
Qed.

(** ** Frame rates *)

Context {Rates : RoyaleFrameRates C}.

Lemma invariant_call_rate {A} (I : State -> Prop) (method : C -> A * C)
    call calls :
  (forall st c', I st ->
     I (mkSt (upd_camera (Some c') (self st)) (clock st) (trace st))) ->
  invariant I (call_rate method call calls).
Proof.
  intros H st HI. unfold call_rate.
  destruct (camera (self st)) as [c |]; [| exact HI].
  destruct (method c). cbn [snd]. apply H, HI.
Qed.

Lemma invariant_frame_rates (I : State -> Prop) calls :
  invariant I online ->
  (forall st c', I st ->
     I (mkSt (upd_camera (Some c') (self st)) (clock st) (trace st))) ->
  invariant I (frame_rates calls).
Proof.
  intros Ho Hc. unfold frame_rates. apply invariant_bind; [exact Ho |].
  intros [|]; [| apply invariant_ret].
  apply invariant_bind; [now apply invariant_call_rate |].
  intro. apply invariant_ret.
Qed.

Lemma frame_rates_has_camera calls :
  invariant (@has_camera C K) (frame_rates calls).
Proof.
  apply invariant_frame_rates; [keeps_camera |].
  unfold has_camera. intros. cbn. congruence.
Qed.

Lemma frame_rates_extends base calls :
  invariant (@extends C K base) (frame_rates calls).
Proof.
  apply invariant_frame_rates; [extension |].
  intros st c' [new H]. now exists new.
Qed.

Lemma frame_rates_warnings calls :
  preserves (fun st : State => warnings (trace st)) (frame_rates calls).
Proof.
  intro. apply invariant_frame_rates; [| intros; assumption].
  invariance ltac:(unfold warnings in *; observe;
                   solve [assumption | congruence]).
Qed.

Lemma frame_rates_first calls (st : State) rs calls1 :
  fst (frame_rates calls st) = Ok (rs, calls1) -> fst rs = 1.
Proof.
  unfold frame_rates, bind, call_rate, ret.
  destruct (online st) as [[[|] | e] st1]; cbn [fst snd];
    try discriminate.
  - destruct (camera (self st1)) as [c |]; [| discriminate].
    destruct (cam_get_max_frame_rate c). cbn. now intros [= <- _].
  - now intros [= <- _].
Qed.

Lemma warnings_app a b : warnings (a ++ b) = (warnings a ++ warnings b)%list.
Proof. apply flat_map_app. Qed.

(** X16. Setting the frame rate reads the pair of available rates twice,
    once to find the position of the rate closest to the wanted one (the
    first position on a tie) and once to take the rate at that position,
    and passes that rate to the device; it logs one warning if the rate
    differs from the wanted one, none otherwise.  If the two readings
    agree, no available rate is closer to the wanted one than the rate
    set. *)
Theorem frame_rate_setter_selects_closest (st : State) (new_rate : Z)
    (frame_size : string) (calls calls1 calls2 : list RateCall)
    (rs1 rs2 : Z * Z) :
  camera (self st) <> None ->
  fst (frame_rates calls st) = Ok (rs1, calls1) ->
  fst (frame_rates calls1 (snd (frame_rates calls st))) = Ok (rs2, calls2) ->
  let rate := if Z.abs (1 - new_rate) <=? Z.abs (snd rs1 - new_rate)
              then 1 else snd rs2 in
  let st' := snd (frame_rate_setter new_rate frame_size calls st) in
  fst (frame_rate_setter new_rate frame_size calls st) =
    Ok (tt, (calls2 ++ [SetFrameRate rate])%list) /\
  warnings (events_since st st') =
    (if rate =? new_rate then []
     else [str new_rate ++ "fps capture mode not available at ("
           ++ frame_size ++ ") on 'PicoFlexx Source'. Selected "
           ++ str rate ++ "fps. "]) /\
  (snd rs1 = snd rs2 ->
   Z.abs (rate - new_rate) <= Z.abs (1 - new_rate) /\
   Z.abs (rate - new_rate) <= Z.abs (snd rs2 - new_rate)).
Proof.
  intros Hc H1 H2. cbv zeta.
  pose proof (frame_rates_first _ _ _ _ H1) as F1.
  pose proof (frame_rates_first _ _ _ _ H2) as F2.
  pose proof (frame_rates_has_camera calls st Hc) as C1.
  pose proof (frame_rates_has_camera calls1 _ C1) as C2.
  pose proof (frame_rates_extends (trace st) calls st
                (ex_intro _ [] (eq_sym (app_nil_r _)))) as E1.
  pose proof (frame_rates_extends (trace st) calls1 _ E1) as E2.
  pose proof (frame_rates_warnings calls _ st eq_refl) as W1.
  pose proof (frame_rates_warnings calls1 _ _ W1) as W2.
  cbv beta in W1, W2.
  set (st1 := snd (frame_rates calls st)) in *.
  set (st2 := snd (frame_rates calls1 st1)) in *.
  assert (Hrate :
    match best_rate_idx (Z.abs (fst rs1 - new_rate))
                        (Z.abs (snd rs1 - new_rate)) with
    | O => fst rs2
    | S _ => snd rs2
    end = if Z.abs (1 - new_rate) <=? Z.abs (snd rs1 - new_rate)
          then 1 else snd rs2).
  { unfold best_rate_idx. rewrite F1, F2.
    destruct (Z.abs (1 - new_rate) <=? Z.abs (snd rs1 - new_rate)) eqn:Hle;
      [apply Z.leb_le in Hle | apply Z.leb_gt in Hle].
    - now rewrite Z.min_l, Z.eqb_refl by assumption.
    - rewrite Z.min_r by lia.
      destruct (Z.abs (1 - new_rate) =? Z.abs (snd rs1 - new_rate)) eqn:He;
        [apply Z.eqb_eq in He; lia | reflexivity]. }
  set (rate := if Z.abs (1 - new_rate) <=? Z.abs (snd rs1 - new_rate)
               then 1 else snd rs2) in *.
  destruct (frame_rate_setter new_rate frame_size calls st) as [r st'] eqn:E.
  cbn [fst snd]. unfold frame_rate_setter in E.
  rewrite (bind_ok _ _ _ _ H1) in E. cbv beta zeta in E.
  fold st1 in E. cbn [fst snd] in E.
  rewrite (bind_ok _ _ _ _ H2) in E. cbv beta zeta in E.
  fold st2 in E. cbn [fst snd] in E. rewrite Hrate in E.
  destruct E2 as [new Hnew]. fold st2 in Hnew.
  assert (Wnew : warnings new = []).
  { rewrite Hnew, warnings_app in W2.
    rewrite <- (app_nil_r (warnings (trace st))) in W2 at 2.
    now apply app_inv_head in W2. }
  unfold has_camera in C2. fold st2 in C2.
  destruct (camera (self st2)) as [c2 |] eqn:Hc2; [| congruence].
  unfold when, logger, emit, bind, call_rate, ret in E.
  split; [| split].
  - destruct (rate =? new_rate); cbn [negb fst snd self] in E;
      rewrite Hc2 in E; destruct (cam_set_frame_rate rate c2) as [[] c3];
      now injection E as <- _.
  - destruct (rate =? new_rate); cbn [negb fst snd self trace] in E;
      rewrite Hc2 in E; destruct (cam_set_frame_rate rate c2) as [[] c3];
      injection E as _ <-;
      [ rewrite (events_since_app st _ new) by (cbn [trace]; exact Hnew)
      | rewrite (events_since_app st _ (new ++ [Log WARNING _]))
          by (cbn [trace]; rewrite Hnew; now rewrite <- app_assoc) ];
      rewrite ?warnings_app, Wnew; reflexivity.
  - intros Hs. subst rate.
    destruct (Z.abs (1 - new_rate) <=? Z.abs (snd rs1 - new_rate)) eqn:Hle;
      [apply Z.leb_le in Hle | apply Z.leb_gt in Hle]; lia.
Qed.

(** X17. A source without a device object answers [(1, 30)] for the
    available rates and [30] for the frame rate, without raising and
    without a trace.  Setting the frame rate on it raises AttributeError,
    after the warning about the selected rate has been logged. *)
Theorem frame_rate_without_device (st : State) (new_rate : Z)
    (frame_size : string) (calls : list RateCall) :
  camera (self st) = None ->
  let rate := if Z.abs (1 - new_rate) <=? Z.abs (30 - new_rate)
              then 1 else 30 in
  let st' := snd (frame_rate_setter new_rate frame_size calls st) in
  frame_rates calls st = (Ok ((1, 30), calls), st) /\
  frame_rate calls st = (Ok (30, calls), st) /\
  fst (frame_rate_setter new_rate frame_size calls st) =
    Raise AttributeError /\
  events_since st st' =
    (if rate =? new_rate then []
     else [Log WARNING
             (str new_rate ++ "fps capture mode not available at ("
              ++ frame_size ++ ") on 'PicoFlexx Source'. Selected "
              ++ str rate ++ "fps. ")]).
Proof.
  intros Hc. cbv zeta.
  assert (Ho : online st = (Ok false, st)).
  { unfold online, bind, get_self, ret. cbn [fst snd]. now rewrite Hc. }
  assert (Hr : forall l, frame_rates l st = (Ok ((1, 30), l), st)).
  { intros l. unfold frame_rates. now rewrite (bind_run _ _ _ Ho). }
  split; [apply Hr |]. split.
  { unfold frame_rate. now rewrite (bind_run _ _ _ Ho). }
  destruct (frame_rate_setter new_rate frame_size calls st) as [r st'] eqn:E.
  cbn [fst snd]. unfold frame_rate_setter in E.
  rewrite (bind_run _ _ _ (Hr calls)) in E. cbv beta zeta in E.
  cbn [fst snd] in E.
  rewrite (bind_run _ _ _ (Hr calls)) in E. cbv beta zeta in E.
  cbn [fst snd] in E.
  assert (Hrate :
    match best_rate_idx (Z.abs (1 - new_rate)) (Z.abs (30 - new_rate)) with
    | O => 1
    | S _ => 30
    end = if Z.abs (1 - new_rate) <=? Z.abs (30 - new_rate) then 1 else 30).
  { unfold best_rate_idx.
    destruct (Z.abs (1 - new_rate) <=? Z.abs (30 - new_rate)) eqn:Hle;
      [apply Z.leb_le in Hle | apply Z.leb_gt in Hle].
    - now rewrite Z.min_l, Z.eqb_refl by assumption.
    - rewrite Z.min_r by lia.
      destruct (Z.abs (1 - new_rate) =? Z.abs (30 - new_rate)) eqn:He;
        [apply Z.eqb_eq in He; lia | reflexivity]. }
  rewrite Hrate in E.
  set (rate := if Z.abs (1 - new_rate) <=? Z.abs (30 - new_rate)
               then 1 else 30) in *.
  unfold when, logger, emit, bind, call_rate, ret in E.
  destruct (rate =? new_rate); cbn [negb fst snd self trace] in E;
    rewrite Hc in E; injection E as <- <-; (split; [reflexivity |]).
  - apply events_since_app. cbn [trace]. now rewrite app_nil_r.
  - now apply events_since_app.
Qed.

End Properties.

(** * The scenarios, run on the scripted device *)

(** Two floats that [eqb] tells apart are different, unless it is a NaN
    compared with itself. *)
Lemma float_neq (x y : float) :
  PrimFloat.eqb x y = false -> PrimFloat.eqb y y = true -> x <> y.
Proof. intros H Hy E. subst y. congruence. Qed.

(** C1, counterexample: a source that stored the offset 900.0 in an earlier
    epoch reconnects; [init_device] succeeds and the offset is still stored,
    and the first frame of the new epoch, stamped 300.0 while Pupil time is
    2000.0 and [time()] reads 200.0, is handed out stamped 1200.0: shifted
    by the old offset, not by a recomputed 1800.0. *)
Lemma init_device_keeps_offset_counterexample :
  fst (init_device second_epoch) = Ok true /\
  royale_timestamp_offset (self (snd (init_device second_epoch))) <> None /\
  fst (get_frames (snd (init_device second_epoch))) =
    Ok (Some (frame_at 1200)) /\
  frame_at 1200 <> shift_pair (PrimFloat.sub 2000 200) (frame_at 300).
Proof.
  split; [vm_compute; reflexivity |].
  split; [vm_compute; discriminate |].
  split; [vm_compute; reflexivity |].
  intros E. apply (f_equal (fun p => timestamp (ir p))) in E.
  revert E. apply float_neq; vm_compute; reflexivity.
Qed.

(** C1 (amended), at an instance: the offset stored before the reconnection
    is the offset stored after two more polls. *)
Lemma timestamp_offset_fixed_once_witness :
  royale_timestamp_offset (self (snd (init_device second_epoch))) =
    Some 900%float /\
  royale_timestamp_offset
    (self (snd (ticks 2 (snd (init_device second_epoch))))) = Some 900%float.
Proof.
  destruct (@timestamp_offset_fixed_once Script Readings ScriptedCamera ScriptedClock)
    as (_ & Hinit & Hticks).
  assert (H : royale_timestamp_offset (self (snd (init_device second_epoch)))
              = Some 900%float)
    by (rewrite Hinit; reflexivity).
  split; [exact H |].
  destruct (Hticks (snd (init_device second_epoch)) 2%nat)
    as (o & _ & Hset & _).
  exact (proj2 (Hset _ H)).
Defined.

(** C2, counterexample: the first frame is stamped 100.0 and Pupil time is
    1000.0, but [time()] reads 100.0078125 when the offset is computed.  The
    offset stored is 899.9921875, not 1000.0 - 100.0, and the later frame
    stamped 101.0 is handed out stamped 1000.9921875, not 1001.0. *)
Lemma offset_not_from_frame_timestamp_counterexample :
  let st1 := snd (get_frames (calibrating 100.0078125)) in
  royale_timestamp_offset (self st1) = Some 899.9921875%float /\
  899.9921875%float <> PrimFloat.sub 1000 (timestamp (ir (frame_at 100))) /\
  fst (get_frames st1) = Ok (Some (frame_at 1000.9921875)) /\
  frame_at 1000.9921875 <> frame_at 1001.
Proof.
  cbv zeta.
  split; [vm_compute; reflexivity |].
  split; [apply float_neq; vm_compute; reflexivity |].
  split; [vm_compute; reflexivity |].
  intros E. apply (f_equal (fun p => timestamp (ir p))) in E.
  revert E. apply float_neq; vm_compute; reflexivity.
Qed.

(** C2 (amended), at the scenario: Pupil time 1000.0 and [time()] 100.0 at
    the first frame give the offset 900.0, and the later frame stamped 101.0
    is handed out stamped 1001.0. *)
Lemma get_frames_adds_clock_offset_witness :
  royale_timestamp_offset (self (calibrating 100)) = None /\
  royale_timestamp_offset (self (snd (get_frames (calibrating 100)))) =
    Some 900%float /\
  fst (get_frames (snd (get_frames (calibrating 100)))) =
    Ok (Some (frame_at 1001)).
Proof.
  split; [reflexivity |].
  assert (H2 : camera (self (snd (get_frames (calibrating 100)))) =
               Some (streaming [Some (frame_at 101)]))
    by (vm_compute; reflexivity).
  assert (H3 : royale_timestamp_offset
                 (self (snd (get_frames (calibrating 100)))) =
               royale_timestamp_offset
                 (self (snd (get_frames (calibrating 100)))))
    by reflexivity.
  destruct (@get_frames_adds_clock_offset Script Readings ScriptedCamera
              ScriptedClock
              (calibrating 100) (snd (get_frames (calibrating 100)))
              (streaming [Some (frame_at 100); Some (frame_at 101)])
              (frame_at 100)
              (streaming [Some (frame_at 101)])
              (streaming [Some (frame_at 101)])
              (frame_at 101)
              (streaming [])
              eq_refl eq_refl eq_refl H2 eq_refl H3)
    as (Hoff & _ & Hlater).
  split; [exact Hoff | exact Hlater].
Defined.

(** C3, at an instance: with 45 polls missed already, the next timeout
    reconnects. *)
Lemma get_frames_reconnect_trigger_witness :
  camera (self nearly_due) = Some unplugged /\
  attempts (events_since nearly_due (snd (get_frames nearly_due))) = 1%nat.
Proof.
  split; [reflexivity |].
  destruct (@get_frames_reconnect_trigger Script Readings ScriptedCamera ScriptedClock
              nearly_due unplugged eq_refl) as ((_ & Hfire) & _).
  apply Hfire. split; [reflexivity |]. left. reflexivity.
Defined.

(** C4, at an instance: a recording into [/rec] that lives through 100
    polls without a frame, in which the device is found again twice. *)
Lemma segment_numbering_witness :
  camera (self recording_through_drops) = Some (replugged 5 [] []) /\
  menu (self recording_through_drops) = true /\
  record_pointcloud (self recording_through_drops) = true /\
  started_paths
    (events_since recording_through_drops
       (snd (ticks 100
               (snd (on_notify (recording_started "/rec")
                               recording_through_drops))))) =
    ["/rec/pointcloud.rrf"; "/rec/pointcloud_1.rrf"; "/rec/pointcloud_2.rrf"].
Proof.
  repeat (split; [reflexivity |]).
  destruct (@segment_numbering Script Readings ScriptedCamera ScriptedClock
              recording_through_drops "/rec" 100%nat (replugged 5 [] [])
              eq_refl eq_refl eq_refl) as (_ & Hpaths & _).
  rewrite Hpaths. vm_compute. reflexivity.
Defined.

(** C5, at the scenario: 46 timeouts 10 ms apart. *)
Lemma reconnect_resets_tracker_witness :
  stalled 46 stalling = true /\
  attempts (events_since stalling (snd (ticks 45 stalling))) = 0%nat /\
  attempts (events_since stalling (snd (ticks 46 stalling))) = 1%nat /\
  _missed_frame_count (self (snd (ticks 46 stalling))) = 0 /\
  _missed_frame_count (self (snd (get_frames nearly_due))) = 0.
Proof.
  assert (Hstall : stalled 46 stalling = true) by (vm_compute; reflexivity).
  split; [exact Hstall |].
  destruct (@reconnect_resets_tracker Script Readings ScriptedCamera ScriptedClock
              nearly_due stalling unplugged unplugged
              eq_refl eq_refl eq_refl eq_refl Hstall)
    as ((Hzero & _) & H45 & H46 & Hcount).
  repeat split; assumption.
Defined.

(** C6, at an instance: the first attempt on an unplugged device. *)
Lemma attempt_reconnect_protocol_witness :
  camera (self without_device) = None /\
  camera (self nearly_due) <> None /\
  snd (attempt_reconnect without_device) =
    mkSt (self without_device) (clock without_device)
         [Log DEBUG "attempt_reconnect()";
          Log WARNING "Camera wasn't connected at all?"] /\
  fst (attempt_reconnect nearly_due) = Ok tt.
Proof.
  assert (Hcam : camera (self nearly_due) <> None) by discriminate.
  split; [reflexivity |]. split; [exact Hcam |].
  destruct (@attempt_reconnect_protocol Script Readings ScriptedCamera
              without_device nearly_due eq_refl Hcam)
    as ((_ & Hself & Hclock & Hnew) & Hok & _).
  split; [| exact Hok].
  unfold events_since in Hnew. cbn [trace without_device world] in Hnew.
  cbn [List.length skipn] in Hnew.
  destruct (snd (attempt_reconnect without_device)) as [s k tr].
  cbn [self clock trace] in *. now subst.
Defined.

(** C7, at an instance: the source remembers an exposure of 2000 and the
    device, which is up and capturing, reports the limits 100 and 1500. *)
Lemma exposure_clamped_to_reported_maximum_witness :
  camera (self capturing) <> None /\
  reported_maxima
    (events_since capturing (snd (load_camera_state capturing))) = [1500] /\
  current_exposure (self capturing) = 2000 /\
  current_exposure (self (snd (load_camera_state capturing))) = 1500 /\
  reported_maxima
    (events_since capturing (snd (init_device capturing))) <> [].
Proof.
  assert (H1 : camera (self capturing) <> None)
    by (vm_compute; discriminate).
  destruct (exposure_clamped_to_reported_maximum capturing "MODE_9_5FPS_2000"
              H1) as [[[Hc _] _] [_ [_ Hi]]].
  assert (Hm : reported_maxima
                 (events_since capturing (snd (load_camera_state capturing)))
               = [1500]) by (vm_compute; reflexivity).
  split; [exact H1 |]. split; [exact Hm |]. split; [reflexivity |].
  split; [rewrite Hc, Hm; reflexivity |].
  apply Hi; vm_compute; reflexivity.
Defined.

(** C7, the other case: on a camera that is connected but not capturing
    [init_device] succeeds without obtaining the limits, and the remembered
    exposure stays at 2000 although the device would report 1500. *)
Lemma init_device_without_limits :
  fst (init_device connected_not_capturing) = Ok true /\
  failed_checks (events_since connected_not_capturing
                   (snd (init_device connected_not_capturing))) =
    [CamIsCapturing false] /\
  reported_maxima (events_since connected_not_capturing
                     (snd (init_device connected_not_capturing))) = [] /\
  current_exposure (self (snd (init_device connected_not_capturing))) = 2000 /\
  option_map (fun c => snd (fst (cam_get_exposure_limits c)))
             (camera (self (snd (init_device connected_not_capturing)))) =
    Some 1500.
Proof. repeat split; vm_compute; reflexivity. Qed.

(** C8, counterexample: the option is on and no recording is active; the
    stop operation calls [camera.stop_recording()] all the same. *)
Lemma stop_recording_counterexample :
  _recording_directory (self idle_with_option) = None /\
  camera_calls (trace (snd (stop_pointcloud_recording idle_with_option))) =
    [CamStopRecording] /\
  camera_calls (trace (snd (on_notify recording_stopped idle_with_option))) =
    [CamStopRecording].
Proof. repeat split; vm_compute; reflexivity. Qed.

(** C8 (amended), at an instance: the option off and on, no recording
    active, the device unplugged. *)
Lemma stop_recording_noop_when_option_off_witness :
  record_pointcloud (self idle) = false /\
  _recording_directory (self idle) = None /\
  record_pointcloud (self idle_with_option) = true /\
  camera (self idle_with_option) = Some unplugged /\
  menu (self idle_with_option) = true /\
  stop_pointcloud_recording idle = (Ok tt, idle) /\
  on_notify recording_stopped idle = (Ok tt, idle) /\
  events_since idle_with_option
    (snd (on_notify recording_stopped idle_with_option)) =
    [CamStopRecording].
Proof.
  do 5 (split; [reflexivity |]).
  destruct (stop_recording_noop_when_option_off idle idle_with_option
              unplugged eq_refl eq_refl eq_refl eq_refl eq_refl)
    as [(H1 & H2 & _) (_ & _ & _ & H3)].
  split; [exact H1 |]. split; [| exact H3].
  rewrite H2. vm_compute. reflexivity.
Defined.

(** C9, counterexample: a source without a menu takes the
    "recording.started" notification and writes nothing, although the file
    could be opened; and on a source with a menu nothing is written when it
    cannot be opened. *)
Lemma recording_started_counterexample :
  royale_timestamp_offset (self never_online) = Some 900%float /\
  on_notify (recording_started "/rec") never_online = (Ok tt, never_online) /\
  Disk.on_notify (fun _ => true) (recording_started "/rec") never_online =
    (Ok tt, never_online) /\
  menu (self idle) = true /\
  fst (Disk.on_notify (fun _ => false) (recording_started "/rec") idle) =
    Raise OSError /\
  events_since idle
    (snd (Disk.on_notify (fun _ => false) (recording_started "/rec") idle)) =
    [].
Proof. repeat split; vm_compute; reflexivity. Qed.

(** C9 (amended), at an instance: the recording directory [/rec] exists and
    no other does; no frame has arrived yet, so the offset written is the
    unset one. *)
Lemma recording_started_writes_offset_witness :
  menu (self idle) = true /\
  menu (self never_online) = false /\
  events_since idle
    (snd (Disk.on_notify (String.eqb "/rec/info_picoflexx.csv")
            (recording_started "/rec") idle)) =
    [FileOpen "/rec/info_picoflexx.csv" "a";
     WriteKeyValueFile "/rec/info_picoflexx.csv" "Royale Timestamp Offset"
                       None true] /\
  fst (Disk.on_notify (String.eqb "/rec/info_picoflexx.csv")
         (recording_started "/gone") idle) = Raise OSError.
Proof.
  split; [reflexivity |]. split; [reflexivity |].
  destruct (recording_started_writes_offset
              (String.eqb "/rec/info_picoflexx.csv") idle never_online "/rec"
              eq_refl eq_refl) as [_ H1].
  destruct (recording_started_writes_offset
              (String.eqb "/rec/info_picoflexx.csv") idle never_online "/gone"
              eq_refl eq_refl) as [_ H2].
  cbv zeta in H1, H2.
  assert (W1 : String.eqb "/rec/info_picoflexx.csv"
                 (os_path_join "/rec" "info_picoflexx.csv") = true)
    by (vm_compute; reflexivity).
  assert (W2 : String.eqb "/rec/info_picoflexx.csv"
                 (os_path_join "/gone" "info_picoflexx.csv") = false)
    by (vm_compute; reflexivity).
  rewrite W1 in H1. rewrite W2 in H2.
  destruct H1 as [_ H1]. destruct H2 as [H2 _].
  split; [exact H1 | now rewrite H2].
Defined.

(** C10, at an instance: the settings of a source survive the round trip
    through [get_init_dict] on an unplugged device. *)
Lemma init_dict_roundtrip_witness :
  offline_at_construction unplugged = true /\
  let s1 := source_with None true true None (Some "/rec") 3 in
  let s2 := self (snd (__init__ (get_init_dict tt s1) unplugged
                                (mkReadings [] []))) in
  record_pointcloud s2 = true /\ _current_exposure_mode s2 = false /\
  current_exposure s2 = 2000 /\ selected_usecase s2 = None.
Proof.
  split; [reflexivity |]. cbv zeta.
  destruct (@init_dict_roundtrip Script Readings ScriptedCamera ScriptedClock unit tt
              (source_with None true true None (Some "/rec") 3)
              unplugged (mkReadings [] []) eq_refl)
    as (_ & H1 & H2 & H3 & H4).
  repeat split; assumption.
Defined.

(** ** The further properties, at instances *)

(** X1, at an instance: 100 polls without a frame on a device that comes
    back each time it is initialized. *)
Lemma reconnection_protocol_alternates_witness :
  camera (self recording_through_drops) <> None /\
  0 <= _reconnection_attempts (self recording_through_drops) /\
  connection_log
    (events_since recording_through_drops
       (snd (ticks 100 recording_through_drops))) =
    [Announced; Initialized true; Restored;
     Announced; Initialized true; Restored] /\
  option_map under_way
    (link_run (link_of (_reconnection_attempts (self recording_through_drops)))
       (connection_log
          (events_since recording_through_drops
             (snd (ticks 100 recording_through_drops))))) =
    Some (negb (_reconnection_attempts
                  (self (snd (ticks 100 recording_through_drops))) =? 0)).
Proof.
  assert (H1 : camera (self recording_through_drops) <> None)
    by (vm_compute; discriminate).
  assert (H2 : 0 <= _reconnection_attempts (self recording_through_drops))
    by (vm_compute; discriminate).
  split; [exact H1 |]. split; [exact H2 |].
  split; [vm_compute; reflexivity |].
  exact (proj2 (reconnection_protocol_alternates recording_through_drops
                  100 H1 H2)).
Defined.

(** X2, at an instance: the option is on, no recording is active, and the
    device is lost for 100 polls. *)
Lemma no_segment_outside_recording_witness :
  camera (self idle_with_option) <> None /\
  (_recording_directory (self idle_with_option) = None \/
   record_pointcloud (self idle_with_option) = false) /\
  started_paths
    (events_since idle_with_option (snd (ticks 100 idle_with_option))) = [].
Proof.
  assert (H1 : camera (self idle_with_option) <> None)
    by (vm_compute; discriminate).
  split; [exact H1 |]. split; [left; reflexivity |].
  exact (proj1 (no_segment_outside_recording idle_with_option 100 H1
                  (or_introl eq_refl))).
Defined.

(** X3, at an instance: the 46th timeout in a row. *)
Lemma missed_frame_count_bounded_witness :
  camera (self nearly_due) <> None /\
  0 <= _missed_frame_count (self nearly_due) <= 45 /\
  0 <= _missed_frame_count (self (snd (ticks 1 nearly_due))) <= 45.
Proof.
  assert (H1 : camera (self nearly_due) <> None)
    by (vm_compute; discriminate).
  assert (H2 : 0 <= _missed_frame_count (self nearly_due) <= 45)
    by (vm_compute; split; discriminate).
  split; [exact H1 |]. split; [exact H2 |].
  exact (missed_frame_count_bounded nearly_due 1 H1 H2).
Defined.

(** X6, at an instance. *)
Lemma on_notify_missing_key_witness :
  menu (self idle) = true /\
  on_notify (plain_notification "picoflexx.set_exposure") idle =
    (Raise KeyError, idle).
Proof.
  split; [reflexivity |].
  exact (proj1 (on_notify_missing_key idle eq_refl)).
Defined.

(** X7, at an instance: a source without a menu ignores
    "recording.started". *)
Lemma on_notify_ignores_the_rest_witness :
  menu (self never_online) = false /\
  on_notify (recording_started "/rec") never_online = (Ok tt, never_online).
Proof.
  split; [reflexivity |].
  exact (on_notify_ignores_the_rest never_online (recording_started "/rec")
           (or_introl eq_refl)).
Defined.


(** X9, at an instance: the slider is dragged to 1500. *)
Lemma exposure_slider_reaches_device_witness :
  camera (self idle) = Some unplugged /\
  menu (self idle) = true /\
  camera_calls
    (events_since (snd (set_exposure_delayed 1500 idle))
       (snd (on_notify
               (mkNotification "picoflexx.set_exposure"
                  (Some 0x1.3333333333333p-2%float) (Some 1500) None)
               (snd (set_exposure_delayed 1500 idle))))) =
    [CamSetExposure 1500].
Proof.
  repeat (split; [reflexivity |]).
  exact (proj1 (proj2 (proj2 (proj2
           (exposure_slider_reaches_device idle 1500 unplugged
              eq_refl eq_refl))))).
Defined.

(** X10, at an instance: the device is unplugged. *)
Lemma init_device_failure_is_silent_witness :
  camera (self idle) <> None /\
  fst (init_device idle) = Ok false /\
  upd_camera (camera (self idle)) (self (snd (init_device idle))) =
    self idle.
Proof.
  assert (H1 : camera (self idle) <> None) by (vm_compute; discriminate).
  assert (H2 : fst (init_device idle) = Ok false)
    by (vm_compute; reflexivity).
  split; [exact H1 |]. split; [exact H2 |].
  exact (proj1 (init_device_failure_is_silent idle H1 H2)).
Defined.

(** X11, at an instance: the device is back, in manual mode, with a use case
    selected and a remembered exposure of 2000 where the device allows
    1500. *)
Lemma init_device_reapplies_settings_witness :
  camera (self reapplying) <> None /\
  fst (init_device reapplying) = Ok true /\
  settings_sent (events_since reapplying (snd (init_device reapplying))) =
    [UsecaseSet "MODE_5_45FPS_500"; ExposureModeSet false false;
     ExposureSet 1500].
Proof.
  assert (H1 : camera (self reapplying) <> None)
    by (vm_compute; discriminate).
  assert (H2 : fst (init_device reapplying) = Ok true)
    by (vm_compute; reflexivity).
  split; [exact H1 |]. split; [exact H2 |].
  destruct (init_device_reapplies_settings reapplying true H1 H2)
    as [applied H].
  destruct applied; [vm_compute in H; discriminate H |].
  rewrite H. vm_compute. reflexivity.
Defined.

(** X12, at an instance: the device reports the limits 100 and 1500 while
    the source remembers an exposure of 2000. *)
Lemma load_camera_state_mirrors_device_witness :
  fst (online capturing) = Ok true /\
  fst (load_camera_state capturing) = Ok tt /\
  current_exposure (self (snd (load_camera_state capturing))) = 1500.
Proof.
  assert (H : fst (online capturing) = Ok true) by (vm_compute; reflexivity).
  split; [exact H |].
  destruct (load_camera_state_mirrors_device capturing H) as [Hr _].
  split; [exact Hr | vm_compute; reflexivity].
Defined.

(** X13, at an instance: the device is unplugged. *)
Lemma load_camera_state_offline_witness :
  fst (online idle) = Ok false /\
  fst (load_camera_state idle) = Ok tt /\
  upd_camera (camera (self idle)) (self (snd (load_camera_state idle))) =
    self idle.
Proof.
  assert (H : fst (online idle) = Ok false) by (vm_compute; reflexivity).
  split; [exact H |].
  destruct (load_camera_state_offline idle H) as (Hr & Hs & _).
  split; [exact Hr | exact Hs].
Defined.

(** X14, at an instance: the first frame, stamped 100.0, of a source that
    calibrates its offset to 900.0. *)
Lemma recent_events_publishes_frames_witness :
  camera (self (calibrating 100)) =
    Some (streaming [Some (frame_at 100); Some (frame_at 101)]) /\
  fst (fst (recent_events (mkEvents None None) (mkRecent None None)
              (calibrating 100))) =
    (Returned,
     mkEvents (Some (mkFrame 1000 [])) (Some (mkFrame 1000 [0; 1000]))).
Proof.
  split; [reflexivity |].
  pose proof (recent_events_publishes_frames (mkEvents None None)
                (mkRecent None None) (calibrating 100)
                (streaming [Some (frame_at 100); Some (frame_at 101)])
                eq_refl) as H.
  destruct (recent_events (mkEvents None None) (mkRecent None None)
              (calibrating 100)) as [[[out ev] rc] st'] eqn:E.
  cbn [fst cam_get_frame ScriptedCamera streaming s_frames pop] in H.
  destruct H as (o & Ho & Hev & _ & _ & Hout).
  cbn [fst]. apply (f_equal snd) in E. cbn [snd] in E. subst st'.
  assert (Hm : _current_exposure_mode (self (calibrating 100)) = false)
    by reflexivity.
  rewrite Hm in Hout. destruct Hout as [-> _]. rewrite Hev.
  assert (Ho' : royale_timestamp_offset
                  (self (snd (recent_events (mkEvents None None)
                                (mkRecent None None) (calibrating 100)))) =
                Some 900%float) by (vm_compute; reflexivity).
  rewrite Ho' in Ho. injection Ho as <-. vm_compute. reflexivity.
Defined.

(** X15, at an instance: a recording that lives through 100 polls without a
    frame, in which the device is lost and found again twice. *)
Lemma recording_segments_alternate_witness :
  camera (self mid_recording) <> None /\
  _recording_directory (self mid_recording) = Some "/rec" /\
  record_pointcloud (self mid_recording) = true /\
  0 <= _reconnection_attempts (self mid_recording) /\
  recording_calls
    (events_since mid_recording (snd (ticks 100 mid_recording))) =
    [None; Some "/rec/pointcloud_1.rrf"; None; Some "/rec/pointcloud_2.rrf"] /\
  segments_alternate (_reconnection_attempts (self mid_recording) =? 0)
    (recording_calls
       (events_since mid_recording (snd (ticks 100 mid_recording)))) =
    Some (_reconnection_attempts (self (snd (ticks 100 mid_recording))) =? 0).
Proof.
  assert (H1 : camera (self mid_recording) <> None)
    by (vm_compute; discriminate).
  assert (H2 : 0 <= _reconnection_attempts (self mid_recording))
    by (vm_compute; discriminate).
  split; [exact H1 |]. split; [reflexivity |]. split; [reflexivity |].
  split; [exact H2 |]. split; [vm_compute; reflexivity |].
  exact (recording_segments_alternate mid_recording "/rec" 100 H1 eq_refl
           eq_refl H2).
Defined.

(** X16, at an instance: 30 fps are wanted from a device whose maximum is
    45 fps. *)
Lemma frame_rate_setter_selects_closest_witness :
  camera (self capturing) <> None /\
  fst (frame_rates [] capturing) = Ok ((1, 45), [GetMaxFrameRate 45]) /\
  fst (frame_rates [GetMaxFrameRate 45] (snd (frame_rates [] capturing))) =
    Ok ((1, 45), [GetMaxFrameRate 45; GetMaxFrameRate 45]) /\
  fst (frame_rate_setter 30 "(224, 171)" [] capturing) =
    Ok (tt, [GetMaxFrameRate 45; GetMaxFrameRate 45; SetFrameRate 45]).
Proof.
  assert (H1 : camera (self capturing) <> None)
    by (vm_compute; discriminate).
  assert (H2 : fst (frame_rates [] capturing) =
               Ok ((1, 45), [GetMaxFrameRate 45]))
    by (vm_compute; reflexivity).
  assert (H3 : fst (frame_rates [GetMaxFrameRate 45]
                      (snd (frame_rates [] capturing))) =
               Ok ((1, 45), [GetMaxFrameRate 45; GetMaxFrameRate 45]))
    by (vm_compute; reflexivity).
  split; [exact H1 |]. split; [exact H2 |]. split; [exact H3 |].
  exact (proj1 (frame_rate_setter_selects_closest capturing 30 "(224, 171)"
                  [] _ _ (1, 45) (1, 45) H1 H2 H3)).
Defined.

(** X17, at an instance: 30 fps are wanted from a source without a device
    object. *)
Lemma frame_rate_without_device_witness :
  camera (self without_device) = None /\
  frame_rate [] without_device = (Ok (30, []), without_device) /\
  fst (frame_rate_setter 30 "(224, 171)" [] without_device) =
    Raise AttributeError.
Proof.
  split; [reflexivity |].
  destruct (frame_rate_without_device without_device 30 "(224, 171)" []
              eq_refl) as (_ & H2 & H3 & _).
  split; [exact H2 | exact H3].
Defined.
